(** * BeelaBackend: the reminder scheduling and triggering core

    A shallow embedding of
      - [services/aiScheduler.js]      (findSmartSlot, processBackgroundAI),
      - [services/geminiService.js]    (suggestFullScheduleWithGemini,
                                        generateNotificationLineWithGemini),
      - [utils/ttsService.js]          (buildNotificationText, computeTextHash,
                                        ensureReminderTTS),
      - [controllers/locationController.js] (haversineMeters,
                                        hasCollisionWithinFiveMin, scanAndTrigger),
      - [utils/placesService.js]       (nearbyBestPlaceByKeyword),
      - [middleware/rateLimiter.js]    (makeKey, rateLimit),
      - the reminder controller        (pickReminderFields, createReminder's
                                        payload, getReminders' paging,
                                        getReminder, deleteReminder,
                                        getReminderTTS, ensureReminderTTSNow),
      - [controllers/notificationController.js] (listNotifications' paging),
    over the document shape of [models/reminderModel.js].

    Conventions.
      - A JavaScript [Date] is its time value, a [Z] of milliseconds since the
        epoch; an invalid date is the constructor [InvalidDate].
      - A rejected promise / thrown exception is [Throw msg]; [try]/[catch] is
        [catch_].  Asynchronous code is sequential here: every [await] is a
        bind of the state-and-error monad [M].
      - The Mongo collections are lists held in [World]; queries are filters,
        [save] replaces the document with the same [_id].  Reads and writes
        of the reminder collection do not fail in this model, but for the
        two rejections of Mongoose that the embedded code can meet: the
        validation of the schema when [processBackgroundAI] saves (a
        [startDate] that is no date, a negative lead time), and the
        CastError of a query by an id that is no ObjectId, which
        [deleteReminder] can receive.
      - The external services (Gemini, Google Places, ElevenLabs) are
        black boxes whose replies are parameters of the embedded functions.
      - Coordinates and distances are real numbers, where the source has
        IEEE doubles: the rounding of the doubles is not modelled.  JSON
        numbers are rationals. *)

From Stdlib Require Import ZArith QArith Qround Reals Machin Lia Lra String Ascii List Bool.
From stdpp Require Import gmap strings list.
From Equations Require Import Equations.
Import ListNotations.
Open Scope string_scope.
Open Scope list_scope.
Open Scope Z_scope.

(* ===================================================================== *)
(** ** SHA-256 (Node's [crypto.createHash('sha256')]), FIPS 180-4 *)
(* ===================================================================== *)

Module SHA256.

Definition w32 (x : Z) : Z := x mod 4294967296.
Definition rotr (n x : Z) : Z := w32 (Z.lor (Z.shiftr x n) (Z.shiftl x (32 - n))).
Definition shr (n x : Z) : Z := Z.shiftr x n.
Definition Ch (x y z : Z) : Z := Z.lxor (Z.land x y) (Z.land (w32 (Z.lnot x)) z).
Definition Maj (x y z : Z) : Z :=
  Z.lxor (Z.lxor (Z.land x y) (Z.land x z)) (Z.land y z).
Definition Sigma0 (x : Z) : Z := Z.lxor (Z.lxor (rotr 2 x) (rotr 13 x)) (rotr 22 x).
Definition Sigma1 (x : Z) : Z := Z.lxor (Z.lxor (rotr 6 x) (rotr 11 x)) (rotr 25 x).
Definition sigma0 (x : Z) : Z := Z.lxor (Z.lxor (rotr 7 x) (rotr 18 x)) (shr 3 x).
Definition sigma1 (x : Z) : Z := Z.lxor (Z.lxor (rotr 17 x) (rotr 19 x)) (shr 10 x).

(** The constants, as FIPS 180-4 defines them: the first 32 bits of the
    fractional parts of the cube roots (for [K]) and of the square roots
    (for [H0]) of the first primes. *)
Definition isPrime (n : Z) : bool :=
  (1 <? n) &&
  List.forallb (fun d => negb (n mod Z.of_nat d =? 0)) (List.seq 2 (Z.to_nat n - 2)).

Definition primes (below : nat) : list Z :=
  List.filter isPrime (List.map Z.of_nat (List.seq 2 (below - 2))).

(** Largest [r] below [2 ^ bits] with [r ^ 3 <= n], bit by bit. *)
Fixpoint cubeRoot (bits : nat) (n r : Z) : Z :=
  match bits with
  | O => r
  | S k =>
      let r' := r + 2 ^ Z.of_nat k in
      cubeRoot k n (if r' * r' * r' <=? n then r' else r)
  end.

Definition K : list Z :=
  List.map (fun p => w32 (cubeRoot 36 (p * 2 ^ 96) 0)) (primes 312).

Definition H0 : list Z :=
  List.map (fun p => w32 (Z.sqrt (p * 2 ^ 64))) (primes 20).

Definition bytes_of (s : string) : list Z :=
  List.map (fun a => Z.of_N (N_of_ascii a)) (list_ascii_of_string s).

(** Big-endian bytes of [x], [n] of them. *)
Fixpoint be_bytes (n : nat) (x : Z) : list Z :=
  match n with
  | O => []
  | S n' => (Z.shiftr x (8 * Z.of_nat n')) mod 256 :: be_bytes n' x
  end.

Definition pad (msg : list Z) : list Z :=
  let len := Z.of_nat (List.length msg) in
  let zeros := Z.to_nat ((55 - len) mod 64) in
  msg ++ [128] ++ List.repeat 0 zeros ++ be_bytes 8 (8 * len).

Fixpoint words (fuel : nat) (bs : list Z) : list Z :=
  match fuel, bs with
  | S f, b0 :: b1 :: b2 :: b3 :: rest =>
      (b0 * 16777216 + b1 * 65536 + b2 * 256 + b3) :: words f rest
  | _, _ => []
  end.

(** Message schedule: extend the 16 block words to 64. *)
Fixpoint schedule (n : nat) (w : list Z) : list Z :=
  match n with
  | O => w
  | S n' =>
      let t := List.length w in
      let at_ (k : nat) := List.nth (t - k) w 0 in
      schedule n' (w ++ [w32 (sigma1 (at_ 2%nat) + at_ 7%nat + sigma0 (at_ 15%nat) + at_ 16%nat)])
  end.

Record regs := Regs { ra : Z; rb : Z; rc : Z; rd : Z; re : Z; rf : Z; rg : Z; rh : Z }.

Definition round (r : regs) (kw : Z * Z) : regs :=
  let '(k, w) := kw in
  let t1 := w32 (rh r + Sigma1 (re r) + Ch (re r) (rf r) (rg r) + k + w) in
  let t2 := w32 (Sigma0 (ra r) + Maj (ra r) (rb r) (rc r)) in
  Regs (w32 (t1 + t2)) (ra r) (rb r) (rc r) (w32 (rd r + t1)) (re r) (rf r) (rg r).

Definition regs_of (h : list Z) : regs :=
  let g k := List.nth k h 0 in
  Regs (g 0%nat) (g 1%nat) (g 2%nat) (g 3%nat) (g 4%nat) (g 5%nat) (g 6%nat) (g 7%nat).

Definition compress (h : list Z) (block : list Z) : list Z :=
  let r := List.fold_left round (List.combine K (schedule 48 block)) (regs_of h) in
  List.map (fun p => w32 (fst p + snd p))
    (List.combine h [ra r; rb r; rc r; rd r; re r; rf r; rg r; rh r]).

Fixpoint blocks (fuel : nat) (ws : list Z) (h : list Z) : list Z :=
  match fuel with
  | O => h
  | S f =>
      match ws with
      | [] => h
      | _ => blocks f (List.skipn 16 ws) (compress h (List.firstn 16 ws))
      end
  end.

Definition digest (s : string) : list Z :=
  let bs := pad (bytes_of s) in
  let ws := words (List.length bs) bs in
  blocks (List.length ws) ws H0.

Definition hexdigit (d : Z) : ascii :=
  ascii_of_N (Z.to_N (if d <? 10 then 48 + d else 87 + d)).

Fixpoint hex_be (n : nat) (x : Z) : string :=
  match n with
  | O => EmptyString
  | S n' => String (hexdigit ((Z.shiftr x (4 * Z.of_nat n')) mod 16)) (hex_be n' x)
  end.

(** [.digest('hex')]: 64 lowercase hexadecimal digits. *)
Definition hex (s : string) : string :=
  List.fold_right (fun w acc => String.append (hex_be 8 w) acc) EmptyString (digest s).

End SHA256.

(* ===================================================================== *)
(** ** JavaScript values, exceptions and strings *)
(* ===================================================================== *)

(** Outcome of a call that may throw (or of an awaited promise). *)
Inductive Result (A : Type) : Type :=
| Ok (a : A)
| Throw (msg : string).
Arguments Ok {A} a.
Arguments Throw {A} msg.

(** A value produced by [JSON.parse]. *)
#[local] Unset Elimination Schemes.
Inductive JValue : Type :=
| JNull
| JBool (b : bool)
| JNum (q : Q)
| JStr (s : string)
| JArr (items : list JValue)
| JObj (fields : list (string * JValue)).
#[local] Set Elimination Schemes.

(** A [Date] object. *)
Inductive JsDate : Type :=
| InvalidDate
| DateOf (ms : Z).

(** [ToBoolean] on JSON values. *)
Definition truthy (v : JValue) : bool :=
  match v with
  | JNull => false
  | JBool b => b
  | JNum q => negb (Qnum q =? 0)
  | JStr s => negb (String.eqb s EmptyString)
  | JArr _ | JObj _ => true
  end.

(** [ToBoolean] on an optional string ([None] is [undefined]). *)
Definition truthyStr (o : option string) : bool :=
  match o with
  | Some s => negb (String.eqb s EmptyString)
  | None => false
  end.

Definition isSome {A} (o : option A) : bool :=
  match o with Some _ => true | None => false end.

(** [a || b] on optional strings. *)
Definition orStr (a b : option string) : option string :=
  if truthyStr a then a else b.

(** [typeof obj === 'object'] (true of [null] too). *)
Definition isObjectType (v : JValue) : bool :=
  match v with
  | JNull | JArr _ | JObj _ => true
  | _ => false
  end.

(** Property read [obj.k]; [None] is [undefined].  Arrays and primitives
    have none of the properties read by this program; of two members with
    the same key [JSON.parse] keeps the last. *)
Fixpoint assoc (k : string) (fields : list (string * JValue)) : option JValue :=
  match fields with
  | [] => None
  | (k', v) :: rest =>
      match assoc k rest with
      | Some v' => Some v'
      | None => if String.eqb k k' then Some v else None
      end
  end.

Definition prop (k : string) (v : JValue) : option JValue :=
  match v with
  | JObj fields => assoc k fields
  | _ => None
  end.

(** [Number.isInteger(n)] for a JSON number. *)
Definition isInteger (q : Q) : bool := (Qnum q mod Zpos (Qden q) =? 0).
Definition toInteger (q : Q) : Z := Z.quot (Qnum q) (Zpos (Qden q)).

(** [TimeClip]: time values beyond 8.64e15 ms are not dates. *)
Definition timeClip (t : Z) : JsDate :=
  if Z.abs t <=? 8640000000000000 then DateOf t else InvalidDate.

Definition isWhite (a : ascii) : bool :=
  let n := nat_of_ascii a in
  ((9 <=? n) && (n <=? 13))%nat || (n =? 32)%nat.

Definition isDigit (a : ascii) : bool :=
  let n := nat_of_ascii a in ((48 <=? n) && (n <=? 57))%nat.

Fixpoint dropWhite (s : string) : string :=
  match s with
  | String a rest => if isWhite a then dropWhite rest else s
  | EmptyString => s
  end.

(** Longest prefix of decimal digits, read as a number. *)
Fixpoint digitsPrefix (s : string) (acc : option Z) : option Z :=
  match s with
  | String a rest =>
      if isDigit a
      then digitsPrefix rest
             (Some (10 * default 0 acc + (Z.of_nat (nat_of_ascii a) - 48)))
      else acc
  | EmptyString => acc
  end.

(** [parseInt(s, 10)]; [None] is [NaN]. *)
Definition parseInt (s : string) : option Z :=
  match dropWhite s with
  | String "-" rest => Z.opp <$> digitsPrefix rest None
  | String "+" rest => digitsPrefix rest None
  | s' => digitsPrefix s' None
  end.

(** [Math.max(a, b)] with [b] possibly [NaN]. *)
Definition mathMax (a : Z) (b : option Z) : option Z := Z.max a <$> b.

(** [s.split(' ')[0]] *)
Fixpoint firstWord (s : string) : string :=
  match s with
  | String a rest => if Ascii.eqb a " " then EmptyString else String a (firstWord rest)
  | EmptyString => EmptyString
  end.

(** [s.trim()], for the ASCII white space. *)
Fixpoint trimEnd (s : string) : string :=
  match s with
  | String a rest =>
      match trimEnd rest with
      | EmptyString => if isWhite a then EmptyString else String a EmptyString
      | r => String a r
      end
  | EmptyString => EmptyString
  end.

Definition trim (s : string) : string := trimEnd (dropWhite s).

(** [s.replace(/\s+/g, ' ')]: every run of white space becomes one space. *)
Fixpoint collapseWhite (inGap : bool) (s : string) : string :=
  match s with
  | String a rest =>
      if isWhite a
      then (if inGap then collapseWhite true rest
            else String " " (collapseWhite true rest))
      else String a (collapseWhite false rest)
  | EmptyString => EmptyString
  end.

(** [s.split('\n')[0]] *)
Fixpoint firstLine (s : string) : string :=
  match s with
  | String a rest =>
      if (nat_of_ascii a =? 10)%nat then EmptyString else String a (firstLine rest)
  | EmptyString => EmptyString
  end.

(** [text.match(/\{[\s\S]*\}/)]: from the first opening brace to the last
    closing brace after it. *)
Fixpoint fromFirstBrace (s : string) : option string :=
  match s with
  | String a rest => if Ascii.eqb a "{" then Some s else fromFirstBrace rest
  | EmptyString => None
  end.

Fixpoint uptoLastBrace (s : string) : option string :=
  match s with
  | String a rest =>
      match uptoLastBrace rest with
      | Some r => Some (String a r)
      | None => if Ascii.eqb a "}" then Some (String a EmptyString) else None
      end
  | EmptyString => None
  end.

Definition matchJsonBlock (text : string) : option string :=
  fromFirstBrace text ≫= uptoLastBrace.

(* ===================================================================== *)
(** ** The documents of [models/reminderModel.js] *)
(* ===================================================================== *)

Definition ObjectId : Type := string.

(** The populated [user] path ([populate('user', 'fullname')]). *)
Record User : Type := mkUser {
  user_id : ObjectId;
  fullname : option string }.

Inductive ReminderType : Type := Task | Meeting | Location.
Inductive Status : Type := active | expired | completed.
Inductive ScheduleType : Type := oneDay | routine.
Inductive TtsStatus : Type := pending | ready | failed.

Record ScheduleTime : Type := mkScheduleTime {
  minutesBeforeStart : option Q;
  fixedTime : option string }.

Record TriggeredLocation : Type := mkTriggeredLocation {
  tlLat : option R;
  tlLng : option R;
  tlPlaceId : option string;
  tlName : option string;
  tlRating : option Q }.

(** [tts.audio]: the buffer is a byte string. *)
Record Audio : Type := mkAudio {
  data : string;
  contentType : string;
  size : nat }.

(** [tts]; the sub-document always exists and [status] defaults to
    ['pending']. *)
Record Tts : Type := mkTts {
  voiceId : option string;
  textHash : option string;
  audio : option Audio;
  ttsStatus : TtsStatus;
  generatedAt : option Z }.

Record Reminder : Type := mkReminder {
  _id : ObjectId;
  user : User;
  type : ReminderType;
  title : string;
  description : option string;
  startDate : option Z;
  locationName : option string;
  day : option string;
  status : Status;
  lastTriggeredAt : option Z;
  triggeredLocation : option TriggeredLocation;
  isManualSchedule : bool;
  scheduleType : option ScheduleType;
  scheduleTime : option ScheduleTime;
  scheduleDays : option (list Z);
  aiSuggested : bool;
  aiNotificationLine : option string;
  notificationPreferenceMinutes : Q;
  isCompleted : bool;
  tts : Tts }.

Definition set_voiceId (v : option string) (t : Tts) : Tts :=
  mkTts v (textHash t) (audio t) (ttsStatus t) (generatedAt t).

Definition set_textHash (v : option string) (t : Tts) : Tts :=
  mkTts (voiceId t) v (audio t) (ttsStatus t) (generatedAt t).

Definition set_audio (v : option Audio) (t : Tts) : Tts :=
  mkTts (voiceId t) (textHash t) v (ttsStatus t) (generatedAt t).

Definition set_ttsStatus (v : TtsStatus) (t : Tts) : Tts :=
  mkTts (voiceId t) (textHash t) (audio t) v (generatedAt t).

Definition set_generatedAt (v : option Z) (t : Tts) : Tts :=
  mkTts (voiceId t) (textHash t) (audio t) (ttsStatus t) v.

Definition set_startDate (v : option Z) (r : Reminder) : Reminder :=
  mkReminder (_id r) (user r) (type r) (title r) (description r) v (locationName r) (day r) (status r) (lastTriggeredAt r) (triggeredLocation r) (isManualSchedule r) (scheduleType r) (scheduleTime r) (scheduleDays r) (aiSuggested r) (aiNotificationLine r) (notificationPreferenceMinutes r) (isCompleted r) (tts r).

Definition set_scheduleType (v : option ScheduleType) (r : Reminder) : Reminder :=
  mkReminder (_id r) (user r) (type r) (title r) (description r) (startDate r) (locationName r) (day r) (status r) (lastTriggeredAt r) (triggeredLocation r) (isManualSchedule r) v (scheduleTime r) (scheduleDays r) (aiSuggested r) (aiNotificationLine r) (notificationPreferenceMinutes r) (isCompleted r) (tts r).

Definition set_scheduleTime (v : option ScheduleTime) (r : Reminder) : Reminder :=
  mkReminder (_id r) (user r) (type r) (title r) (description r) (startDate r) (locationName r) (day r) (status r) (lastTriggeredAt r) (triggeredLocation r) (isManualSchedule r) (scheduleType r) v (scheduleDays r) (aiSuggested r) (aiNotificationLine r) (notificationPreferenceMinutes r) (isCompleted r) (tts r).

Definition set_scheduleDays (v : option (list Z)) (r : Reminder) : Reminder :=
  mkReminder (_id r) (user r) (type r) (title r) (description r) (startDate r) (locationName r) (day r) (status r) (lastTriggeredAt r) (triggeredLocation r) (isManualSchedule r) (scheduleType r) (scheduleTime r) v (aiSuggested r) (aiNotificationLine r) (notificationPreferenceMinutes r) (isCompleted r) (tts r).

Definition set_aiSuggested (v : bool) (r : Reminder) : Reminder :=
  mkReminder (_id r) (user r) (type r) (title r) (description r) (startDate r) (locationName r) (day r) (status r) (lastTriggeredAt r) (triggeredLocation r) (isManualSchedule r) (scheduleType r) (scheduleTime r) (scheduleDays r) v (aiNotificationLine r) (notificationPreferenceMinutes r) (isCompleted r) (tts r).

Definition set_aiNotificationLine (v : option string) (r : Reminder) : Reminder :=
  mkReminder (_id r) (user r) (type r) (title r) (description r) (startDate r) (locationName r) (day r) (status r) (lastTriggeredAt r) (triggeredLocation r) (isManualSchedule r) (scheduleType r) (scheduleTime r) (scheduleDays r) (aiSuggested r) v (notificationPreferenceMinutes r) (isCompleted r) (tts r).

Definition set_notificationPreferenceMinutes (v : Q) (r : Reminder) : Reminder :=
  mkReminder (_id r) (user r) (type r) (title r) (description r) (startDate r) (locationName r) (day r) (status r) (lastTriggeredAt r) (triggeredLocation r) (isManualSchedule r) (scheduleType r) (scheduleTime r) (scheduleDays r) (aiSuggested r) (aiNotificationLine r) v (isCompleted r) (tts r).

Definition set_tts (v : Tts) (r : Reminder) : Reminder :=
  mkReminder (_id r) (user r) (type r) (title r) (description r) (startDate r) (locationName r) (day r) (status r) (lastTriggeredAt r) (triggeredLocation r) (isManualSchedule r) (scheduleType r) (scheduleTime r) (scheduleDays r) (aiSuggested r) (aiNotificationLine r) (notificationPreferenceMinutes r) (isCompleted r) v.

Definition set_lastTriggeredAt (v : option Z) (r : Reminder) : Reminder :=
  mkReminder (_id r) (user r) (type r) (title r) (description r) (startDate r) (locationName r) (day r) (status r) v (triggeredLocation r) (isManualSchedule r) (scheduleType r) (scheduleTime r) (scheduleDays r) (aiSuggested r) (aiNotificationLine r) (notificationPreferenceMinutes r) (isCompleted r) (tts r).

Definition set_status (v : Status) (r : Reminder) : Reminder :=
  mkReminder (_id r) (user r) (type r) (title r) (description r) (startDate r) (locationName r) (day r) v (lastTriggeredAt r) (triggeredLocation r) (isManualSchedule r) (scheduleType r) (scheduleTime r) (scheduleDays r) (aiSuggested r) (aiNotificationLine r) (notificationPreferenceMinutes r) (isCompleted r) (tts r).

Definition set_triggeredLocation (v : option TriggeredLocation) (r : Reminder) : Reminder :=
  mkReminder (_id r) (user r) (type r) (title r) (description r) (startDate r) (locationName r) (day r) (status r) (lastTriggeredAt r) v (isManualSchedule r) (scheduleType r) (scheduleTime r) (scheduleDays r) (aiSuggested r) (aiNotificationLine r) (notificationPreferenceMinutes r) (isCompleted r) (tts r).

Definition ReminderType_eqb (a b : ReminderType) : bool :=
  match a, b with
  | Task, Task | Meeting, Meeting | Location, Location => true
  | _, _ => false
  end.

Definition Status_eqb (a b : Status) : bool :=
  match a, b with
  | active, active | expired, expired | completed, completed => true
  | _, _ => false
  end.

(** A document of [models/notificationModel.js]. *)
Record Notification : Type := mkNotification {
  nUserId : ObjectId;
  nType : string;
  message : string;
  isRead : bool;
  nReminderId : ObjectId }.

(** What [normalizePlace] of [utils/placesService.js] returns: the
    coordinates are [None] when they are not numbers. *)
Record Place : Type := mkPlace {
  place_id : option string;
  placeName : option string;
  rating : option Q;
  placeLat : option R;
  placeLng : option R }.

(** The schedule object built by [suggestFullScheduleWithGemini] and by the
    fallback of [processBackgroundAI]; [startDateISO] is [JNull] or the
    truthy JSON value of the reply. *)
Record Schedule : Type := mkSchedule {
  startDateISO : JValue;
  sScheduleType : ScheduleType;
  sScheduleDays : list Z;
  sScheduleTime : ScheduleTime }.

(** [process.env] and the optional modules. *)
Record Env : Type := mkEnv {
  ELEVENLABS_API_KEY : option string;
  ELEVENLABS_DEFAULT_VOICE_ID : option string;
  LOCATION_MAX_TRIGGER_METERS : option string;
  GOOGLE_GEMINI_API_KEY : option string;
  (** [require('./geminiService')] succeeded *)
  geminiModule : bool;
  (** [require('@google/generative-ai')] gave [GoogleGenerativeAI] *)
  geminiSDK : bool }.

(* ===================================================================== *)
(** ** State and exceptions *)
(* ===================================================================== *)

(** The collections, the system clock ([Date.now()]) and the log of the
    requests sent to the speech service (voice id, text). *)
Record World : Type := mkWorld {
  reminders : list Reminder;
  notifications : list Notification;
  synthLog : list (string * string);
  clock : Z }.

Definition M (A : Type) : Type := World -> Result A * World.

Definition ret {A} (a : A) : M A := fun w => (Ok a, w).
Definition throw {A} (msg : string) : M A := fun w => (Throw msg, w).

Definition bind {A B} (m : M A) (k : A -> M B) : M B :=
  fun w =>
    match m w with
    | (Ok a, w') => k a w'
    | (Throw e, w') => (Throw e, w')
    end.

(** [try { m } catch (e) { h e }] *)
Definition catch_ {A} (m : M A) (h : string -> M A) : M A :=
  fun w =>
    match m w with
    | (Ok a, w') => (Ok a, w')
    | (Throw e, w') => h e w'
    end.

Definition liftResult {A} (r : Result A) : M A := fun w => (r, w).
Definition getWorld : M World := fun w => (Ok w, w).
Definition putWorld (w' : World) : M unit := fun _ => (Ok tt, w').

Declare Scope js_scope.
Delimit Scope js_scope with js.
Notation "'let*' x ':=' m 'in' k" := (bind m (fun x => k))
  (at level 10, x name, m at level 100, k at level 200) : js_scope.
Notation "'do' m 'then' k" := (bind m (fun _ => k))
  (at level 10, m at level 100, k at level 200) : js_scope.
Open Scope js_scope.

(** [Reminder.findById(id)] *)
Definition findById (id : ObjectId) (w : World) : option Reminder :=
  List.find (fun r => String.eqb (_id r) id) (reminders w).

(** [doc.save()]: the stored document with this [_id] is replaced. *)
Definition replaceDoc (doc : Reminder) (l : list Reminder) : list Reminder :=
  List.map (fun r => if String.eqb (_id r) (_id doc) then doc else r) l.

Definition save (doc : Reminder) : M unit :=
  fun w => (Ok tt, mkWorld (replaceDoc doc (reminders w)) (notifications w)
                           (synthLog w) (clock w)).


(* ===================================================================== *)
(** ** Shapes of strings *)
(* ===================================================================== *)

Fixpoint allChars (p : ascii -> bool) (s : string) : bool :=
  match s with
  | String a rest => p a && allChars p rest
  | EmptyString => true
  end.

(** A lowercase hexadecimal digit. *)
Definition isHexLower (a : ascii) : bool :=
  let n := nat_of_ascii a in
  ((48 <=? n) && (n <=? 57))%nat || ((97 <=? n) && (n <=? 102))%nat.

(** Words separated by single spaces: no white space but the space, no
    space at either end, no two spaces in a row.  [afterWord] tells that
    the character before [s] belongs to a word. *)
Fixpoint wellSpaced (afterWord : bool) (s : string) : bool :=
  match s with
  | String a rest =>
      if isWhite a then afterWord && Ascii.eqb a " " && wellSpaced false rest
      else wellSpaced true rest
  | EmptyString => afterWord
  end.

Definition oneLine (s : string) : bool :=
  match s with
  | EmptyString => true
  | _ => wellSpaced false s
  end.

(** The string does not end with white space. *)
Fixpoint cleanEnd (s : string) : bool :=
  match s with
  | String a EmptyString => negb (isWhite a)
  | String _ rest => cleanEnd rest
  | EmptyString => true
  end.

(** [n || d] for a number that may be [NaN] ([None]). *)
Definition orNum (n : option Z) (d : Z) : Z :=
  match n with
  | Some k => if k =? 0 then d else k
  | None => d
  end.

(** [Math.min(a, b)] with [b] possibly [NaN]. *)
Definition mathMin (a : Z) (b : option Z) : option Z := Z.min a <$> b.

(** The replies of the handlers of the reminder controller: status 404, a
    success with its data, status 500. *)
Inductive Reply (A : Type) : Type :=
| notFound (message : string)
| success (data : A)
| serverError (message : string).
Arguments notFound {A} message.
Arguments success {A} data.
Arguments serverError {A} message.

(* ===================================================================== *)
(** ** middleware/rateLimiter.js *)
(* ===================================================================== *)

Module RateLimiter.

(** What [makeKey] reads of a request: [req.user?._id], [req.body?.email]
    (a string), [req.ip], the header [x-forwarded-for] and
    [req.connection?.remoteAddress]. *)
Record Request : Type := mkRequest {
  userOf : option string;
  email : option string;
  ip : option string;
  forwardedFor : option string;
  remoteAddress : option string }.

Definition lowerAscii (a : ascii) : ascii :=
  let n := nat_of_ascii a in
  if ((65 <=? n) && (n <=? 90))%nat then ascii_of_nat (n + 32) else a.

(** [s.toLowerCase()], for the ASCII letters. *)
Fixpoint toLowerCase (s : string) : string :=
  match s with
  | String a rest => String (lowerAscii a) (toLowerCase rest)
  | EmptyString => EmptyString
  end.

Definition makeKey (req : Request) (keyType : string) : string :=
  if String.eqb keyType "user" && truthyStr (userOf req)
  then "user:" +:+ default EmptyString (userOf req)
  else if String.eqb keyType "email" && truthyStr (email req)
  then "email:" +:+ toLowerCase (default EmptyString (email req))
  else "ip:" +:+
       default "unknown"
         (orStr (ip req)
            (orStr (forwardedFor req)
               (orStr (remoteAddress req) (Some "unknown")))).

(** [options]: [{ windowMs, max, keyType }], each possibly missing. *)
Record Options : Type := mkOptions {
  windowMs : option Z;
  max : option Z;
  keyType : option string }.

Definition windowOf (options : Options) : Z := orNum (windowMs options) (60 * 1000).
Definition maxOf (options : Options) : Z := orNum (max options) 5.
Definition keyTypeOf (options : Options) : string :=
  default "ip" (orStr (keyType options) (Some "ip")).

(** The module-level [buckets] is a [gmap string (list Z)]: for each key
    the times of the requests let through, oldest first. *)

(** [while (arr.length && (now - arr[0]) > windowMs) arr.shift()] *)
Fixpoint prune (window now : Z) (arr : list Z) : list Z :=
  match arr with
  | t :: rest => if window <? now - t then prune window now rest else arr
  | [] => []
  end.

(** [next()], or the reply with status 429. *)
Inductive Verdict : Type := next | tooManyAttempts.

(** The middleware returned by [rateLimit(options)], on request [req] at
    [Date.now() = now].  The array of the key is pruned in place, so the
    pruning stays when the request is refused; nothing in the [try] throws
    for the requests described by [Request]. *)
Definition rateLimit (options : Options) (req : Request) (now : Z) (buckets : gmap string (list Z))
    : Verdict * gmap string (list Z) :=
  let key := makeKey req (keyTypeOf options) in
  let arr := prune (windowOf options) now (default [] (buckets !! key)) in
  if maxOf options <=? Z.of_nat (List.length arr)
  then (tooManyAttempts, <[key := arr]> buckets)
  else (next, <[key := arr ++ [now]]> buckets).

(** A request through one of the limiters, and a sequence of them served
    in order on the shared [buckets]. *)
Record Hit : Type := mkHit {
  hitOptions : Options;
  hitRequest : Request;
  hitTime : Z }.

Definition keyOf (h : Hit) : string := makeKey (hitRequest h) (keyTypeOf (hitOptions h)).

Fixpoint serve (hits : list Hit) (buckets : gmap string (list Z)) : list Verdict * gmap string (list Z) :=
  match hits with
  | [] => ([], buckets)
  | h :: rest =>
      let '(v, buckets1) := rateLimit (hitOptions h) (hitRequest h) (hitTime h) buckets in
      let '(vs, buckets2) := serve rest buckets1 in
      (v :: vs, buckets2)
  end.

(** *** The sliding window the limiter stands for

    The reference limiter keeps the whole log of the requests let through
    and lets a request through when fewer than [max] logged requests of the
    same key are at most [window] old. *)
Definition timesOf (key : string) (log : list (string * Z)) : list Z :=
  List.map snd (List.filter (fun e => String.eqb (fst e) key) log).

Definition inWindow (window now t : Z) : bool := now - t <=? window.

Fixpoint slidingWindow (window : Z) (log : list (string * Z)) (hits : list Hit)
    : list Verdict :=
  match hits with
  | [] => []
  | h :: rest =>
      let recent :=
        List.filter (inWindow window (hitTime h)) (timesOf (keyOf h) log) in
      if maxOf (hitOptions h) <=? Z.of_nat (List.length recent)
      then tooManyAttempts :: slidingWindow window log rest
      else next :: slidingWindow window (log ++ [(keyOf h, hitTime h)]) rest
  end.

(** The clock does not go back: the times of [hits] are in order, from [t0]
    on. *)
Fixpoint inOrder (t0 : Z) (hits : list Hit) : Prop :=
  match hits with
  | [] => True
  | h :: rest => t0 <= hitTime h /\ inOrder (hitTime h) rest
  end.

(** Oldest first: each time is at most the times after it. *)
Fixpoint ascending (arr : list Z) : Prop :=
  match arr with
  | [] => True
  | t :: rest => Forall (fun u => t <= u) rest /\ ascending rest
  end.

(** What the buckets keep of the log, at a time [T] that no logged request
    is later than: each bucket is in order, and holds the logged times of
    its key that can still be in the window. *)
Definition keepsLog (window T : Z) (buckets : gmap string (list Z)) (log : list (string * Z)) : Prop :=
  forall key,
    ascending (default [] (buckets !! key)) /\
    Forall (fun t => t <= T) (default [] (buckets !! key)) /\
    forall now, T <= now ->
      List.filter (inWindow window now) (default [] (buckets !! key))
      = List.filter (inWindow window now) (timesOf key log).

(** No bucket holds more than [m] times. *)
Definition bounded (m : Z) (buckets : gmap string (list Z)) : Prop :=
  forall key arr, buckets !! key = Some arr -> Z.of_nat (List.length arr) <= m.

(** The forgot-password and verify-otp limiters of [routes/authRoutes.js]. *)
Definition forgotPassword : Options := mkOptions (Some (60 * 1000)) (Some 5) (Some "email").
Definition verifyOtp : Options := mkOptions (Some (60 * 1000)) (Some 10) (Some "email").

Definition fromEmail (address : string) : Request :=
  mkRequest None (Some address) (Some "10.0.0.7") None None.

(** Six requests for one address within five seconds, then one a minute
    after the first. *)
Definition burst : list Hit :=
  [mkHit forgotPassword (fromEmail "Ann@Example.com") 1000;
   mkHit forgotPassword (fromEmail "ann@example.com") 2000;
   mkHit forgotPassword (fromEmail "ann@example.com") 3000;
   mkHit forgotPassword (fromEmail "ANN@example.com") 4000;
   mkHit forgotPassword (fromEmail "ann@example.com") 5000;
   mkHit forgotPassword (fromEmail "ann@example.com") 6000;
   mkHit forgotPassword (fromEmail "ann@example.com") 61001].

End RateLimiter.

(* ===================================================================== *)
(** ** Paging and field selection of the controllers *)
(* ===================================================================== *)

(** [getReminders] of the reminder controller: [page] and [limit]
    of the query, [None] when the parameter is absent. *)
Definition pageNum (page : option string) : Z :=
  Z.max (orNum (parseInt (default "1" page)) 1) 1.

Definition limitNum (limit : option string) : Z :=
  Z.min (Z.max (orNum (parseInt (default "50" limit)) 50) 1) 100.

(** [listNotifications] of the notification controller: [page],
    [limit] and [skip]; [None] is [NaN]. *)
Definition notificationsPage (page : option string) : option Z :=
  mathMax 1 (parseInt (default "1" (orStr page (Some "1")))).

Definition notificationsLimit (limit : option string) : option Z :=
  mathMin 100 (mathMax 1 (parseInt (default "50" (orStr limit (Some "50"))))).

Definition notificationsSkip (page limit : option string) : option Z :=
  match notificationsPage page, notificationsLimit limit with
  | Some p, Some l => Some ((p - 1) * l)
  | _, _ => None
  end.

(** [pickReminderFields]: the fields an update may set. *)
Definition allowed : list string :=
  ["type"; "title"; "description"; "icon"; "startDate"; "location";
   "day"; "status"; "lastTriggeredAt"; "triggeredLocation"; "isCompleted";
   "isManualSchedule"; "scheduleType"; "scheduleTime"; "scheduleDays";
   "notificationPreferenceMinutes"].

(** The object [out], as the list of its members in insertion order. *)
Definition pickReminderFields (src : JValue) : list (string * JValue) :=
  omap (fun k => pair k <$> prop k src) allowed.

(* ===================================================================== *)
(** ** [Date.prototype.toISOString]

    The Date Time String Format of ECMAScript: proleptic Gregorian
    calendar, UTC, [YYYY-MM-DDTHH:mm:ss.sssZ]. *)
(* ===================================================================== *)

(** Year of the era, month and day of the [doe]-th day of a 400-year era
    that starts on the first of March. *)
Definition civilOfDoe (doe : Z) : Z * Z * Z :=
  let yoe := (doe - doe / 1460 + doe / 36524 - doe / 146096) / 365 in
  let doy := doe - (365 * yoe + yoe / 4 - yoe / 100) in
  let mp := (5 * doy + 2) / 153 in
  let d := doy - (153 * mp + 2) / 5 + 1 in
  let m := if mp <? 10 then mp + 3 else mp - 9 in
  (yoe, m, d).

Definition doeOfCivil (yoe m d : Z) : Z :=
  let mp := if 2 <? m then m - 3 else m + 9 in
  let doy := (153 * mp + 2) / 5 + d - 1 in
  yoe * 365 + yoe / 4 - yoe / 100 + doy.

(** Year, month and day of day number [z] (days since 1970-01-01). *)
Definition civilOfDays (z : Z) : Z * Z * Z :=
  let era := (z + 719468) / 146097 in
  let doe := (z + 719468) mod 146097 in
  let '(yoe, m, d) := civilOfDoe doe in
  (yoe + era * 400 + (if m <=? 2 then 1 else 0), m, d).

Definition daysOfCivil (y m d : Z) : Z :=
  let y' := if m <=? 2 then y - 1 else y in
  (y' / 400) * 146097 + doeOfCivil (y' mod 400) m d - 719468.

(** The test that day [doe] of an era is read back from its date. *)
Definition checkDoe (doe : Z) : bool :=
  let '(yoe, m, d) := civilOfDoe doe in
  (doeOfCivil yoe m d =? doe) && (0 <=? yoe) && (yoe <=? 399)
  && (1 <=? m) && (m <=? 12) && (1 <=? d) && (d <=? 31).

Fixpoint checkFrom (n : nat) (doe : Z) : bool :=
  match n with
  | O => true
  | S k => checkDoe doe && checkFrom k (doe + 1)
  end.

Definition digitChar (x : Z) : ascii := ascii_of_nat (48 + Z.to_nat x).
Definition digitVal (a : ascii) : Z := Z.of_nat (nat_of_ascii a) - 48.
Definition digitAt (k : Z) (n : Z) : ascii := digitChar ((n / 10 ^ k) mod 10).

Definition yearChars (y : Z) : list ascii :=
  if (0 <=? y) && (y <=? 9999)
  then [digitAt 3 y; digitAt 2 y; digitAt 1 y; digitAt 0 y]
  else (if y <? 0 then "-"%char else "+"%char)
       :: [digitAt 5 (Z.abs y); digitAt 4 (Z.abs y); digitAt 3 (Z.abs y);
           digitAt 2 (Z.abs y); digitAt 1 (Z.abs y); digitAt 0 (Z.abs y)].

(** [Date.prototype.toISOString]: [YYYY-MM-DDTHH:mm:ss.sssZ], with a sign
    and six digits for the years outside 0..9999. *)
Definition toISOString (t : Z) : string :=
  let days := t / 86400000 in
  let msDay := t mod 86400000 in
  let '(y, m, d) := civilOfDays days in
  let h := msDay / 3600000 in
  let mi := (msDay / 60000) mod 60 in
  let s := (msDay / 1000) mod 60 in
  let ms := msDay mod 1000 in
  string_of_list_ascii
    (yearChars y ++
     ["-"%char; digitAt 1 m; digitAt 0 m; "-"%char; digitAt 1 d; digitAt 0 d;
      "T"%char; digitAt 1 h; digitAt 0 h; ":"%char; digitAt 1 mi; digitAt 0 mi;
      ":"%char; digitAt 1 s; digitAt 0 s; "."%char;
      digitAt 2 ms; digitAt 1 ms; digitAt 0 ms; "Z"%char]).

(* ===================================================================== *)
(** ** A reference platform

    A reader of the ISO format (the string case of the [Date]
    constructor), a JSON reader and a fixed time zone.  The examples at the
    end of the file run on it. *)
(* ===================================================================== *)

Module Ref.

Definition num (ds : list ascii) : Z :=
  List.fold_left (fun acc a => 10 * acc + digitVal a) ds 0.

Definition timeOfFields (y m d h mi s ms : Z) : JsDate :=
  if (1 <=? m) && (m <=? 12) && (1 <=? d) && (d <=? 31)
     && (h <=? 23) && (mi <=? 59) && (s <=? 59)
  then timeClip (daysOfCivil y m d * 86400000
                 + h * 3600000 + mi * 60000 + s * 1000 + ms)
  else InvalidDate.

(** The part after the year: [-MM-DDTHH:mm:ss.sssZ] or [-MM-DDTHH:mm:ssZ]. *)
Definition parseTail (y : Z) (rest : list ascii) : JsDate :=
  match rest with
  | [c1; m1; m0; c2; d1; d0; cT; h1; h0; c3; i1; i0; c4; s1; s0; c5; f2; f1; f0; cZ] =>
      if Ascii.eqb c1 "-" && Ascii.eqb c2 "-" && Ascii.eqb cT "T"
         && Ascii.eqb c3 ":" && Ascii.eqb c4 ":" && Ascii.eqb c5 "."
         && Ascii.eqb cZ "Z"
         && List.forallb isDigit [m1; m0; d1; d0; h1; h0; i1; i0; s1; s0; f2; f1; f0]
      then timeOfFields y (num [m1; m0]) (num [d1; d0]) (num [h1; h0])
             (num [i1; i0]) (num [s1; s0]) (num [f2; f1; f0])
      else InvalidDate
  | [c1; m1; m0; c2; d1; d0; cT; h1; h0; c3; i1; i0; c4; s1; s0; cZ] =>
      if Ascii.eqb c1 "-" && Ascii.eqb c2 "-" && Ascii.eqb cT "T"
         && Ascii.eqb c3 ":" && Ascii.eqb c4 ":" && Ascii.eqb cZ "Z"
         && List.forallb isDigit [m1; m0; d1; d0; h1; h0; i1; i0; s1; s0]
      then timeOfFields y (num [m1; m0]) (num [d1; d0]) (num [h1; h0])
             (num [i1; i0]) (num [s1; s0]) 0
      else InvalidDate
  | _ => InvalidDate
  end.

(** The [Date] constructor on a string; only the ISO format is read. *)
Definition Date_parse (s : string) : JsDate :=
  match list_ascii_of_string s with
  | c :: y5 :: y4 :: y3 :: y2 :: y1 :: y0 :: rest =>
      if isDigit c
      then (if List.forallb isDigit [y5; y4; y3]
            then parseTail (num [c; y5; y4; y3]) (y2 :: y1 :: y0 :: rest)
            else InvalidDate)
      else if List.forallb isDigit [y5; y4; y3; y2; y1; y0]
      then (if Ascii.eqb c "+" then parseTail (num [y5; y4; y3; y2; y1; y0]) rest
            else if Ascii.eqb c "-"
            then parseTail (- num [y5; y4; y3; y2; y1; y0]) rest
            else InvalidDate)
      else InvalidDate
  | _ => InvalidDate
  end.

(** Local time is UTC+05:00 all year. *)
Definition localTZA (t : Z) : Z := 5 * 3600000.

(** [String(v)] of an object. *)
Definition ToString (v : JValue) : string := "[object Object]".

(** *** A JSON reader: literals, numbers, strings with the simple escapes,
    arrays and objects. *)

Fixpoint skipWs (cs : list ascii) : list ascii :=
  match cs with
  | c :: rest => if isWhite c then skipWs rest else cs
  | [] => []
  end.

Fixpoint readDigits (cs : list ascii) (acc : Z) (n : nat) : Z * nat * list ascii :=
  match cs with
  | c :: rest =>
      if isDigit c then readDigits rest (10 * acc + digitVal c) (S n)
      else (acc, n, cs)
  | [] => (acc, n, [])
  end.

(** A number: optional minus, digits, optional fraction. *)
Definition readNumber (cs : list ascii) : option (Q * list ascii) :=
  let '(neg, cs1) :=
    match cs with
    | "-"%char :: r => (true, r)
    | _ => (false, cs)
    end in
  let '(ip, n, cs2) := readDigits cs1 0 0 in
  if (n =? 0)%nat then None
  else
    let '(fp, k, cs3) :=
      match cs2 with
      | "."%char :: r => readDigits r 0 0
      | _ => (0, 0%nat, cs2)
      end in
    let den := Z.to_pos (10 ^ Z.of_nat k) in
    let q := Qred ((ip * Zpos den + fp) # den) in
    Some (if neg then Qopp q else q, cs3).

Definition dquote : ascii := ascii_of_nat 34.
Definition backslash : ascii := ascii_of_nat 92.

(** The characters of a string up to its closing quote; [esc] tells that
    the previous character was a backslash. *)
Fixpoint readString (esc : bool) (cs : list ascii) : option (string * list ascii) :=
  match cs with
  | c :: rest =>
      if esc
      then
        let c' := if Ascii.eqb c "n" then ascii_of_nat 10
                  else if Ascii.eqb c "t" then ascii_of_nat 9 else c in
        match readString false rest with
        | Some (s, r) => Some (String c' s, r)
        | None => None
        end
      else if Ascii.eqb c dquote then Some (EmptyString, rest)
      else if Ascii.eqb c backslash then readString true rest
      else
        match readString false rest with
        | Some (s, r) => Some (String c s, r)
        | None => None
        end
  | [] => None
  end.

Fixpoint readValue (fuel : nat) (cs : list ascii) : option (JValue * list ascii) :=
  match fuel with
  | O => None
  | S fuel' =>
      let readItems :=
        fix readItems (n : nat) (cs : list ascii) : option (list JValue * list ascii) :=
          match n with
          | O => None
          | S n' =>
              match readValue fuel' cs with
              | Some (v, r) =>
                  match skipWs r with
                  | ","%char :: r' =>
                      match readItems n' r' with
                      | Some (vs, r'') => Some (v :: vs, r'')
                      | None => None
                      end
                  | "]"%char :: r' => Some ([v], r')
                  | _ => None
                  end
              | None => None
              end
          end in
      let readMembers :=
        fix readMembers (n : nat) (cs : list ascii)
            : option (list (string * JValue) * list ascii) :=
          match n with
          | O => None
          | S n' =>
              match skipWs cs with
              | c :: r =>
                  if negb (Ascii.eqb c dquote) then None else
                  match readString false r with
                  | Some (k, r1) =>
                      match skipWs r1 with
                      | ":"%char :: r2 =>
                          match readValue fuel' r2 with
                          | Some (v, r3) =>
                              match skipWs r3 with
                              | ","%char :: r4 =>
                                  match readMembers n' r4 with
                                  | Some (ms, r5) => Some ((k, v) :: ms, r5)
                                  | None => None
                                  end
                              | "}"%char :: r4 => Some ([(k, v)], r4)
                              | _ => None
                              end
                          | None => None
                          end
                      | _ => None
                      end
                  | None => None
                  end
              | _ => None
              end
          end in
      match skipWs cs with
      | "n"%char :: "u"%char :: "l"%char :: "l"%char :: r => Some (JNull, r)
      | "t"%char :: "r"%char :: "u"%char :: "e"%char :: r => Some (JBool true, r)
      | "f"%char :: "a"%char :: "l"%char :: "s"%char :: "e"%char :: r =>
          Some (JBool false, r)
      | "["%char :: r =>
          match skipWs r with
          | "]"%char :: r' => Some (JArr [], r')
          | _ =>
              match readItems fuel' r with
              | Some (vs, r') => Some (JArr vs, r')
              | None => None
              end
          end
      | "{"%char :: r =>
          match skipWs r with
          | "}"%char :: r' => Some (JObj [], r')
          | _ =>
              match readMembers fuel' r with
              | Some (ms, r') => Some (JObj ms, r')
              | None => None
              end
          end
      | c :: r =>
          if Ascii.eqb c dquote
          then match readString false r with
               | Some (s, r') => Some (JStr s, r')
               | None => None
               end
          else match readNumber (c :: r) with
               | Some (q, r') => Some (JNum q, r')
               | None => None
               end
      | [] => None
      end
  end.

(** [JSON.parse]; [None] is a [SyntaxError]. *)
Definition JSON_parse (text : string) : option JValue :=
  let cs := list_ascii_of_string text in
  match readValue (S (List.length cs)) cs with
  | Some (v, rest) =>
      match skipWs rest with
      | [] => Some v
      | _ => None
      end
  | None => None
  end.

(** Writes a text with its single quotes turned into double quotes. *)
Fixpoint quoted (s : string) : string :=
  match s with
  | String c rest => String (if Ascii.eqb c "'" then dquote else c) (quoted rest)
  | EmptyString => EmptyString
  end.

End Ref.

(* ===================================================================== *)
(** ** The external services *)
(* ===================================================================== *)

(** Replies of the black boxes.  [scheduleReply] and [lineReply id] are the
    result of [model.generateContent] (the raw text, or a failure) for the
    schedule prompt and for the notification-line prompt of reminder [id];
    [distanceSearch lat lng keyword] and [radiusSearch lat lng radius keyword]
    are the two Google Places requests (a failure, or the normalised
    results); [synth n voice
    text] answers the [n]-th request sent to ElevenLabs;
    [notificationCreateFails id] tells whether [Notification.create] rejects
    for reminder [id]. *)
Record Services : Type := mkServices {
  scheduleReply : Result string;
  lineReply : ObjectId -> Result string;
  distanceSearch : R -> R -> string -> Result (list Place);
  radiusSearch : R -> R -> R -> string -> Result (list Place);
  GOOGLE_MAPS_API_KEY : option string;
  synth : nat -> string -> string -> Result string;
  notificationCreateFails : ObjectId -> bool }.

Inductive Source : Type := gemini | fallback.

Record Meta : Type := mkMeta {
  scheduleSource : option Source;
  lineSource : option Source }.

Definition oneHour : Z := 60 * 60 * 1000.

Section Core.

(** *** The platform

    [localTZA t] is the offset of local time from UTC at instant [t];
    [Date_parse] is the
    string case of the [Date] constructor, [ToString] the conversion of an
    array or object operand to a string; [JSON_parse] is [JSON.parse], with
    [None] for a [SyntaxError]. *)
Variable localTZA : Z -> Z.
Variable Date_parse : string -> JsDate.
Variable ToString : JValue -> string.
Variable JSON_parse : string -> option JValue.

(** [Date.prototype.getHours] and [getDay] (local time). *)
Definition getHours (t : Z) : Z := ((t + localTZA t) / 3600000) mod 24.
Definition getDay (t : Z) : Z := ((t + localTZA t) / 86400000 + 4) mod 7.

(** [new Date(v)] for a JSON value [v]. *)
Definition newDate (v : JValue) : JsDate :=
  match v with
  | JNull => DateOf 0
  | JBool b => DateOf (if b then 1 else 0)
  | JNum q => timeClip (toInteger q)
  | JStr s => Date_parse s
  | JArr _ | JObj _ => Date_parse (ToString v)
  end.

(** [d.toISOString()] throws on an invalid date. *)
Definition toISOStringOf (d : JsDate) : Result string :=
  match d with
  | DateOf t => Ok (toISOString t)
  | InvalidDate => Throw "RangeError: Invalid time value"
  end.

(* --------------------------------------------------------------------- *)
(** *** services/aiScheduler.js: findSmartSlot *)
(* --------------------------------------------------------------------- *)

(** [Reminder.find({ user, startDate: { $gte: now, $lte: horizon } })] *)
Definition inWindow (userId : ObjectId) (lo hi : Z) (r : Reminder) : bool :=
  String.eqb (user_id (user r)) userId &&
  match startDate r with
  | Some t => (lo <=? t) && (t <=? hi)
  | None => false
  end.

(** [new Set(existing.filter(e => e.startDate).map(e => new
    Date(e.startDate).toISOString()))] *)
Definition busyOf (existing : list Reminder) : gset string :=
  list_to_set (toISOString <$> omap startDate existing).

(** The [for] loop over the hourly slots [d], from [now + oneHour] while
    [d <= horizon]. *)
Equations? slotLoop (busy : gset string) (horizon d : Z) : option JsDate
  by wf (Z.to_nat ((horizon - d) / oneHour + 1)) lt :=
slotLoop busy horizon d with decide (d <= horizon) => {
  | right _ => None
  | left _ =>
      if (getHours d <? 9) || (getHours d >=? 18)
      then slotLoop busy horizon (d + oneHour)
      else if bool_decide (toISOString d ∈ busy)
      then slotLoop busy horizon (d + oneHour)
      else Some (Date_parse (toISOString d)) }.
Proof.
  all: unfold oneHour in *;
    replace (horizon - (d + 60 * 60 * 1000))
      with ((horizon - d) + (-1) * (60 * 60 * 1000)) by lia;
    rewrite Z.div_add by lia;
    assert (0 <= (horizon - d) / (60 * 60 * 1000)) by (apply Z.div_pos; lia);
    lia.
Qed.

Definition findSmartSlot (userId : ObjectId) (now : Z) : M (option JsDate) :=
  let horizon := now + 7 * 24 * 60 * 60 * 1000 in
  let* w := getWorld in
  let existing := List.filter (inWindow userId now horizon) (reminders w) in
  ret (slotLoop (busyOf existing) horizon (now + oneHour)).

(* --------------------------------------------------------------------- *)
(** *** services/geminiService.js *)
(* --------------------------------------------------------------------- *)

Definition getModel (env : Env) : Result unit :=
  if negb (geminiSDK env) then Throw "Gemini SDK not installed"
  else if negb (truthyStr (GOOGLE_GEMINI_API_KEY env))
  then Throw "GOOGLE_GEMINI_API_KEY not configured"
  else Ok tt.

(** [JSON.parse(text)], and on a syntax error [JSON.parse] of the brace
    block of the text. *)
Definition parseReply (text : string) : option JValue :=
  match JSON_parse text with
  | Some obj => Some obj
  | None => matchJsonBlock text ≫= JSON_parse
  end.

Definition dayOfValue (v : JValue) : option Z :=
  match v with
  | JNum q =>
      if isInteger q && (0 <=? toInteger q) && (toInteger q <=? 6)
      then Some (toInteger q) else None
  | _ => None
  end.

(** Lines 100-108: the schedule read off the reply object. *)
Definition scheduleOfReply (obj : JValue) : Schedule :=
  {| startDateISO :=
       match prop "startDateISO" obj with
       | Some v => if truthy v then v else JNull
       | None => JNull
       end;
     sScheduleType :=
       match prop "scheduleType" obj with
       | Some (JStr s) => if String.eqb s "routine" then routine else oneDay
       | _ => oneDay
       end;
     sScheduleDays :=
       match prop "scheduleDays" obj with
       | Some (JArr items) => omap dayOfValue items
       | _ => []
       end;
     sScheduleTime :=
       {| minutesBeforeStart :=
            match prop "scheduleTime" obj ≫= prop "minutesBeforeStart" with
            | Some (JNum q) => Some q
            | _ => None
            end;
          fixedTime :=
            match prop "scheduleTime" obj ≫= prop "fixedTime" with
            | Some (JStr s) => Some s
            | _ => None
            end |} |}.

(** Lines 110-119: the "basic validity checks"; [None] is [null]. *)
Definition checkSchedule (now : Z) (schedule : Schedule) : option Schedule :=
  match sScheduleType schedule with
  | oneDay =>
      if negb (truthy (startDateISO schedule)) then None
      else match newDate (startDateISO schedule) with
           | InvalidDate => None
           | DateOf d => if d <=? now then None else Some schedule
           end
  | routine =>
      if negb (truthyStr (fixedTime (sScheduleTime schedule))) then None
      else Some schedule
  end.

(** [suggestFullScheduleWithGemini({ userId, now, item })], given the reply
    of the model to the prompt built from Column A, [now] and the item. *)
Definition suggestFullScheduleWithGemini
    (env : Env) (now : Z) (reply : Result string) : Result (option Schedule) :=
  match getModel env with
  | Throw e => Throw e
  | Ok _ =>
      match reply with
      | Throw e => Throw e
      | Ok raw =>
          match parseReply (trim raw) with
          | Some obj =>
              if truthy obj && isObjectType obj
              then Ok (checkSchedule now (scheduleOfReply obj))
              else Throw "Gemini returned non-JSON schedule"
          | None => Throw "Gemini returned non-JSON schedule"
          end
      end
  end.

Definition generateNotificationLineWithGemini
    (env : Env) (reply : Result string) : Result string :=
  match getModel env with
  | Throw e => Throw e
  | Ok _ =>
      match reply with
      | Throw e => Throw e
      | Ok lineRaw => Ok (firstLine (collapseWhite false (trim lineRaw)))
      end
  end.

(* --------------------------------------------------------------------- *)
(** *** utils/ttsService.js *)
(* --------------------------------------------------------------------- *)

Definition buildNotificationText (reminder : Reminder) (usr : option User) : string :=
  if truthyStr (aiNotificationLine reminder)
  then default EmptyString (aiNotificationLine reminder)
  else
    let name :=
      default "there" (orStr (firstWord <$> (usr ≫= fullname)) (Some "there")) in
    match type reminder with
    | Task => "Hey " +:+ name +:+ ", reminder: " +:+ title reminder +:+ "."
    | Meeting => "Hey " +:+ name +:+ ", reminder for meeting: " +:+ title reminder +:+ "."
    | Location =>
        let loc := default "your saved place"
                     (orStr (locationName reminder) (Some "your saved place")) in
        "Hey " +:+ name +:+ ", you are near " +:+ loc +:+ "."
    end.

(** The template literal [`${voiceId}::${text}`] prints [undefined] for a
    missing voice id. *)
Definition computeTextHash (text : string) (voice : option string) : string :=
  SHA256.hex (default "undefined" voice +:+ "::" +:+ text).

(** [generateElevenLabsAudio({ text, voiceId })]: the request is logged,
    the reply is that of the service. *)
Definition generateElevenLabsAudio
    (env : Env) (sv : Services) (text : string) (voice : option string)
    : M (string * string) :=
  if negb (truthyStr (ELEVENLABS_API_KEY env))
  then throw "ELEVENLABS_API_KEY not configured"
  else
    let vid := orStr voice (ELEVENLABS_DEFAULT_VOICE_ID env) in
    if negb (truthyStr vid)
    then throw "Voice ID not provided or ELEVENLABS_DEFAULT_VOICE_ID missing"
    else
      let v := default EmptyString vid in
      let* w := getWorld in
      do putWorld (mkWorld (reminders w) (notifications w)
                     (synthLog w ++ [(v, text)]) (clock w)) then
      let* buffer := liftResult (synth sv (List.length (synthLog w)) v text) in
      ret (buffer, "audio/mpeg").

(** The test that skips regeneration (line 73). *)
Definition ttsUpToDate (t : Tts) (hash : string) : bool :=
  match textHash t with
  | Some h => String.eqb h hash
  | None => false
  end
  && match ttsStatus t with ready => true | _ => false end
  && match audio t with
     | Some a => negb (String.length (data a) =? 0)%nat
     | None => false
     end.

(** The text and the voice of a call of [ensureReminderTTS]: [user ||
    reminder.user], and [overrideVoiceId || reminder.tts?.voiceId ||
    process.env.ELEVENLABS_DEFAULT_VOICE_ID]. *)
Definition ttsText (reminder : Reminder) (usr : option User) : string :=
  buildNotificationText reminder (Some (default (user reminder) usr)).

Definition ttsVoice (env : Env) (overrideVoiceId : option string) (reminder : Reminder)
    : option string :=
  orStr overrideVoiceId
    (orStr (voiceId (tts reminder)) (ELEVENLABS_DEFAULT_VOICE_ID env)).

(** Lines 78-82, 87-93 and 96: the document marked pending, ready, failed. *)
Definition markPending (voice : option string) (hash : string) (reminder : Reminder)
    : Reminder :=
  set_tts (set_generatedAt None
             (set_ttsStatus pending
                (set_textHash (Some hash)
                   (set_voiceId voice (tts reminder))))) reminder.

Definition markReady (buffer type_ : string) (now : Z) (reminder : Reminder) : Reminder :=
  set_tts (set_generatedAt (Some now)
             (set_ttsStatus ready
                (set_audio (Some (mkAudio buffer type_ (String.length buffer)))
                   (tts reminder)))) reminder.

Definition markFailed (reminder : Reminder) : Reminder :=
  set_tts (set_ttsStatus failed (tts reminder)) reminder.

Definition ensureReminderTTS
    (env : Env) (sv : Services) (reminderId : ObjectId)
    (usr : option User) (overrideVoiceId : option string) : M Reminder :=
  let* w := getWorld in
  match findById reminderId w with
  | None => throw "Reminder not found"
  | Some reminder =>
      let text := ttsText reminder usr in
      let voice := ttsVoice env overrideVoiceId reminder in
      let hash := computeTextHash text voice in
      if ttsUpToDate (tts reminder) hash then ret reminder
      else
        let pendingDoc := markPending voice hash reminder in
        do save pendingDoc then
        catch_
          (let* res := generateElevenLabsAudio env sv text voice in
           let* w1 := getWorld in
           let readyDoc := markReady (fst res) (snd res) (clock w1) pendingDoc in
           do save readyDoc then
           ret readyDoc)
          (fun e =>
             do save (markFailed pendingDoc) then
             throw e)
  end.

(* --------------------------------------------------------------------- *)
(** *** services/aiScheduler.js: processBackgroundAI *)
(* --------------------------------------------------------------------- *)

(** Lines 40-60: the [try] around the Gemini schedule; any exception, and a
    missing module, leave [schedule] null. *)
Definition tryGeminiSchedule (env : Env) (sv : Services) (now : Z) : option Schedule :=
  if geminiModule env
  then match suggestFullScheduleWithGemini env now (scheduleReply sv) with
       | Ok schedule => schedule
       | Throw _ => None
       end
  else None.

(** Lines 62-78: the fallback; [findSmartSlot(...).catch(() => null)]. *)
Definition fallbackSchedule (userId : ObjectId) : M (option Schedule) :=
  let* w := getWorld in
  let* suggested := catch_ (findSmartSlot userId (clock w)) (fun _ => ret None) in
  match suggested with
  | Some d =>
      let* iso := liftResult (toISOStringOf d) in
      ret (Some {| startDateISO := JStr iso;
                   sScheduleType := oneDay;
                   sScheduleDays := [];
                   sScheduleTime := {| minutesBeforeStart := Some (10 # 1);
                                       fixedTime := None |} |})
  | None => ret None
  end.

(** The schema's [min: 0] on [scheduleTime.minutesBeforeStart], and on
    [notificationPreferenceMinutes], which takes the same number. *)
Definition belowMinimum (t : ScheduleTime) : bool :=
  match minutesBeforeStart t with
  | Some q => Qnum q <? 0
  | None => false
  end.

(** Lines 80-89: the schedule is written on the document.  The second
    component tells that the document no longer passes the schema:
    [startDate] was given an invalid date, which the schema refuses to
    cast, or the lead time is negative; the next [save] then rejects. *)
Definition applySchedule (schedule : Schedule) (rem : Reminder) : Reminder * bool :=
  let '(rem1, castError) :=
    if truthy (startDateISO schedule)
    then match newDate (startDateISO schedule) with
         | DateOf t => (set_startDate (Some t) rem, false)
         | InvalidDate => (rem, true)
         end
    else (rem, false) in
  let rem2 := set_scheduleType (Some (sScheduleType schedule)) rem1 in
  let rem3 := set_scheduleDays (Some (sScheduleDays schedule)) rem2 in
  let rem4 := set_scheduleTime (Some (sScheduleTime schedule)) rem3 in
  let rem5 :=
    match sScheduleType schedule with
    | oneDay =>
        set_notificationPreferenceMinutes
          (default (10 # 1) (minutesBeforeStart (sScheduleTime schedule))) rem4
    | routine => rem4
    end in
  (set_aiSuggested true rem5, castError || belowMinimum (sScheduleTime schedule)).

(** The schedule stage: the document, the source of the schedule and the
    flag of a document that the schema rejects. *)
Definition scheduleStage (env : Env) (sv : Services) (rem : Reminder)
    : M (Reminder * option Source * bool) :=
  if negb (isManualSchedule rem) && ReminderType_eqb (type rem) Task
     && negb (isSome (startDate rem))
  then
    let* w := getWorld in
    let fromGemini := tryGeminiSchedule env sv (clock w) in
    let* chosen :=
      match fromGemini with
      | Some schedule => ret (Some schedule, Some gemini)
      | None =>
          let* fb := fallbackSchedule (user_id (user rem)) in
          ret (fb, if isSome fb then Some fallback else None)
      end in
    match fst chosen with
    | Some schedule =>
        let applied := applySchedule schedule rem in
        ret (fst applied, snd chosen, snd applied)
    | None => ret (rem, snd chosen, false)
    end
  else ret (rem, None, false).

(** Lines 100-120: the notification line. *)
Definition lineStage (env : Env) (sv : Services) (usr : option User) (rem : Reminder)
    : Reminder * option Source :=
  let fromGemini :=
    if geminiModule env
    then match generateNotificationLineWithGemini env (lineReply sv (_id rem)) with
         | Ok line => if truthyStr (Some line) then Some line else None
         | Throw _ => None
         end
    else None in
  let '(rem1, lineSource1) :=
    match fromGemini with
    | Some line => (set_aiNotificationLine (Some line) rem, Some gemini)
    | None => (rem, None)
    end in
  if negb (truthyStr (aiNotificationLine rem1))
  then (set_aiNotificationLine
          (Some (buildNotificationText rem1 (Some (default (user rem1) usr)))) rem1,
        Some (default fallback lineSource1))
  else (rem1, lineSource1).

Definition processBackgroundAI
    (env : Env) (sv : Services) (reminderId : ObjectId) (usr : option User)
    : M (option (Reminder * Meta)) :=
  let* w := getWorld in
  match findById reminderId w with
  | None => ret None
  | Some rem0 =>
      let* staged := scheduleStage env sv rem0 in
      let '(rem1, scheduleSource, invalid) := staged in
      let '(rem, lineSource) := lineStage env sv usr rem1 in
      do (if invalid then throw "Reminder validation failed"
          else save rem) then
      do (if isSome (startDate rem)
          then catch_ (do ensureReminderTTS env sv (_id rem)
                            (Some (default (user rem) usr)) None then ret tt)
                      (fun _ => ret tt)
          else ret tt) then
      ret (Some (rem, mkMeta scheduleSource lineSource))
  end.

(* --------------------------------------------------------------------- *)
(** *** utils/placesService.js *)
(* --------------------------------------------------------------------- *)

(** [String(keyword || '').slice(0, 64)] *)
Definition keywordOf (keyword : string) : string := String.substring 0 64 keyword.

(** The rank-by-distance request, whose failure is caught, then the radius
    request when the first gave nothing; the first result is the best. *)
Definition nearbyBestPlaceByKeyword
    (sv : Services) (lat lng radius : R) (keyword : string) : Result (option Place) :=
  if negb (truthyStr (GOOGLE_MAPS_API_KEY sv))
  then Throw "GOOGLE_MAPS_API_KEY not configured"
  else
    let kw := keywordOf keyword in
    let results :=
      match distanceSearch sv lat lng kw with
      | Ok l => l
      | Throw _ => []
      end in
    match results with
    | _ :: _ => Ok (List.head results)
    | [] =>
        match radiusSearch sv lat lng radius kw with
        | Throw e => Throw e
        | Ok results2 => Ok (List.head results2)
        end
    end.

(* --------------------------------------------------------------------- *)
(** *** controllers/locationController.js *)
(* --------------------------------------------------------------------- *)

Definition dayNames : list string :=
  ["Sunday"; "Monday"; "Tuesday"; "Wednesday"; "Thursday"; "Friday"; "Saturday"].

(** [getDayString(date)]; [None] is [undefined]. *)
Definition getDayString (date : Z) : option string :=
  dayNames !! Z.to_nat (getDay date).

Definition toRad (d : R) : R := (d * PI / 180)%R.

(** [Math.atan2(y, x)] *)
Definition atan2 (y x : R) : R :=
  if Rlt_dec 0 x then atan (y / x)
  else if Rlt_dec x 0
       then (if Rle_dec 0 y then atan (y / x) + PI else atan (y / x) - PI)%R
       else if Rlt_dec 0 y then (PI / 2)%R
            else if Rlt_dec y 0 then (- (PI / 2))%R
                 else 0%R.

(** [haversineMeters(lat1, lon1, lat2, lon2)], lines 13-23, over the real
    numbers.  The source computes in IEEE doubles, where every operation
    rounds: what is proved of this definition is proved of the formula.
    The two differ most for nearly antipodal points, where the rounded [a]
    of the source can exceed 1 by an ulp and [Math.sqrt(1 - a)] is then
    [NaN]; the formula over the reals has no such case. *)
Definition haversineMeters (lat1 lon1 lat2 lon2 : R) : R :=
  let R0 := 6371000%R in
  let dLat := toRad (lat2 - lat1) in
  let dLon := toRad (lon2 - lon1) in
  let a := (sin (dLat / 2) * sin (dLat / 2) +
            cos (toRad lat1) * cos (toRad lat2) *
            sin (dLon / 2) * sin (dLon / 2))%R in
  let c := (2 * atan2 (sqrt a) (sqrt (1 - a)))%R in
  (R0 * c)%R.

(** [Math.round(x)]: the integer nearest to [x], halves rounded up. *)
Definition Math_round (x : R) : Z := Int_part (x + / 2)%R.

(** [Math.max(10, parseInt(process.env.LOCATION_MAX_TRIGGER_METERS || '60',
    10))]; [None] is [NaN]. *)
Definition MAX_METERS (env : Env) : option Z :=
  mathMax 10
    (parseInt (default "60" (orStr (LOCATION_MAX_TRIGGER_METERS env) (Some "60")))).

(** [Number(radius) || 500] *)
Definition radiusOf (radius : R) : R :=
  if Req_dec_T radius 0 then 500%R else radius.

(** [Reminder.find({ user, type: { $in: ['Task', 'Meeting'] }, startDate:
    { $gte: start, $lte: end }, isCompleted: { $ne: true } })] *)
Definition collides (userId : ObjectId) (start end_ : Z) (r : Reminder) : bool :=
  String.eqb (user_id (user r)) userId
  && (ReminderType_eqb (type r) Task || ReminderType_eqb (type r) Meeting)
  && match startDate r with
     | Some t => (start <=? t) && (t <=? end_)
     | None => false
     end
  && negb (isCompleted r).

Definition collisionsAt (userId : ObjectId) (now : Z) (w : World) : list Reminder :=
  let start := now - 5 * 60 * 1000 in
  let end_ := now + 5 * 60 * 1000 in
  List.filter (collides userId start end_) (reminders w).

Definition hasCollisionWithinFiveMin (userId : ObjectId) (now : Z) : M bool :=
  let* w := getWorld in
  ret (0 <? List.length (collisionsAt userId now w))%nat.

Inductive DayMismatch : Type :=
| byScheduleDays (scheduleDays : list Z) (todayIdx : Z)
| byDay (expectedDay : string) (today : option string).

Inductive SkipReason : Type :=
| day_mismatch (info : DayMismatch)
| anti_spam_window (minutesSince : Q)
| no_keyword
| places_error (msg : string)
| no_places_match
| too_far (distanceMeters : option Z) (maxMeters : option Z)
          (placeId placeName : option string)
| collision (retryAfterMs : Z).

Record PlaceInfo : Type := mkPlaceInfo {
  piId : option string;
  piName : option string;
  piRating : option Q;
  piDistanceMeters : Z }.

(** An element of [results]. *)
Inductive Outcome : Type :=
| Skipped (reminderId : ObjectId) (reason : SkipReason)
| Triggered (reminderId : ObjectId) (title : string) (body : option string)
            (bodyFallback : string) (place : PlaceInfo)
            (ttsTextHash : option string).

(** The day condition (lines 74-79): [Some info] when the reminder is
    skipped. *)
Definition dayMismatch (r : Reminder) (todayIdx : Z) (dayStr : option string)
    : option DayMismatch :=
  match scheduleDays r with
  | Some (d :: ds) =>
      if List.existsb (Z.eqb todayIdx) (d :: ds) then None
      else Some (byScheduleDays (d :: ds) todayIdx)
  | _ =>
      match day r with
      | Some expected =>
          if truthyStr (Some expected)
             && negb (match dayStr with
                      | Some today => String.eqb expected today
                      | None => false
                      end)
          then Some (byDay expected dayStr)
          else None
      | None => None
      end
  end.

(** The anti-spam throttle (lines 81-84): [Some deltaMin] when the reminder
    is skipped. *)
Definition throttled (r : Reminder) (now : Z) : option Q :=
  match lastTriggeredAt r with
  | Some last =>
      let deltaMin := ((now - last) # 60000)%Q in
      if negb (Qle_bool (90 # 1) deltaMin) then Some deltaMin else None
  | None => None
  end.

(** Lines 98-100: the rounded distance, [None] when the place has no
    numeric coordinates. *)
Definition distanceTo (lat lng : R) (place : Place) : option Z :=
  match placeLat place, placeLng place with
  | Some plat, Some plng => Some (Math_round (haversineMeters lat lng plat plng))
  | _, _ => None
  end.

(** [!(typeof dist === 'number') || dist > MAX_METERS] *)
Definition tooFar (dist : option Z) (maxMeters : option Z) : bool :=
  match dist with
  | None => true
  | Some d =>
      match maxMeters with
      | Some m => m <? d
      | None => false
      end
  end.

(** [Reminder.findByIdAndUpdate(id, { $set: update }, { new: true })] *)
Definition findByIdAndUpdate (id : ObjectId) (update : Reminder -> Reminder)
    : M (option Reminder) :=
  let* w := getWorld in
  match findById id w with
  | Some doc => do save (update doc) then ret (Some (update doc))
  | None => ret None
  end.

(** [await new Promise(r => setTimeout(r, ms))] *)
Definition sleep (ms : Z) : M unit :=
  fun w => (Ok tt, mkWorld (reminders w) (notifications w) (synthLog w) (clock w + ms)).

Definition createNotification (sv : Services) (n : Notification) : M unit :=
  if notificationCreateFails sv (nReminderId n)
  then throw "Notification.create failed"
  else fun w => (Ok tt, mkWorld (reminders w) (notifications w ++ [n])
                                 (synthLog w) (clock w)).

(** The poll of lines 146-150, bounded by two seconds of 250 ms waits. *)
Fixpoint pollTTS (env : Env) (sv : Services) (id : ObjectId) (usr : User)
    (fuel : nat) (startTs : Z) : M (option string) :=
  match fuel with
  | O => ret None
  | S fuel' =>
      let* w := getWorld in
      if clock w - startTs <? 2000
      then
        let* again := ensureReminderTTS env sv id (Some usr) None in
        if truthyStr (textHash (tts again)) then ret (textHash (tts again))
        else do sleep 250 then pollTTS env sv id usr fuel' startTs
      else ret None
  end.

(** Lines 130-139: the [try] around the Gemini one-liner; the document in
    memory, with the line when one was generated and saved. *)
Definition triggerLine (env : Env) (sv : Services) (updated0 : Reminder) : M Reminder :=
  catch_
    (if geminiModule env
     then
       let* line := liftResult
           (generateNotificationLineWithGemini env (lineReply sv (_id updated0))) in
       if truthyStr (Some line)
       then do save (set_aiNotificationLine (Some line) updated0) then
            ret (set_aiNotificationLine (Some line) updated0)
       else ret updated0
     else ret updated0)
    (fun _ => ret updated0).

(** Lines 141-152: the [try] around the speech stage and its poll;
    [textHash], null when anything threw. *)
Definition triggerTTS (env : Env) (sv : Services) (updated : Reminder)
    : M (option string) :=
  catch_
    (let* ensured :=
       ensureReminderTTS env sv (_id updated) (Some (user updated)) None in
     if truthyStr (textHash (tts ensured)) then ret (textHash (tts ensured))
     else
       let* w := getWorld in
       pollTTS env sv (_id updated) (user updated) 8 (clock w))
    (fun _ => ret None).

(** Lines 155-165: the [try] around [Notification.create]. *)
Definition triggerNotify (sv : Services) (userId : ObjectId) (updated : Reminder)
    : M unit :=
  catch_
    (createNotification sv
       (mkNotification userId "location"
          (default ("You're near a place for " +:+ title updated +:+ ".")
             (orStr (aiNotificationLine updated) None))
          false (_id updated)))
    (fun _ => ret tt).

(** Lines 113-175: the trigger of reminder [r] at [place]. *)
Definition trigger (env : Env) (sv : Services) (userId : ObjectId) (now : Z)
    (r : Reminder) (place : Place) (dist : Z) (out : list Outcome)
    : M (list Outcome) :=
  let update (doc : Reminder) : Reminder :=
    set_triggeredLocation
      (Some (mkTriggeredLocation (placeLat place) (placeLng place)
               (place_id place) (placeName place) (rating place)))
      (set_status (if Status_eqb (status r) expired then expired else active)
         (set_lastTriggeredAt (Some now) doc)) in
  let* found := findByIdAndUpdate (_id r) update in
  match found with
  | None => throw "TypeError: Cannot read properties of null"
  | Some updated0 =>
      let* updated := triggerLine env sv updated0 in
      let* ttsTextHash := triggerTTS env sv updated in
      do triggerNotify sv userId updated then
      ret (out ++ [Triggered (_id updated) (title updated)
                     (orStr (aiNotificationLine updated) None)
                     ("Reminder: You're near a place for " +:+ title updated +:+ ".")
                     (mkPlaceInfo (place_id place) (placeName place) (rating place) dist)
                     ttsTextHash])
  end.

(** The body of the [for] loop (lines 72-176) on candidate [r]: every path
    pushes on [out] and goes to the next candidate. *)
Definition scanBody (env : Env) (sv : Services) (userId : ObjectId)
    (lat lng radius : R) (now : Z) (out : list Outcome) (r : Reminder)
    : M (list Outcome) :=
  match dayMismatch r (getDay now) (getDayString now) with
  | Some info => ret (out ++ [Skipped (_id r) (day_mismatch info)])
  | None =>
  match throttled r now with
  | Some deltaMin => ret (out ++ [Skipped (_id r) (anti_spam_window deltaMin)])
  | None =>
  let keyword := title r in
  if negb (truthyStr (Some keyword))
  then ret (out ++ [Skipped (_id r) no_keyword])
  else
  match nearbyBestPlaceByKeyword sv lat lng (radiusOf radius) keyword with
  | Throw e => ret (out ++ [Skipped (_id r) (places_error e)])
  | Ok None => ret (out ++ [Skipped (_id r) no_places_match])
  | Ok (Some place) =>
      let dist := distanceTo lat lng place in
      if tooFar dist (MAX_METERS env)
      then ret (out ++ [Skipped (_id r)
                          (too_far dist (MAX_METERS env) (place_id place) (placeName place))])
      else
        let* coll := hasCollisionWithinFiveMin userId now in
        if coll
        then ret (out ++ [Skipped (_id r) (collision (6 * 60 * 1000))])
        else trigger env sv userId now r place (default 0 dist) out
  end
  end
  end.

(** The candidates: [Reminder.find({ user, type: 'Location', isCompleted:
    { $ne: true }, status: { $ne: 'completed' } })]. *)
Definition isCandidate (userId : ObjectId) (r : Reminder) : bool :=
  String.eqb (user_id (user r)) userId
  && ReminderType_eqb (type r) Location
  && negb (isCompleted r)
  && negb (Status_eqb (status r) completed).

Definition candidatesOf (userId : ObjectId) (w : World) : list Reminder :=
  List.filter (isCandidate userId) (reminders w).

Fixpoint scanLoop (env : Env) (sv : Services) (userId : ObjectId)
    (lat lng radius : R) (now : Z) (candidates : list Reminder)
    (out : list Outcome) : M (list Outcome) :=
  match candidates with
  | [] => ret out
  | r :: rest =>
      let* out' := scanBody env sv userId lat lng radius now out r in
      scanLoop env sv userId lat lng radius now rest out'
  end.

(** [scanAndTrigger]: [Ok results] is the response [{ success: true,
    results }], [Throw] the status 500 of the outer [catch]. *)
Definition scanAndTrigger (env : Env) (sv : Services) (userId : ObjectId)
    (lat lng radius : R) : M (list Outcome) :=
  let* w := getWorld in
  let now := clock w in
  let candidates := candidatesOf userId w in
  scanLoop env sv userId lat lng radius now candidates [].

(* --------------------------------------------------------------------- *)
(** *** Vocabulary of the statements *)
(* --------------------------------------------------------------------- *)

(** The instants a [Date] can hold. *)
Definition validTime (t : Z) : Prop := Z.abs t <= 8640000000000000.

(** [t] is one of the hourly slots scanned from [now]: [now + 1h], ...,
    [now + 168h] (the last one is [now + 7d]). *)
Definition isSlot (now t : Z) : Prop :=
  exists k, 1 <= k <= 168 /\ t = now + k * oneHour.

(** Slot [t] is free for [userId]: between 09:00 and 18:00 local time, and
    not the [startDate] of any reminder of the user. *)
Definition freeSlot (w : World) (userId : ObjectId) (now t : Z) : Prop :=
  isSlot now t /\ 9 <= getHours t < 18 /\
  forall r, In r (reminders w) -> user_id (user r) = userId -> startDate r <> Some t.

(** The AI schedule capability gives nothing usable at [now]: the module is
    missing, the call throws, or the reply fails the validity checks. *)
Inductive aiScheduleUnusable (env : Env) (sv : Services) (now : Z) : Prop :=
| schedule_unavailable :
    geminiModule env = false -> aiScheduleUnusable env sv now
| schedule_throws (e : string) :
    suggestFullScheduleWithGemini env now (scheduleReply sv) = Throw e ->
    aiScheduleUnusable env sv now
| schedule_invalid :
    suggestFullScheduleWithGemini env now (scheduleReply sv) = Ok None ->
    aiScheduleUnusable env sv now.

(** The AI line capability gives no line for reminder [id]: the module is
    missing, the call throws, or the line is empty. *)
Inductive aiLineUnusable (env : Env) (sv : Services) (id : ObjectId) : Prop :=
| line_unavailable :
    geminiModule env = false -> aiLineUnusable env sv id
| line_throws (e : string) :
    generateNotificationLineWithGemini env (lineReply sv id) = Throw e ->
    aiLineUnusable env sv id
| line_empty :
    generateNotificationLineWithGemini env (lineReply sv id) = Ok EmptyString ->
    aiLineUnusable env sv id.

(** A slot the loop of [findSmartSlot] accepts. *)
Definition slotOk (busy : gset string) (d : Z) : Prop :=
  9 <= getHours d < 18 /\ toISOString d ∉ busy.

(** The schedule built by the fallback from slot [t]. *)
Definition fallbackOf (t : Z) : Schedule :=
  {| startDateISO := JStr (toISOString t);
     sScheduleType := oneDay;
     sScheduleDays := [];
     sScheduleTime := {| minutesBeforeStart := Some (10 # 1); fixedTime := None |} |}.

(** The [tts] record of [r] is fresh for a call with [usr] and [ov]: ready,
    with the hash of the current text and voice. *)
Definition ttsFresh (env : Env) (usr : option User) (ov : option string) (r : Reminder)
    : Prop :=
  ttsStatus (tts r) = ready /\
  textHash (tts r) = Some (computeTextHash (ttsText r usr) (ttsVoice env ov r)).

Definition hasAudio (r : Reminder) : Prop :=
  exists a, audio (tts r) = Some a /\ data a <> EmptyString.

(** What lines 110-119 accept. *)
Definition scheduleAccepted (now : Z) (s : Schedule) : Prop :=
  match sScheduleType s with
  | oneDay =>
      truthy (startDateISO s) = true /\
      exists d, newDate (startDateISO s) = DateOf d /\ now < d
  | routine =>
      exists ft, fixedTime (sScheduleTime s) = Some ft /\ ft <> EmptyString
  end.

Definition idsOf (w : World) : list ObjectId := List.map _id (reminders w).

Definition outcomeId (o : Outcome) : ObjectId :=
  match o with
  | Skipped id _ => id
  | Triggered id _ _ _ _ _ => id
  end.

Definition isTriggered (o : Outcome) : Prop :=
  match o with
  | Triggered _ _ _ _ _ _ => True
  | Skipped _ _ => False
  end.

(** A Task or Meeting of the user, not completed, that starts within five
    minutes of [now], both bounds included. *)
Definition collidingReminder (userId : ObjectId) (now : Z) (c : Reminder) : Prop :=
  user_id (user c) = userId /\ (type c = Task \/ type c = Meeting) /\
  isCompleted c = false /\
  exists t, startDate c = Some t /\ now - 5 * 60 * 1000 <= t <= now + 5 * 60 * 1000.

(** Candidate [r] passes the day filter, the throttle and the keyword
    requirement at [now]. *)
Definition reachesLookup (r : Reminder) (now : Z) : Prop :=
  dayMismatch r (getDay now) (getDayString now) = None /\
  throttled r now = None /\
  title r <> EmptyString.

(** Candidate [r] reaches the distance gate with [place]. *)
Definition reachesPlace (sv : Services) (lat lng radius : R) (r : Reminder) (now : Z)
    (place : Place) : Prop :=
  reachesLookup r now /\
  nearbyBestPlaceByKeyword sv lat lng (radiusOf radius) (title r) = Ok (Some place).

(** The outcome of candidate [r], gate by gate; [w] is the world when the
    candidate is processed. *)
Definition gateOutcome (env : Env) (sv : Services) (userId : ObjectId)
    (lat lng radius : R) (now : Z) (w : World) (r : Reminder) (o : Outcome) : Prop :=
  match dayMismatch r (getDay now) (getDayString now) with
  | Some info => o = Skipped (_id r) (day_mismatch info)
  | None =>
  match throttled r now with
  | Some deltaMin => o = Skipped (_id r) (anti_spam_window deltaMin)
  | None =>
  if negb (truthyStr (Some (title r))) then o = Skipped (_id r) no_keyword
  else
  match nearbyBestPlaceByKeyword sv lat lng (radiusOf radius) (title r) with
  | Throw e => o = Skipped (_id r) (places_error e)
  | Ok None => o = Skipped (_id r) no_places_match
  | Ok (Some place) =>
      if tooFar (distanceTo lat lng place) (MAX_METERS env)
      then o = Skipped (_id r)
                 (too_far (distanceTo lat lng place) (MAX_METERS env)
                    (place_id place) (placeName place))
      else if (0 <? List.length (collisionsAt userId now w))%nat
      then o = Skipped (_id r) (collision (6 * 60 * 1000))
      else isTriggered o /\ outcomeId o = _id r
  end
  end
  end.

(** What the scan promises for candidate [r] whatever the world it is
    processed in: the outcome carries its id, and a failed places lookup is
    the skip [places_error]. *)
Definition outcomeFor (sv : Services) (lat lng radius : R) (now : Z)
    (r : Reminder) (o : Outcome) : Prop :=
  outcomeId o = _id r /\
  forall e, reachesLookup r now ->
    nearbyBestPlaceByKeyword sv lat lng (radiusOf radius) (title r) = Throw e ->
    o = Skipped (_id r) (places_error e).

(** The outcome of candidate [r] is not the anti-spam skip. *)
Definition notThrottled (r : Reminder) (o : Outcome) : Prop :=
  forall q, o <> Skipped (_id r) (anti_spam_window q).

Definition notTooFar (r : Reminder) (o : Outcome) : Prop :=
  forall d mx i n, o <> Skipped (_id r) (too_far d mx i n).

(* --------------------------------------------------------------------- *)
(** *** Sample data for the examples *)
(* --------------------------------------------------------------------- *)

(** 2023-11-14T22:13:20.000Z; in the reference zone, Wednesday 03:13. *)
Definition sampleNow : Z := 1700000000000.

Definition alice : User := mkUser "u1" (Some "Alice Smith").

Definition noTts : Tts := mkTts None None None pending None.

Definition sampleDoc (id : ObjectId) (kind : ReminderType) (title_ : string)
    (start : option Z) : Reminder :=
  mkReminder id alice kind title_ None start None None active None None
             false None None None false None (10 # 1) false noTts.

Definition taskDoc : Reminder := sampleDoc "t1" Task "Buy milk" None.

(** A meeting on the first slot of the working day, 09:13 local time. *)
Definition meetingDoc : Reminder :=
  sampleDoc "m1" Meeting "Standup" (Some (sampleNow + 6 * oneHour)).

Definition scheduleWorld : World :=
  mkWorld [taskDoc; meetingDoc] [] [] sampleNow.

Definition envNoAI : Env :=
  mkEnv (Some "xi-key") (Some "voice-1") None None false false.

Definition envAI : Env :=
  mkEnv (Some "xi-key") (Some "voice-1") None (Some "g-key") true true.

(** Every external service fails. *)
Definition svDown : Services :=
  mkServices (Throw "503") (fun _ => Throw "503")
             (fun _ _ _ => Throw "timeout") (fun _ _ _ _ => Throw "timeout")
             (Some "maps-key") (fun _ _ _ => Throw "429") (fun _ => true).

(** A one-day reply two days ahead, and one forty days ahead. *)
Definition replyTwoDays : string :=
  Ref.quoted "{'startDateISO':'2023-11-16T10:00:00Z','scheduleType':'one-day','scheduleDays':[],'scheduleTime':{'minutesBeforeStart':15,'fixedTime':null}}".

Definition replyFortyDays : string :=
  Ref.quoted "Here you go: {'startDateISO':'2023-12-24T10:00:00Z','scheduleType':'one-day','scheduleDays':[],'scheduleTime':{'minutesBeforeStart':null,'fixedTime':null}}".

(** Location reminders: one for Mondays, triggered ten minutes ago; one for
    every day, triggered ten minutes ago; one never triggered. *)
Definition locMonday : Reminder :=
  set_lastTriggeredAt (Some (sampleNow - 10 * 60000))
    (set_scheduleDays (Some [1]) (sampleDoc "loc1" Location "Pharmacy" None)).

Definition locRecent : Reminder :=
  set_lastTriggeredAt (Some (sampleNow - 10 * 60000))
    (sampleDoc "loc2" Location "Florist" None).

Definition locFree : Reminder := sampleDoc "loc3" Location "Bakery" None.

Definition scanWorld : World :=
  mkWorld [locMonday; locRecent; locFree; taskDoc] [] [] sampleNow.

(** The caller, and a place [metres] to the north. *)
Definition callerLat : R := (63 / 2)%R.
Definition callerLng : R := (743 / 10)%R.

Definition placeNorth (metres : R) : Place :=
  mkPlace (Some "p1") (Some "Corner Bakery") (Some (9 # 2))
          (Some (callerLat + metres / 6371000 * 180 / PI)%R) (Some callerLng).

(** The places lookup finds [place]; the other services fail. *)
Definition svPlace (place : Place) : Services :=
  mkServices (Throw "503") (fun _ => Throw "503")
             (fun _ _ _ => Ok [place]) (fun _ _ _ _ => Ok [])
             (Some "maps-key") (fun _ _ _ => Throw "429") (fun _ => true).

(** A task that starts [delta] ms after the scan. *)
Definition taskAt (delta : Z) : Reminder :=
  sampleDoc "t2" Task "Call the bank" (Some (sampleNow + delta)).

Definition collisionWorld (delta : Z) : World :=
  mkWorld [locFree; taskAt delta] [] [] sampleNow.

(** A Location reminder whose speech is ready for its cached line. *)
Definition spokenDoc : Reminder :=
  set_tts (mkTts (Some "voice-1")
             (Some (computeTextHash "You are near the bakery, Alice." (Some "voice-1")))
             (Some (mkAudio "ID3-audio" "audio/mpeg" 9)) ready (Some sampleNow))
    (set_aiNotificationLine (Some "You are near the bakery, Alice.") locFree).

Definition spokenWorld : World := mkWorld [spokenDoc] [] [] sampleNow.

(** Gemini writes a new line; the speech service answers with audio. *)
Definition svLine (line : string) : Services :=
  mkServices (Throw "503") (fun _ => Ok line)
             (fun _ _ _ => Throw "timeout") (fun _ _ _ _ => Throw "timeout")
             (Some "maps-key") (fun _ _ _ => Ok "ID3-fresh") (fun _ => false).

(** The reminder with a cached line and no speech yet. *)
Definition linedDoc : Reminder :=
  set_aiNotificationLine (Some "You are near the bakery, Alice.") locFree.

Definition linedWorld : World := mkWorld [linedDoc] [] [] sampleNow.

Definition newLine : string := "Fresh bread is waiting, Alice.".

(** Gemini answers the schedule prompt with [reply]. *)
Definition svSchedule (reply : string) : Services :=
  mkServices (Ok reply) (fun _ => Ok "Time to buy milk,   Alice!")
             (fun _ _ _ => Throw "timeout") (fun _ _ _ _ => Throw "timeout")
             (Some "maps-key") (fun _ _ _ => Ok "ID3-fresh") (fun _ => false).

Definition envMax (value : string) : Env :=
  mkEnv (Some "xi-key") (Some "voice-1") (Some value) None false false.

(* --------------------------------------------------------------------- *)
(** *** More vocabulary *)
(* --------------------------------------------------------------------- *)

Definition triggered (o : Outcome) : bool :=
  match o with
  | Triggered _ _ _ _ _ _ => true
  | Skipped _ _ => false
  end.

(** The [$set] of a trigger at [place] (lines 114-124). *)
Definition triggerUpdate (now : Z) (r : Reminder) (place : Place) (doc : Reminder)
    : Reminder :=
  set_triggeredLocation
    (Some (mkTriggeredLocation (placeLat place) (placeLng place)
             (place_id place) (placeName place) (rating place)))
    (set_status (if Status_eqb (status r) expired then expired else active)
       (set_lastTriggeredAt (Some now) doc)).

(** A notification written by a scan of [userId] for reminder [id]. *)
Definition scanNotification (userId id : ObjectId) (n : Notification) : Prop :=
  nUserId n = userId /\ nType n = "location" /\ isRead n = false /\ nReminderId n = id.

(** The term [a] of [haversineMeters] (lines 18-20), whose square root and
    that of [1 - a] are taken. *)
Definition haversineTerm (lat1 lon1 lat2 lon2 : R) : R :=
  let dLat := toRad (lat2 - lat1) in
  let dLon := toRad (lon2 - lon1) in
  (sin (dLat / 2) * sin (dLat / 2) +
   cos (toRad lat1) * cos (toRad lat2) *
   sin (dLon / 2) * sin (dLon / 2))%R.

(* --------------------------------------------------------------------- *)
(** *** The reminder controller (controllers/calendarController.js) *)
(* --------------------------------------------------------------------- *)

(** [Reminder.findOne({ _id: id, user: userId })] *)
Definition findOne (id userId : ObjectId) (w : World) : option Reminder :=
  List.find (fun r => String.eqb (_id r) id && String.eqb (user_id (user r)) userId)
    (reminders w).

(** [getReminder] (lines 410-423).  Its route, like those of
    [getReminderTTS] and [ensureReminderTTSNow], validates the id with
    [isMongoId] before the handler runs: the [id] of these three handlers
    is the ObjectId of the request. *)
Definition getReminder (userId id : ObjectId) (w : World) : Reply Reminder :=
  match findOne id userId w with
  | None => notFound "Reminder not found"
  | Some reminder => success reminder
  end.

(** [Reminder.findOneAndDelete({ _id: id, user: userId })] removes the
    first document that matches. *)
Fixpoint removeFirst (p : Reminder -> bool) (l : list Reminder) : list Reminder :=
  match l with
  | [] => []
  | r :: rest => if p r then rest else r :: removeFirst p rest
  end.

(** The cast of Mongoose from the text of a request to an ObjectId;
    [None] is a CastError, whose message is [castErrorMessage]. *)
Variable castObjectId : string -> option ObjectId.
Variable castErrorMessage : string -> string.

(** The [_id] that a query is run with.  The [_id] of a stored reminder is
    an ObjectId and casts to itself. *)
Definition queryId (id : string) (w : World) : option ObjectId :=
  if existsb (String.eqb id) (idsOf w) then Some id else castObjectId id.

(** [deleteReminder] (lines 487-498).  Its route does not validate the id:
    an id that does not cast makes [findOneAndDelete] reject, and the
    [catch] answers 500 with the message of the error. *)
Definition deleteReminder (userId : ObjectId) (id : string) (w : World)
    : Reply unit * World :=
  match queryId id w with
  | None =>
      (serverError (if String.eqb (castErrorMessage id) EmptyString
                    then "Failed to delete reminder" else castErrorMessage id),
       w)
  | Some oid =>
      match findOne oid userId w with
      | None => (notFound "Reminder not found", w)
      | Some _ =>
          (success tt,
           mkWorld (removeFirst (fun r => String.eqb (_id r) oid
                                          && String.eqb (user_id (user r)) userId)
                      (reminders w))
                   (notifications w) (synthLog w) (clock w))
      end
  end.

(** The audio streamed by [getReminderTTS]: the [Content-Type] header, the
    [Content-Length] header when [audio.size] is not zero, and the body. *)
Record AudioStream : Type := mkAudioStream {
  streamType : string;
  streamLength : option nat;
  streamBody : string }.

Definition getReminderTTS (userId id : ObjectId) (w : World) : Reply AudioStream :=
  match findOne id userId w with
  | None => notFound "Reminder not found"
  | Some reminder =>
      match audio (tts reminder) with
      | Some a =>
          if String.eqb (contentType a) EmptyString
          then notFound "TTS not available"
          else success (mkAudioStream (contentType a)
                          (if (size a =? 0)%nat then None else Some (size a))
                          (data a))
      | None => notFound "TTS not available"
      end
  end.

(** [ensureReminderTTSNow], for the authenticated user [reqUser]. *)
Definition ensureReminderTTSNow (env : Env) (sv : Services) (reqUser : User)
    (id : ObjectId) (w : World) : Reply Tts * World :=
  match findOne id (user_id reqUser) w with
  | None => (notFound "Reminder not found", w)
  | Some reminder =>
      match ensureReminderTTS env sv (_id reminder) (Some reqUser) None w with
      | (Ok ensured, w') => (success (tts ensured), w')
      | (Throw e, w') =>
          (serverError (if String.eqb e EmptyString then "Failed to ensure TTS" else e),
           w')
      end
  end.

(** The payload that [createReminder] hands to [Reminder.create] (lines
    274-309); the fields copied from the body are [None] when absent. *)
Record Payload : Type := mkPayload {
  pUser : ObjectId;
  pType : option JValue;
  pTitle : option JValue;
  pDescription : option JValue;
  pIcon : option JValue;
  pStartDate : option JsDate;
  pLocation : option JValue;
  pDay : option JValue;
  pStatus : option JValue;
  pIsManualSchedule : bool;
  pScheduleType : option JValue;
  pScheduleTime : option JValue;
  pScheduleDays : option JValue;
  pNotificationPreferenceMinutes : JValue }.

(** [typeof v === 'number'] *)
Definition isNumber (v : option JValue) : bool :=
  match v with
  | Some (JNum _) => true
  | _ => false
  end.

(** [scheduleTime?.minutesBeforeStart ?? 10] *)
Definition minutesOr10 (scheduleTime : option JValue) : JValue :=
  match scheduleTime ≫= prop "minutesBeforeStart" with
  | Some JNull | None => JNum (10 # 1)
  | Some v => v
  end.

(** [v === 'Meeting'] *)
Definition isMeeting (v : option JValue) : bool :=
  match v with
  | Some (JStr s) => String.eqb s "Meeting"
  | _ => false
  end.

(** The first part of [createReminder]: status 400 with its message, or
    the payload. *)
Definition createReminderPayload (userId : ObjectId) (body : JValue)
    : string + Payload :=
  let field (k : string) := prop k body in
  let payload :=
    {| pUser := userId;
       pType := field "type";
       pTitle := field "title";
       pDescription := field "description";
       pIcon := field "icon";
       pStartDate :=
         match field "startDate" with
         | Some v => if truthy v then Some (newDate v) else None
         | None => None
         end;
       pLocation := field "location";
       pDay := field "day";
       pStatus := field "status";
       pIsManualSchedule :=
         match field "isManualSchedule" with
         | Some v => truthy v
         | None => false
         end;
       pScheduleType := field "scheduleType";
       pScheduleTime := field "scheduleTime";
       pScheduleDays := field "scheduleDays";
       pNotificationPreferenceMinutes :=
         if isNumber (field "notificationPreferenceMinutes")
         then default JNull (field "notificationPreferenceMinutes")
         else JNum (10 # 1) |} in
  if isMeeting (pType payload)
  then
      if negb (isSome (pStartDate payload))
      then inl "Start date is required for meetings"
      else
        let pref :=
          if isNumber (field "notificationPreferenceMinutes")
          then default JNull (field "notificationPreferenceMinutes")
          else minutesOr10 (field "scheduleTime") in
        inr {| pUser := pUser payload;
               pType := pType payload;
               pTitle := pTitle payload;
               pDescription := pDescription payload;
               pIcon := pIcon payload;
               pStartDate := pStartDate payload;
               pLocation := pLocation payload;
               pDay := pDay payload;
               pStatus := pStatus payload;
               pIsManualSchedule := true;
               pScheduleType := Some (JStr "one-day");
               pScheduleTime := Some (JObj [("minutesBeforeStart", pref)]);
               pScheduleDays := Some (JArr []);
               pNotificationPreferenceMinutes := pref |}
  else inr payload.

(* --------------------------------------------------------------------- *)
(** *** More sample data *)
(* --------------------------------------------------------------------- *)

(** A routine reply whose week days hold entries that are not days. *)
Definition replyRoutineDays : string :=
  Ref.quoted "{'startDateISO':null,'scheduleType':'routine','scheduleDays':[1,3,8,'x',5],'scheduleTime':{'minutesBeforeStart':null,'fixedTime':'07:30'}}".


(** A cast for the examples: the texts of 24 hexadecimal digits are
    ObjectIds, written in lower case. *)
Definition isHexDigit (a : ascii) : bool :=
  let n := nat_of_ascii a in
  ((48 <=? n) && (n <=? 57) || (65 <=? n) && (n <=? 70)
   || (97 <=? n) && (n <=? 102))%nat.

Definition sampleCast (id : string) : option ObjectId :=
  if (String.length id =? 24)%nat && allChars isHexDigit id
  then Some (RateLimiter.toLowerCase id) else None.

Definition sampleCastError (id : string) : string :=
  "Cast to ObjectId failed for value '" +:+ id +:+ "' (type string) at path '_id'".

(** No key for the speech service. *)
Definition envNoKey : Env := mkEnv None (Some "voice-1") None None false false.

(** A request for a meeting that asks for an AI schedule on Mondays. *)
Definition meetingBody : JValue :=
  JObj [("type", JStr "Meeting"); ("title", JStr "Standup");
        ("startDate", JStr "2023-11-16T10:00:00.000Z");
        ("isManualSchedule", JBool false); ("scheduleType", JStr "routine");
        ("scheduleDays", JArr [JNum (1 # 1)]);
        ("scheduleTime", JObj [("minutesBeforeStart", JNum (30 # 1))])].

(** A reply of two lines, with blanks around the words. *)
Definition rawLine : string :=
  "  Time to" +:+ String (ascii_of_nat 10) " buy   milk, Alice!  ".

(** A one-day reply two days ahead with a negative lead time. *)
Definition replyNegativeLead : string :=
  Ref.quoted "{'startDateISO':'2023-11-16T10:00:00Z','scheduleType':'one-day','scheduleDays':[],'scheduleTime':{'minutesBeforeStart':-5,'fixedTime':null}}".

(** A routine reply whose start is not a date. *)
Definition replyRoutineBadDate : string :=
  Ref.quoted "{'startDateISO':'soon','scheduleType':'routine','scheduleDays':[],'scheduleTime':{'minutesBeforeStart':null,'fixedTime':'07:30'}}".

(* ===================================================================== *)
(** ** Properties *)
(* ===================================================================== *)

(** The platform reads back the dates it prints (ECMAScript, Date Time
    String Format). *)
Hypothesis Date_parse_toISOString :
  forall t, validTime t -> Date_parse (toISOString t) = DateOf t.

Lemma toISOString_inj t1 t2 :
  validTime t1 -> validTime t2 -> toISOString t1 = toISOString t2 -> t1 = t2.
Proof.
  intros H1 H2 E.
  pose proof (Date_parse_toISOString t1 H1) as P1.
  pose proof (Date_parse_toISOString t2 H2) as P2.
  rewrite E in P1. congruence.
Qed.

(** *** findSmartSlot *)

Lemma slotLoop_eq busy horizon d :
  slotLoop busy horizon d =
  if decide (d <= horizon)
  then if (getHours d <? 9) || (getHours d >=? 18)
       then slotLoop busy horizon (d + oneHour)
       else if bool_decide (toISOString d ∈ busy)
            then slotLoop busy horizon (d + oneHour)
            else Some (Date_parse (toISOString d))
  else None.
Proof.
  rewrite slotLoop_equation_1. destruct (decide (d <= horizon)); reflexivity.
Qed.

Lemma slotOk_dec busy d :
  ((getHours d <? 9) || (getHours d >=? 18) = false /\
   bool_decide (toISOString d ∈ busy) = false) <-> slotOk busy d.
Proof.
  unfold slotOk. rewrite orb_false_iff, bool_decide_eq_false.
  rewrite Z.ltb_ge, Z.geb_leb, Z.leb_gt. tauto.
Qed.

(** The loop returns the first acceptable slot at or after [d], if any
    lies at or before the horizon. *)
Lemma slotLoop_spec busy horizon (n : nat) : forall d,
  (horizon - d < Z.of_nat n * oneHour) ->
  match slotLoop busy horizon d with
  | Some x =>
      exists k, 0 <= k /\ d + k * oneHour <= horizon /\
        x = Date_parse (toISOString (d + k * oneHour)) /\
        slotOk busy (d + k * oneHour) /\
        forall j, 0 <= j < k -> ~ slotOk busy (d + j * oneHour)
  | None =>
      forall j, 0 <= j -> d + j * oneHour <= horizon ->
                ~ slotOk busy (d + j * oneHour)
  end.
Proof.
  induction n as [|n IH]; intros d Hn; rewrite slotLoop_eq.
  - destruct (decide (d <= horizon)) as [Hle|Hgt]; [unfold oneHour in *; lia|].
    cbn. intros j Hj Hle. unfold oneHour in *. lia.
  - destruct (decide (d <= horizon)) as [Hle|Hgt].
    2:{ cbn. intros j Hj Hle'. unfold oneHour in *. lia. }
    assert (Hrec : horizon - (d + oneHour) < Z.of_nat n * oneHour)
      by (unfold oneHour in *; lia).
    specialize (IH (d + oneHour) Hrec).
    assert (Hstep :
      ~ slotOk busy d ->
      match slotLoop busy horizon (d + oneHour) with
      | Some x =>
          exists k, 0 <= k /\ d + k * oneHour <= horizon /\
            x = Date_parse (toISOString (d + k * oneHour)) /\
            slotOk busy (d + k * oneHour) /\
            forall j, 0 <= j < k -> ~ slotOk busy (d + j * oneHour)
      | None =>
          forall j, 0 <= j -> d + j * oneHour <= horizon ->
                    ~ slotOk busy (d + j * oneHour)
      end).
    { intros Hbad.
      destruct (slotLoop busy horizon (d + oneHour)) as [x|].
      - destruct IH as (k & Hk & Hkle & Hx & Hok & Hfirst).
        exists (k + 1).
        replace (d + (k + 1) * oneHour) with (d + oneHour + k * oneHour) by lia.
        split; [lia|]. split; [lia|]. split; [assumption|]. split; [assumption|].
        intros j Hj. destruct (Z.eq_dec j 0) as [->|Hj0].
        + replace (d + 0 * oneHour) with d by lia. exact Hbad.
        + replace (d + j * oneHour) with (d + oneHour + (j - 1) * oneHour) by lia.
          apply Hfirst. lia.
      - intros j Hj Hjle. destruct (Z.eq_dec j 0) as [->|Hj0].
        + replace (d + 0 * oneHour) with d by lia. exact Hbad.
        + replace (d + j * oneHour) with (d + oneHour + (j - 1) * oneHour) by lia.
          apply IH; lia. }
    destruct ((getHours d <? 9) || (getHours d >=? 18)) eqn:Hh.
    { apply Hstep. intros Hok. apply slotOk_dec in Hok. destruct Hok; congruence. }
    destruct (bool_decide (toISOString d ∈ busy)) eqn:Hb.
    { apply Hstep. intros Hok. apply slotOk_dec in Hok. destruct Hok; congruence. }
    exists 0. replace (d + 0 * oneHour) with d by lia.
    split; [lia|]. split; [lia|]. split; [reflexivity|].
    split; [apply slotOk_dec; split; assumption|].
    intros j Hj. lia.
Qed.
Lemma validTime_between a b t :
  validTime a -> validTime b -> a <= t <= b -> validTime t.
Proof. unfold validTime. lia. Qed.

Lemma busyOf_elem (existing : list Reminder) (s : string) :
  s ∈ busyOf existing <->
  exists r t, In r existing /\ startDate r = Some t /\ toISOString t = s.
Proof.
  unfold busyOf. rewrite elem_of_list_to_set, list_elem_of_fmap.
  split.
  - intros (t & -> & Ht). apply list_elem_of_omap in Ht as (r & Hr & Hs).
    exists r, t. rewrite <- list_elem_of_In. auto.
  - intros (r & t & Hr & Hs & <-). exists t. split; [reflexivity|].
    apply list_elem_of_omap. exists r. rewrite list_elem_of_In. auto.
Qed.

Lemma inWindow_true userId lo hi r :
  inWindow userId lo hi r = true <->
  user_id (user r) = userId /\ exists t, startDate r = Some t /\ lo <= t <= hi.
Proof.
  unfold inWindow. rewrite andb_true_iff, String.eqb_eq.
  destruct (startDate r) as [t|].
  - rewrite andb_true_iff, !Z.leb_le. split.
    + intros (? & ? & ?). split; [assumption|]. exists t. auto.
    + intros (? & t' & [= <-] & ?). auto.
  - split; [intros [_ H]; discriminate|intros (_ & t & H & _); discriminate].
Qed.

(** In the window the busy set holds exactly the slots taken by the user. *)
Lemma slotOk_free w userId now t :
  validTime now -> validTime (now + 7 * 24 * 60 * 60 * 1000) ->
  now <= t <= now + 7 * 24 * 60 * 60 * 1000 ->
  slotOk (busyOf (List.filter (inWindow userId now (now + 7 * 24 * 60 * 60 * 1000))
                    (reminders w))) t
  <-> 9 <= getHours t < 18 /\
      forall r, In r (reminders w) -> user_id (user r) = userId ->
                startDate r <> Some t.
Proof.
  intros Hn Hh Ht. unfold slotOk. rewrite busyOf_elem.
  split; intros [Hhours Hfree]; (split; [exact Hhours|]).
  - intros r Hr Hu Hs. apply Hfree. exists r, t.
    split; [|split; [exact Hs|reflexivity]]. apply filter_In. split; [exact Hr|].
    apply inWindow_true. split; [exact Hu|]. exists t. auto.
  - intros (r & t' & Hr & Hs & Hiso).
    apply filter_In in Hr as [Hr Hw]. apply inWindow_true in Hw as (Hu & t'' & Hs' & Hrange).
    assert (t'' = t') by congruence. subst t''.
    assert (t' = t).
    { apply toISOString_inj;
        [eapply validTime_between; [exact Hn|exact Hh|exact Hrange]
        |eapply validTime_between; [exact Hn|exact Hh|exact Ht]
        |exact Hiso]. }
    subst t'. exact (Hfree r Hr Hu Hs).
Qed.

(** What [findSmartSlot] returns: the first free slot, read back from its
    ISO string, or [null] when no slot is free; the collections are left as
    they were. *)
Lemma findSmartSlot_spec userId now w :
  validTime now -> validTime (now + 7 * 24 * 60 * 60 * 1000) ->
  exists res, findSmartSlot userId now w = (Ok res, w) /\
    match res with
    | Some x =>
        exists t, x = DateOf t /\ freeSlot w userId now t /\
          forall t', t' < t -> ~ freeSlot w userId now t'
    | None => forall t, ~ freeSlot w userId now t
    end.
Proof.
  intros Hn Hh. unfold findSmartSlot, bind, getWorld, ret.
  eexists. split; [reflexivity|].
  set (horizon := now + 7 * 24 * 60 * 60 * 1000) in *.
  set (busy := busyOf _).
  pose proof (slotLoop_spec busy horizon 168 (now + oneHour)) as S.
  assert (Hfuel : horizon - (now + oneHour) < Z.of_nat 168 * oneHour)
    by (unfold horizon, oneHour; lia).
  specialize (S Hfuel).
  assert (Hslot : forall t, isSlot now t <->
            exists j, 0 <= j /\ now + oneHour + j * oneHour <= horizon /\
                      t = now + oneHour + j * oneHour).
  { intros t. unfold isSlot, horizon, oneHour. split.
    - intros (k & Hk & ->). exists (k - 1). lia.
    - intros (j & Hj & Hle & ->). exists (j + 1). lia. }
  assert (Hok : forall j, 0 <= j -> now + oneHour + j * oneHour <= horizon ->
            (slotOk busy (now + oneHour + j * oneHour) <->
             freeSlot w userId now (now + oneHour + j * oneHour))).
  { intros j Hj Hle. unfold freeSlot, busy, horizon.
    rewrite slotOk_free; [|assumption|assumption|unfold horizon, oneHour in *; lia].
    split.
    - intros [H1 H2]. split; [|auto]. apply Hslot. exists j. auto.
    - intros (_ & H1 & H2). auto. }
  destruct (slotLoop busy horizon (now + oneHour)) as [x|].
  - destruct S as (k & Hk & Hkle & -> & Hgood & Hfirst).
    exists (now + oneHour + k * oneHour).
    split.
    { apply Date_parse_toISOString.
      eapply validTime_between; [exact Hn|exact Hh|].
      fold horizon. unfold oneHour in *. lia. }
    split; [apply Hok; assumption|].
    intros t' Hlt Hfree.
    pose proof Hfree as (Hs & _). apply Hslot in Hs as (j & Hj & Hjle & ->).
    apply (Hfirst j); [unfold oneHour in *; lia|].
    apply Hok; assumption.
  - intros t Hfree.
    pose proof Hfree as (Hs & _). apply Hslot in Hs as (j & Hj & Hjle & ->).
    apply (S j Hj Hjle). apply Hok; assumption.
Qed.

(** C3. [findSmartSlot] returns null or a time [t] with
    [now + 1h <= t <= now + 7d], whose local hour lies in [9, 18), and which
    is the [startDate] of no reminder of the user. *)
Theorem findSmartSlot_horizon userId now w :
  validTime now -> validTime (now + 7 * 24 * 60 * 60 * 1000) ->
  exists res, findSmartSlot userId now w = (Ok res, w) /\
    (res = None \/
     exists t, res = Some (DateOf t) /\
       now + oneHour <= t <= now + 7 * 24 * oneHour /\
       9 <= getHours t < 18 /\
       forall r, In r (reminders w) -> user_id (user r) = userId ->
                 startDate r <> Some t).
Proof.
  intros Hn Hh.
  destruct (findSmartSlot_spec userId now w Hn Hh) as (res & Hrun & Hres).
  exists res. split; [exact Hrun|].
  destruct res as [x|]; [right|left; reflexivity].
  destruct Hres as (t & -> & ((k & Hk & ->) & Hhours & Hfree) & _).
  exists (now + k * oneHour).
  split; [reflexivity|]. split; [unfold oneHour; lia|]. auto.
Qed.
(** *** The store *)

Lemma findById_id id w r : findById id w = Some r -> _id r = id.
Proof.
  unfold findById. intros H. apply List.find_some in H as [_ H].
  apply String.eqb_eq in H. exact H.
Qed.

Lemma find_replaceDoc doc l id :
  List.find (fun r => String.eqb (_id r) id) (replaceDoc doc l) =
  if String.eqb (_id doc) id
  then (if List.existsb (fun r => String.eqb (_id r) id) l then Some doc else None)
  else List.find (fun r => String.eqb (_id r) id) l.
Proof.
  induction l as [|r l IH]; cbn [replaceDoc List.map List.find List.existsb].
  - destruct (String.eqb (_id doc) id); reflexivity.
  - fold (replaceDoc doc l). rewrite IH. clear IH.
    destruct (String.eqb (_id r) (_id doc)) eqn:E1.
    + apply String.eqb_eq in E1. rewrite E1.
      destruct (String.eqb (_id doc) id); reflexivity.
    + destruct (String.eqb (_id doc) id) eqn:E2.
      * apply String.eqb_eq in E2. rewrite <- E2, E1. reflexivity.
      * reflexivity.
Qed.

Lemma find_existsb id l r :
  List.find (fun r => String.eqb (_id r) id) l = Some r ->
  List.existsb (fun r => String.eqb (_id r) id) l = true.
Proof.
  intros H. apply List.find_some in H as [Hin He].
  apply List.existsb_exists. eauto.
Qed.

(** After [doc.save()] the document read back by its id is [doc]. *)
Lemma findById_save doc w r :
  findById (_id doc) w = Some r ->
  findById (_id doc) (snd (save doc w)) = Some doc.
Proof.
  unfold findById, save. cbn [snd reminders]. intros H.
  rewrite find_replaceDoc, String.eqb_refl, (find_existsb _ _ _ H). reflexivity.
Qed.

Lemma findById_save_other doc w id :
  _id doc <> id -> findById id (snd (save doc w)) = findById id w.
Proof.
  unfold findById, save. cbn [snd reminders]. intros H.
  rewrite find_replaceDoc. apply String.eqb_neq in H. rewrite H. reflexivity.
Qed.

(** *** The fallback of the schedule stage *)

Lemma tryGeminiSchedule_unusable env sv now :
  aiScheduleUnusable env sv now <-> tryGeminiSchedule env sv now = None.
Proof.
  unfold tryGeminiSchedule. split.
  - intros [H|e H|H]; [rewrite H; reflexivity| |];
      destruct (geminiModule env); try reflexivity; rewrite H; reflexivity.
  - destruct (geminiModule env) eqn:Hm; [|intros _; apply schedule_unavailable; exact Hm].
    destruct (suggestFullScheduleWithGemini env now (scheduleReply sv)) as [[s|]|e] eqn:Hs.
    + discriminate.
    + intros _. apply schedule_invalid. exact Hs.
    + intros _. eapply schedule_throws. exact Hs.
Qed.

Lemma toISOString_nonempty t : truthy (JStr (toISOString t)) = true.
Proof.
  unfold toISOString. destruct (civilOfDays (t / 86400000)) as [[y m] d].
  unfold yearChars. destruct ((0 <=? y) && (y <=? 9999)); reflexivity.
Qed.

Lemma fallbackSchedule_spec userId w :
  validTime (clock w) -> validTime (clock w + 7 * 24 * 60 * 60 * 1000) ->
  (exists t, fallbackSchedule userId w = (Ok (Some (fallbackOf t)), w) /\
     freeSlot w userId (clock w) t /\
     forall t', t' < t -> ~ freeSlot w userId (clock w) t')
  \/ (fallbackSchedule userId w = (Ok None, w) /\
      forall t, ~ freeSlot w userId (clock w) t).
Proof.
  intros Hn Hh.
  destruct (findSmartSlot_spec userId (clock w) w Hn Hh) as (res & Hrun & Hres).
  unfold fallbackSchedule, bind, getWorld, catch_. rewrite Hrun.
  destruct res as [x|].
  - destruct Hres as (t & -> & Hfree & Hfirst). left. exists t.
    split; [reflexivity|]. auto.
  - right. split; [reflexivity|exact Hres].
Qed.

Lemma applySchedule_fallback t rem :
  validTime t ->
  applySchedule (fallbackOf t) rem =
  (set_aiSuggested true
     (set_notificationPreferenceMinutes (10 # 1)
        (set_scheduleTime (Some (mkScheduleTime (Some (10 # 1)) None))
           (set_scheduleDays (Some [])
              (set_scheduleType (Some oneDay)
                 (set_startDate (Some t) rem))))), false).
Proof.
  intros Hv. unfold applySchedule, fallbackOf.
  cbn [startDateISO sScheduleType sScheduleDays sScheduleTime minutesBeforeStart].
  rewrite toISOString_nonempty. cbn [newDate].
  rewrite (Date_parse_toISOString t Hv). reflexivity.
Qed.
Lemma lineStage_fields env sv usr rem :
  exists l, fst (lineStage env sv usr rem) = set_aiNotificationLine l rem.
Proof.
  unfold lineStage.
  destruct (if geminiModule env then _ else _) as [line|].
  - cbn [truthyStr aiNotificationLine set_aiNotificationLine].
    destruct (negb (negb (String.eqb line EmptyString))); cbn [fst]; eexists;
      [destruct rem|]; reflexivity.
  - destruct (negb (truthyStr (aiNotificationLine rem))); cbn [fst].
    + eexists; reflexivity.
    + exists (aiNotificationLine rem). destruct rem; reflexivity.
Qed.

(** A [try] whose handler returns does not throw. *)
Lemma catch_ret_ok {A} (m : M A) (w : World) :
  exists w', catch_ (do m then ret tt) (fun _ => ret tt) w = (Ok tt, w').
Proof.
  unfold catch_, bind, ret. destruct (m w) as [[a|e] w']; eexists; reflexivity.
Qed.

(** C2. For a Task that is not manually scheduled and has no [startDate],
    when the AI schedule capability throws, is unavailable or gives an
    invalid reply, [processBackgroundAI] returns normally: with a one-day
    schedule at the first free slot of the search window and a notification
    lead of 10 minutes, from source [fallback]; or, when no slot is free,
    with the reminder left unscheduled. *)
Theorem fallback_when_ai_fails env sv id usr w rem :
  validTime (clock w) -> validTime (clock w + 7 * 24 * 60 * 60 * 1000) ->
  findById id w = Some rem ->
  type rem = Task -> isManualSchedule rem = false -> startDate rem = None ->
  aiScheduleUnusable env sv (clock w) ->
  exists rem' meta w',
    processBackgroundAI env sv id usr w = (Ok (Some (rem', meta)), w') /\
    ((exists t,
        freeSlot w (user_id (user rem)) (clock w) t /\
        (forall t', t' < t -> ~ freeSlot w (user_id (user rem)) (clock w) t') /\
        startDate rem' = Some t /\
        scheduleType rem' = Some oneDay /\
        scheduleDays rem' = Some [] /\
        scheduleTime rem' = Some (mkScheduleTime (Some (10 # 1)) None) /\
        notificationPreferenceMinutes rem' = (10 # 1)%Q /\
        aiSuggested rem' = true /\
        scheduleSource meta = Some fallback)
     \/
     ((forall t, ~ freeSlot w (user_id (user rem)) (clock w) t) /\
      startDate rem' = None /\
      scheduleType rem' = scheduleType rem /\
      scheduleDays rem' = scheduleDays rem /\
      scheduleTime rem' = scheduleTime rem /\
      notificationPreferenceMinutes rem' = notificationPreferenceMinutes rem /\
      aiSuggested rem' = aiSuggested rem /\
      scheduleSource meta = None)).
Proof.
  intros Hn Hh Hfind Htype Hman Hstart Hai.
  apply tryGeminiSchedule_unusable in Hai.
  unfold processBackgroundAI. unfold bind at 1. unfold getWorld at 1. rewrite Hfind.
  unfold scheduleStage. rewrite Hman, Htype, Hstart.
  cbn [negb andb ReminderType_eqb isSome].
  unfold bind at 1. unfold bind at 1. unfold getWorld at 1. rewrite Hai.
  unfold bind at 1. unfold bind at 1.
  destruct (fallbackSchedule_spec (user_id (user rem)) w Hn Hh)
    as [(t & Hrun & Hfree & Hfirst)|(Hrun & Hnone)]; rewrite Hrun.
  - assert (Hvt : validTime t).
    { destruct Hfree as ((k & Hk & ->) & _).
      eapply validTime_between; [exact Hn|exact Hh|unfold oneHour; lia]. }
    unfold ret at 1. cbn [fst snd isSome]. unfold ret at 1.
    rewrite (applySchedule_fallback t rem Hvt). cbn [fst snd].
    destruct (lineStage_fields env sv usr
                (set_aiSuggested true
                   (set_notificationPreferenceMinutes (10 # 1)
                      (set_scheduleTime (Some (mkScheduleTime (Some (10 # 1)) None))
                         (set_scheduleDays (Some [])
                            (set_scheduleType (Some oneDay)
                               (set_startDate (Some t) rem))))))) as (l & Hl).
    destruct (lineStage env sv usr _) as [rem' ls] eqn:Hls. cbn [fst] in Hl. subst rem'.
    unfold bind at 1. unfold save at 1.
    cbn [isSome startDate set_aiNotificationLine set_aiSuggested
         set_notificationPreferenceMinutes set_scheduleTime set_scheduleDays
         set_scheduleType set_startDate].
    unfold bind at 1.
    match goal with
    | |- context [catch_ (do ?m then ret tt) _ ?w0] =>
        destruct (catch_ret_ok m w0) as (w' & Hc); rewrite Hc
    end.
    unfold ret. do 3 eexists. split; [reflexivity|].
    left. exists t. split; [exact Hfree|]. split; [exact Hfirst|].
    cbn. repeat split.
  - unfold ret at 1. cbn [fst snd isSome]. unfold ret at 1.
    destruct (lineStage_fields env sv usr rem) as (l & Hl).
    destruct (lineStage env sv usr rem) as [rem' ls] eqn:Hls. cbn [fst] in Hl. subst rem'.
    unfold bind at 1. unfold save at 1.
    cbn [startDate set_aiNotificationLine]. rewrite Hstart. cbn [isSome].
    unfold bind, ret. do 3 eexists. split; [reflexivity|].
    right. split; [exact Hnone|]. cbn. rewrite Hstart. repeat split.
Qed.
(** *** The validity checks of the Gemini schedule *)

Lemma truthyStr_Some (o : option string) :
  truthyStr o = true <-> exists s, o = Some s /\ s <> EmptyString.
Proof.
  destruct o as [s|]; cbn.
  - rewrite negb_true_iff, String.eqb_neq. split.
    + intros H. exists s. auto.
    + intros (s' & [= <-] & H). exact H.
  - split; [discriminate|intros (s & H & _); discriminate].
Qed.

Lemma checkSchedule_accepts now s :
  (checkSchedule now s = Some s <-> scheduleAccepted now s) /\
  (checkSchedule now s = None <-> ~ scheduleAccepted now s).
Proof.
  unfold checkSchedule, scheduleAccepted.
  destruct (sScheduleType s).
  - destruct (truthy (startDateISO s)); cbn [negb].
    + destruct (newDate (startDateISO s)) as [|d].
      * split; split; try discriminate; try reflexivity.
        -- intros (_ & d & H & _). discriminate.
        -- intros _ (_ & d & H & _). discriminate.
      * destruct (d <=? now) eqn:E.
        -- apply Z.leb_le in E.
           split; split; try discriminate; try reflexivity.
           ++ intros (_ & d' & [= <-] & H). lia.
           ++ intros _ (_ & d' & [= <-] & H). lia.
        -- apply Z.leb_gt in E.
           split; split; try discriminate; try reflexivity.
           ++ intros _. split; [reflexivity|]. exists d. auto.
           ++ intros H. exfalso. apply H. split; [reflexivity|]. exists d. auto.
    + split; split; try discriminate; try reflexivity.
      * intros (H & _). discriminate.
      * intros _ (H & _). discriminate.
  - pose proof (truthyStr_Some (fixedTime (sScheduleTime s))) as T.
    destruct (truthyStr (fixedTime (sScheduleTime s))); cbn [negb].
    + split; split; try discriminate; try reflexivity.
      * intros _. apply T. reflexivity.
      * intros H. exfalso. apply H, T. reflexivity.
    + split; split; try discriminate; try reflexivity.
      * intros H. apply T in H. discriminate.
      * intros _ H. apply T in H. discriminate.
Qed.

Lemma checkSchedule_same now s s' : checkSchedule now s = Some s' -> s' = s.
Proof.
  unfold checkSchedule.
  destruct (sScheduleType s).
  - destruct (negb (truthy (startDateISO s))); [discriminate|].
    destruct (newDate (startDateISO s)) as [|d]; [discriminate|].
    destruct (d <=? now); [discriminate|]. congruence.
  - destruct (negb (truthyStr (fixedTime (sScheduleTime s)))); [discriminate|congruence].
Qed.

(** Every result of [suggestFullScheduleWithGemini] is the outcome of the
    checks on the schedule read off a reply object. *)
Lemma suggestFullScheduleWithGemini_checked env now reply r :
  suggestFullScheduleWithGemini env now reply = Ok r ->
  exists raw obj, reply = Ok raw /\ parseReply (trim raw) = Some obj /\
    r = checkSchedule now (scheduleOfReply obj).
Proof.
  unfold suggestFullScheduleWithGemini.
  destruct (getModel env); [|discriminate].
  destruct reply as [raw|]; [|discriminate].
  destruct (parseReply (trim raw)) as [obj|] eqn:P; [|discriminate].
  destruct (truthy obj && isObjectType obj); [|discriminate].
  intros [= <-]. exists raw, obj. auto.
Qed.

(** C1 (amended). The AI schedule capability returns a decision exactly
    when it passes the checks, and returns it as it is: a one-day decision
    must carry a start time that is present, is a valid date and is strictly
    after [now]; a routine decision must carry a non-empty [fixedTime].
    A decision that fails the checks is answered with null.  No upper bound
    is checked: a one-day start later than seven days after [now] is
    returned like any other. *)
Theorem gemini_schedule_accepted env now reply :
  (forall s, suggestFullScheduleWithGemini env now reply = Ok (Some s) ->
             scheduleAccepted now s) /\
  (forall raw obj,
     getModel env = Ok tt -> reply = Ok raw ->
     parseReply (trim raw) = Some obj ->
     truthy obj && isObjectType obj = true ->
     let s := scheduleOfReply obj in
     (scheduleAccepted now s ->
      suggestFullScheduleWithGemini env now reply = Ok (Some s)) /\
     (~ scheduleAccepted now s ->
      suggestFullScheduleWithGemini env now reply = Ok None) /\
     (forall d, sScheduleType s = oneDay ->
                truthy (startDateISO s) = true ->
                newDate (startDateISO s) = DateOf d ->
                now + 7 * 24 * 60 * 60 * 1000 < d ->
                suggestFullScheduleWithGemini env now reply = Ok (Some s)) /\
     (forall ft, sScheduleType s = routine ->
                 fixedTime (sScheduleTime s) = Some ft -> ft <> EmptyString ->
                 suggestFullScheduleWithGemini env now reply = Ok (Some s))).
Proof.
  split.
  - intros s H.
    apply suggestFullScheduleWithGemini_checked in H as (raw & obj & _ & _ & H).
    symmetry in H. pose proof (checkSchedule_same _ _ _ H) as ->.
    apply checkSchedule_accepts. exact H.
  - intros raw obj Hmodel -> Hparse Hobj s.
    assert (Hrun : suggestFullScheduleWithGemini env now (Ok raw)
                   = Ok (checkSchedule now s)).
    { unfold suggestFullScheduleWithGemini. rewrite Hmodel, Hparse, Hobj.
      reflexivity. }
    rewrite Hrun.
    destruct (checkSchedule_accepts now s) as (Hyes & Hno).
    assert (Hacc : scheduleAccepted now s -> Ok (checkSchedule now s) = Ok (Some s)).
    { intros H. apply Hyes in H. rewrite H. reflexivity. }
    split; [exact Hacc|].
    split.
    + intros H. apply Hno in H. rewrite H. reflexivity.
    + split.
      * intros d Hone Htruthy Hd Hlt. apply Hacc.
        unfold scheduleAccepted. rewrite Hone. split; [exact Htruthy|].
        exists d. split; [exact Hd|lia].
      * intros ft Hr Hft Hne. apply Hacc.
        unfold scheduleAccepted. rewrite Hr. exists ft. split; assumption.
Qed.
(** *** ensureReminderTTS *)

Lemma orStr_absorb (a b : option string) : orStr (orStr a b) b = orStr a b.
Proof.
  unfold orStr. destruct (truthyStr a) eqn:Ha.
  - rewrite Ha. reflexivity.
  - destruct (truthyStr b); reflexivity.
Qed.

(** The voice of a call is the one it writes on the record. *)
Lemma ttsVoice_stored env ov r t :
  voiceId t = ttsVoice env ov r ->
  ttsVoice env ov (set_tts t r) = ttsVoice env ov r.
Proof.
  unfold ttsVoice. cbn [tts set_tts]. intros ->.
  destruct (truthyStr ov) eqn:Ho.
  - assert (Hov : forall x, orStr ov x = ov) by (intros x; unfold orStr; rewrite Ho; reflexivity).
    rewrite !Hov. reflexivity.
  - assert (Hov : forall x, orStr ov x = x) by (intros x; unfold orStr; rewrite Ho; reflexivity).
    rewrite !Hov. apply orStr_absorb.
Qed.

Lemma ttsText_set_tts t r usr : ttsText (set_tts t r) usr = ttsText r usr.
Proof. reflexivity. Qed.

(** The requests of [generateElevenLabsAudio] touch the log only. *)
Lemma generateElevenLabsAudio_world env sv text voice w res w' :
  generateElevenLabsAudio env sv text voice w = (res, w') ->
  reminders w' = reminders w /\ notifications w' = notifications w /\
  clock w' = clock w /\
  (forall x, res = Ok x ->
     snd x = "audio/mpeg" /\
     exists v, synthLog w' = synthLog w ++ [(v, text)] /\
       synth sv (List.length (synthLog w)) v text = Ok (fst x)).
Proof.
  unfold generateElevenLabsAudio.
  destruct (negb (truthyStr (ELEVENLABS_API_KEY env))).
  { intros [= <- <-]. repeat split; discriminate. }
  destruct (negb (truthyStr (orStr voice (ELEVENLABS_DEFAULT_VOICE_ID env)))).
  { intros [= <- <-]. repeat split; discriminate. }
  unfold bind, getWorld, putWorld, liftResult, ret.
  set (v := default EmptyString (orStr voice (ELEVENLABS_DEFAULT_VOICE_ID env))).
  destruct (synth sv (List.length (synthLog w)) v text) as [buf|e] eqn:Hs;
    intros [= <- <-]; cbn [reminders notifications clock synthLog];
    (split; [reflexivity|]); (split; [reflexivity|]); (split; [reflexivity|]).
  - intros x [= <-]. split; [reflexivity|]. exists v. auto.
  - discriminate.
Qed.

(** The run of [ensureReminderTTS] on a stored reminder, case by case. *)
Lemma ensureReminderTTS_run env sv id usr ov w reminder :
  findById id w = Some reminder ->
  let text := ttsText reminder usr in
  let voice := ttsVoice env ov reminder in
  let hash := computeTextHash text voice in
  let pendingDoc := markPending voice hash reminder in
  ensureReminderTTS env sv id usr ov w =
  if ttsUpToDate (tts reminder) hash then (Ok reminder, w)
  else
    match generateElevenLabsAudio env sv text voice (snd (save pendingDoc w)) with
    | (Ok res, w2) =>
        (Ok (markReady (fst res) (snd res) (clock w2) pendingDoc),
         snd (save (markReady (fst res) (snd res) (clock w2) pendingDoc) w2))
    | (Throw e, w2) => (Throw e, snd (save (markFailed pendingDoc) w2))
    end.
Proof.
  intros Hfind. cbv zeta.
  unfold ensureReminderTTS. unfold bind at 1. unfold getWorld at 1. rewrite Hfind.
  destruct (ttsUpToDate _ _); [reflexivity|].
  unfold bind at 1. unfold catch_. unfold bind at 1.
  unfold save. cbn [snd].
  match goal with
  | |- context [generateElevenLabsAudio ?a ?b ?c ?d ?w0] =>
      destruct (generateElevenLabsAudio a b c d w0) as [[res|e] w2]
  end.
  - reflexivity.
  - reflexivity.
Qed.

(** The cached case: nothing is written and no request is sent. *)
Lemma ensureReminderTTS_cached env sv id usr ov w reminder :
  findById id w = Some reminder ->
  ttsUpToDate (tts reminder)
    (computeTextHash (ttsText reminder usr) (ttsVoice env ov reminder)) = true ->
  ensureReminderTTS env sv id usr ov w = (Ok reminder, w).
Proof.
  intros Hfind Hup. rewrite (ensureReminderTTS_run _ _ _ _ _ _ _ Hfind).
  cbv zeta. rewrite Hup. reflexivity.
Qed.

Lemma ttsUpToDate_true t hash :
  ttsUpToDate t hash = true <->
  textHash t = Some hash /\ ttsStatus t = ready /\
  exists a, audio t = Some a /\ data a <> EmptyString.
Proof.
  unfold ttsUpToDate. rewrite !andb_true_iff. split.
  - intros [[H1 H2] H3].
    destruct (textHash t) as [h|]; [|discriminate]. apply String.eqb_eq in H1. subst h.
    destruct (ttsStatus t); try discriminate.
    destruct (audio t) as [a|]; [|discriminate].
    split; [reflexivity|]. split; [reflexivity|]. exists a. split; [reflexivity|].
    intros E. rewrite E in H3. discriminate.
  - intros (H1 & H2 & a & H3 & H4). rewrite H1, H2, H3, String.eqb_refl.
    repeat split. destruct (data a); [congruence|reflexivity].
Qed.

(** The state after a call of [ensureReminderTTS] on a stored reminder. *)
Lemma ensureReminderTTS_post env sv id usr ov w reminder :
  findById id w = Some reminder ->
  match ensureReminderTTS env sv id usr ov w with
  | (Ok r', w') =>
      findById id w' = Some r' /\ ttsFresh env usr ov r' /\
      aiNotificationLine r' = aiNotificationLine reminder /\
      ((r' = reminder /\ w' = w /\ hasAudio r') \/
       (exists buffer v,
          synth sv (List.length (synthLog w)) v (ttsText reminder usr) = Ok buffer /\
          synthLog w' = synthLog w ++ [(v, ttsText reminder usr)] /\
          audio (tts r') = Some (mkAudio buffer "audio/mpeg" (String.length buffer))))
  | (Throw e, w') =>
      exists r', findById id w' = Some r' /\ ttsStatus (tts r') = failed /\
        aiNotificationLine r' = aiNotificationLine reminder
  end.
Proof.
  intros Hfind. rewrite (ensureReminderTTS_run _ _ _ _ _ _ _ Hfind). cbv zeta.
  pose proof (findById_id _ _ _ Hfind) as Hid. subst id.
  destruct (ttsUpToDate _ _) eqn:Hup.
  - apply ttsUpToDate_true in Hup as (Hh & Hs & Ha).
    split; [exact Hfind|]. split; [split; assumption|]. split; [reflexivity|].
    left. auto.
  - set (voice := ttsVoice env ov reminder).
    set (text := ttsText reminder usr).
    set (pendingDoc := markPending voice (computeTextHash text voice) reminder).
    assert (Hf1 : findById (_id reminder) (snd (save pendingDoc w)) = Some pendingDoc)
      by exact (findById_save pendingDoc w reminder Hfind).
    destruct (generateElevenLabsAudio env sv text voice (snd (save pendingDoc w)))
      as [[res|e] w2] eqn:Hgen.
    + apply generateElevenLabsAudio_world in Hgen as (Hr & _ & _ & Hres).
      destruct (Hres res eq_refl) as (Hct & v & Hlog & Hsyn).
      set (readyDoc := markReady (fst res) (snd res) (clock w2) pendingDoc).
      assert (Hf2 : findById (_id reminder) w2 = Some pendingDoc)
        by (unfold findById in *; rewrite Hr; exact Hf1).
      split; [exact (findById_save readyDoc w2 pendingDoc Hf2)|].
      split.
      { split; [reflexivity|]. unfold readyDoc, markReady.
        rewrite ttsText_set_tts.
        rewrite ttsVoice_stored.
        - unfold pendingDoc, markPending. rewrite ttsText_set_tts.
          rewrite ttsVoice_stored by reflexivity. reflexivity.
        - cbn. unfold pendingDoc, markPending.
          rewrite ttsVoice_stored by reflexivity. reflexivity. }
      split; [reflexivity|].
      right. exists (fst res), v. cbn [save snd synthLog] in Hlog, Hsyn.
      split; [exact Hsyn|]. split; [exact Hlog|].
      cbn. rewrite Hct. reflexivity.
    + apply generateElevenLabsAudio_world in Hgen as (Hr & _ & _ & _).
      assert (Hf2 : findById (_id reminder) w2 = Some pendingDoc)
        by (unfold findById in *; rewrite Hr; exact Hf1).
      exists (markFailed pendingDoc).
      split; [exact (findById_save (markFailed pendingDoc) w2 pendingDoc Hf2)|].
      split; reflexivity.
Qed.
(** C7. The Speech stage is idempotent: after a call of
    [ensureReminderTTS] that returned a reminder with non-empty audio, a
    second call with the same arguments returns the same reminder and leaves
    the world as it is: nothing is saved and no request is sent to the
    speech service. *)
Theorem ensureReminderTTS_idempotent env sv id usr ov w r1 w1 :
  ensureReminderTTS env sv id usr ov w = (Ok r1, w1) ->
  hasAudio r1 ->
  ensureReminderTTS env sv id usr ov w1 = (Ok r1, w1) /\
  synthLog (snd (ensureReminderTTS env sv id usr ov w1)) = synthLog w1.
Proof.
  intros Hrun Haudio.
  assert (Hfind : exists reminder, findById id w = Some reminder).
  { unfold ensureReminderTTS, bind, getWorld in Hrun.
    destruct (findById id w) as [reminder|]; [eauto|discriminate]. }
  destruct Hfind as (reminder & Hfind).
  pose proof (ensureReminderTTS_post env sv id usr ov w reminder Hfind) as P.
  rewrite Hrun in P. destruct P as (Hf1 & (Hst & Hh) & _ & _).
  assert (Hsecond : ensureReminderTTS env sv id usr ov w1 = (Ok r1, w1)).
  { apply ensureReminderTTS_cached; [exact Hf1|].
    apply ttsUpToDate_true. auto. }
  rewrite Hsecond. auto.
Qed.

(** *** processBackgroundAI, stage by stage *)

Lemma applySchedule_frame schedule rem :
  _id (fst (applySchedule schedule rem)) = _id rem /\
  user (fst (applySchedule schedule rem)) = user rem /\
  tts (fst (applySchedule schedule rem)) = tts rem /\
  aiNotificationLine (fst (applySchedule schedule rem)) = aiNotificationLine rem.
Proof.
  unfold applySchedule.
  destruct (truthy (startDateISO schedule));
    [destruct (newDate (startDateISO schedule))|];
    destruct (sScheduleType schedule); cbn; auto.
Qed.

(** The schedule stage reads the collections and writes nothing. *)
Lemma scheduleStage_frame env sv rem w res w' :
  scheduleStage env sv rem w = (res, w') ->
  w' = w /\
  forall rem1 src ce, res = Ok (rem1, src, ce) ->
    _id rem1 = _id rem /\ user rem1 = user rem /\ tts rem1 = tts rem /\
    aiNotificationLine rem1 = aiNotificationLine rem.
Proof.
  unfold scheduleStage.
  destruct (negb (isManualSchedule rem) && ReminderType_eqb (type rem) Task
            && negb (isSome (startDate rem))).
  2:{ unfold ret. intros [= <- <-]. split; [reflexivity|].
      intros ? ? ? [= <- <- <-]. auto. }
  unfold bind at 1. unfold getWorld at 1.
  destruct (tryGeminiSchedule env sv (clock w)) as [schedule|].
  - unfold bind, ret. cbn [fst snd]. intros [= <- <-]. split; [reflexivity|].
    intros ? ? ? [= <- <- <-]. apply applySchedule_frame.
  - unfold bind at 1. unfold bind at 1.
    unfold fallbackSchedule, findSmartSlot, bind, getWorld, catch_, ret, liftResult.
    destruct (slotLoop _ _ _) as [d|].
    + destruct (toISOStringOf d) as [iso|e].
      * cbn [fst snd]. intros [= <- <-]. split; [reflexivity|].
        intros ? ? ? [= <- <- <-]. apply applySchedule_frame.
      * intros [= <- <-]. split; [reflexivity|]. discriminate.
    + cbn [fst snd]. intros [= <- <-]. split; [reflexivity|].
      intros ? ? ? [= <- <- <-]. auto.
Qed.

Lemma lineStage_frame env sv usr rem :
  _id (fst (lineStage env sv usr rem)) = _id rem /\
  user (fst (lineStage env sv usr rem)) = user rem /\
  tts (fst (lineStage env sv usr rem)) = tts rem /\
  startDate (fst (lineStage env sv usr rem)) = startDate rem.
Proof.
  destruct (lineStage_fields env sv usr rem) as (l & ->). cbn. auto.
Qed.

Lemma processBackgroundAI_eq env sv id usr w rem0 :
  findById id w = Some rem0 ->
  processBackgroundAI env sv id usr w =
  match scheduleStage env sv rem0 w with
  | (Ok (rem1, src, ce), w0) =>
      let rem := fst (lineStage env sv usr rem1) in
      let ls := snd (lineStage env sv usr rem1) in
      if ce then (Throw "Reminder validation failed", w0)
      else
        (Ok (Some (rem, mkMeta src ls)),
         if isSome (startDate rem)
         then snd (ensureReminderTTS env sv (_id rem)
                     (Some (default (user rem) usr)) None (snd (save rem w0)))
         else snd (save rem w0))
  | (Throw e, w0) => (Throw e, w0)
  end.
Proof.
  intros Hfind.
  unfold processBackgroundAI. unfold bind at 1. unfold getWorld at 1. rewrite Hfind.
  unfold bind at 1.
  destruct (scheduleStage env sv rem0 w) as [[[[rem1 src] ce]|e] w0]; [|reflexivity].
  cbv zeta. destruct (lineStage env sv usr rem1) as [rem ls]. cbn [fst snd].
  destruct ce; [reflexivity|].
  unfold bind at 1. unfold save at 1. unfold bind at 1.
  destruct (isSome (startDate rem)).
  - unfold catch_, bind, ret, save. cbn [snd].
    destruct (ensureReminderTTS env sv (_id rem) _ None _) as [[r|e] w2]; reflexivity.
  - reflexivity.
Qed.

(** The run of [processBackgroundAI] on a stored reminder: it throws before
    writing anything, or it saves the enriched document [rem] and then, when
    [rem] has a [startDate], runs [ensureReminderTTS] inside a [try]. *)
Lemma processBackgroundAI_run env sv id usr w rem0 :
  findById id w = Some rem0 ->
  (exists e, processBackgroundAI env sv id usr w = (Throw e, w)) \/
  (exists rem1 src rem ls,
     scheduleStage env sv rem0 w = (Ok (rem1, src, false), w) /\
     lineStage env sv usr rem1 = (rem, ls) /\
     _id rem = id /\
     findById id (snd (save rem w)) = Some rem /\
     processBackgroundAI env sv id usr w =
     (Ok (Some (rem, mkMeta src ls)),
      if isSome (startDate rem)
      then snd (ensureReminderTTS env sv id (Some (default (user rem) usr)) None
                  (snd (save rem w)))
      else snd (save rem w))).
Proof.
  intros Hfind. pose proof (findById_id _ _ _ Hfind) as Hid.
  rewrite (processBackgroundAI_eq env sv id usr w rem0 Hfind).
  destruct (scheduleStage env sv rem0 w) as [[[[rem1 src] ce]|e] w0] eqn:Hs;
    pose proof (scheduleStage_frame _ _ _ _ _ _ Hs) as [-> Hfr].
  2:{ left. eauto. }
  destruct (Hfr rem1 src ce eq_refl) as (Hid1 & _).
  cbv zeta.
  destruct (lineStage env sv usr rem1) as [rem ls] eqn:Hl.
  pose proof (lineStage_frame env sv usr rem1) as (Hid2 & _). rewrite Hl in Hid2.
  cbn [fst snd] in *.
  destruct ce.
  { left. eauto. }
  right. exists rem1, src, rem, ls.
  split; [reflexivity|]. split; [exact Hl|].
  assert (Hrid : _id rem = id) by congruence.
  split; [exact Hrid|].
  assert (Hsaved : findById id (snd (save rem w)) = Some rem).
  { rewrite <- Hrid. apply (findById_save rem w rem0). rewrite Hrid. exact Hfind. }
  split; [exact Hsaved|].
  rewrite Hrid. reflexivity.
Qed.
(** C8 (amended). The [tts] record is re-validated by [ensureReminderTTS]
    only.  On a stored reminder, a call that returns leaves the record
    ready, with the hash of the current text and voice, and with the cached
    non-empty audio or exactly the buffer the speech service returned; a
    call that throws leaves the record failed.  [processBackgroundAI] makes
    that call after saving the notification text only when the reminder has
    a [startDate]; otherwise it leaves the [tts] record as it was. *)
Theorem tts_record_revalidated env sv id usr w rem0 :
  findById id w = Some rem0 ->
  (forall ov,
     match ensureReminderTTS env sv id usr ov w with
     | (Ok r', w') =>
         findById id w' = Some r' /\ ttsFresh env usr ov r' /\
         (hasAudio r' \/
          exists buffer v,
            synth sv (List.length (synthLog w)) v (ttsText rem0 usr) = Ok buffer /\
            audio (tts r') = Some (mkAudio buffer "audio/mpeg" (String.length buffer)))
     | (Throw e, w') =>
         exists r', findById id w' = Some r' /\ ttsStatus (tts r') = failed
     end) /\
  (forall rem meta w',
     processBackgroundAI env sv id usr w = (Ok (Some (rem, meta)), w') ->
     exists r', findById id w' = Some r' /\
       aiNotificationLine r' = aiNotificationLine rem /\
       if isSome (startDate rem)
       then ttsStatus (tts r') = failed \/
            ttsFresh env (Some (default (user rem) usr)) None r'
       else tts r' = tts rem0).
Proof.
  intros Hfind. split.
  - intros ov.
    pose proof (ensureReminderTTS_post env sv id usr ov w rem0 Hfind) as P.
    destruct (ensureReminderTTS env sv id usr ov w) as [[r'|e] w'].
    + destruct P as (H1 & H2 & _ & [(_ & _ & H3)|(buffer & v & H3 & _ & H4)]).
      * auto.
      * split; [exact H1|]. split; [exact H2|]. right. eauto.
    + destruct P as (r' & H1 & H2 & _). eauto.
  - intros rem meta w' Hrun.
    destruct (processBackgroundAI_run env sv id usr w rem0 Hfind)
      as [(e & He)|(rem1 & src & rem' & ls & Hs & Hl & Hrid & Hsaved & Hp)].
    { rewrite He in Hrun. discriminate. }
    rewrite Hp in Hrun. injection Hrun as <- _ <-.
    destruct (isSome (startDate rem')).
    + pose proof (ensureReminderTTS_post env sv id (Some (default (user rem') usr))
                    None _ rem' Hsaved) as P.
      destruct (ensureReminderTTS env sv id _ None _) as [[r'|e] w2]; cbn [snd].
      * destruct P as (H1 & H2 & H3 & _). exists r'. auto.
      * destruct P as (r' & H1 & H2 & H3). exists r'. auto.
    + exists rem'. split; [exact Hsaved|]. split; [reflexivity|].
      pose proof (scheduleStage_frame _ _ _ _ _ _ Hs) as (_ & Hfr).
      destruct (Hfr rem1 src false eq_refl) as (_ & _ & Ht & _).
      pose proof (lineStage_frame env sv usr rem1) as (_ & _ & Ht' & _).
      rewrite Hl in Ht'. cbn [fst] in Ht'. congruence.
Qed.

(** *** The cached notification line *)

Lemma buildNotificationText_cached r u s :
  aiNotificationLine r = Some s -> s <> EmptyString ->
  buildNotificationText r u = s.
Proof.
  intros H Hs. unfold buildNotificationText. rewrite H. cbn [truthyStr].
  apply String.eqb_neq in Hs. rewrite Hs. reflexivity.
Qed.

Lemma lineStage_kept env sv usr rem s :
  aiNotificationLine rem = Some s -> s <> EmptyString ->
  aiLineUnusable env sv (_id rem) ->
  lineStage env sv usr rem = (rem, None).
Proof.
  intros H Hs Hai. unfold lineStage.
  assert (Hg : (if geminiModule env
                then match generateNotificationLineWithGemini env
                             (lineReply sv (_id rem)) with
                     | Ok line => if truthyStr (Some line) then Some line else None
                     | Throw _ => None
                     end
                else None) = None).
  { destruct Hai as [Hm|e He|He].
    - rewrite Hm. reflexivity.
    - rewrite He. destruct (geminiModule env); reflexivity.
    - rewrite He. destruct (geminiModule env); reflexivity. }
  rewrite Hg. rewrite H. cbn [truthyStr].
  apply String.eqb_neq in Hs. rewrite Hs. reflexivity.
Qed.

(** C10. When the reminder already carries a non-empty
    [aiNotificationLine] and the AI line capability is unavailable, throws
    or gives an empty line, [processBackgroundAI] leaves the line as it is,
    in the store and in the reminder it returns; and
    [buildNotificationText] returns the cached line verbatim, whatever the
    kind, the title and the other fields of the reminder. *)
Theorem cached_line_kept env sv id usr w rem s :
  findById id w = Some rem ->
  aiNotificationLine rem = Some s -> s <> EmptyString ->
  aiLineUnusable env sv id ->
  (forall res w', processBackgroundAI env sv id usr w = (res, w') ->
     (exists r', findById id w' = Some r' /\ aiNotificationLine r' = Some s) /\
     (forall rem' meta, res = Ok (Some (rem', meta)) ->
                        aiNotificationLine rem' = Some s)) /\
  (forall r u, aiNotificationLine r = Some s -> buildNotificationText r u = s).
Proof.
  intros Hfind Hline Hs Hai. split.
  2:{ intros r u H. apply buildNotificationText_cached; assumption. }
  intros res w' Hrun.
  destruct (processBackgroundAI_run env sv id usr w rem Hfind)
    as [(e & He)|(rem1 & src & rem' & ls & Hst & Hl & Hrid & Hsaved & Hp)].
  { rewrite He in Hrun. injection Hrun as <- <-.
    split; [eauto|]. discriminate. }
  pose proof (scheduleStage_frame _ _ _ _ _ _ Hst) as (_ & Hfr).
  destruct (Hfr rem1 src false eq_refl) as (Hid1 & _ & _ & Hline1).
  pose proof (findById_id _ _ _ Hfind) as Hid.
  assert (Hkept : lineStage env sv usr rem1 = (rem1, None)).
  { apply (lineStage_kept env sv usr rem1 s); [congruence|exact Hs|].
    rewrite Hid1, Hid. exact Hai. }
  rewrite Hkept in Hl. injection Hl as <- <-.
  rewrite Hp in Hrun. injection Hrun as <- <-.
  assert (Hl1 : aiNotificationLine rem1 = Some s) by congruence.
  split.
  - destruct (isSome (startDate rem1)).
    + pose proof (ensureReminderTTS_post env sv id (Some (default (user rem1) usr))
                    None _ rem1 Hsaved) as P.
      destruct (ensureReminderTTS env sv id _ None _) as [[r'|e] w2]; cbn [snd].
      * destruct P as (H1 & _ & H3 & _). exists r'. split; [exact H1|congruence].
      * destruct P as (r' & H1 & _ & H3). exists r'. split; [exact H1|congruence].
    + exists rem1. auto.
  - intros rem' meta [= <- _]. exact Hl1.
Qed.
(** *** The scan: what is written and what is returned *)

Lemma replaceDoc_ids doc l : List.map _id (replaceDoc doc l) = List.map _id l.
Proof.
  induction l as [|r l IH]; [reflexivity|].
  cbn [replaceDoc List.map]. fold (replaceDoc doc l). rewrite IH.
  destruct (String.eqb (_id r) (_id doc)) eqn:E; [|reflexivity].
  apply String.eqb_eq in E. rewrite E. reflexivity.
Qed.

Lemma save_ids doc w : idsOf (snd (save doc w)) = idsOf w.
Proof. unfold idsOf, save. cbn [snd reminders]. apply replaceDoc_ids. Qed.

Lemma idsOf_reminders w w' : reminders w' = reminders w -> idsOf w' = idsOf w.
Proof. unfold idsOf. intros ->. reflexivity. Qed.

Lemma findById_stored id w : In id (idsOf w) -> exists doc, findById id w = Some doc.
Proof.
  unfold idsOf, findById. intros H. apply List.in_map_iff in H as (r & Hr & Hin).
  destruct (List.find _ (reminders w)) as [doc|] eqn:F; [eauto|].
  exfalso. pose proof (List.find_none _ _ F r Hin) as N. cbn in N.
  rewrite Hr, String.eqb_refl in N. discriminate.
Qed.

Lemma ensureReminderTTS_ids env sv id usr ov w :
  idsOf (snd (ensureReminderTTS env sv id usr ov w)) = idsOf w.
Proof.
  destruct (findById id w) as [reminder|] eqn:Hfind.
  - rewrite (ensureReminderTTS_run _ _ _ _ _ _ _ Hfind). cbv zeta.
    destruct (ttsUpToDate _ _); [reflexivity|].
    match goal with
    | |- context [generateElevenLabsAudio ?a ?b ?c ?d ?w0] =>
        destruct (generateElevenLabsAudio a b c d w0) as [[res|e] w2] eqn:Hgen
    end; apply generateElevenLabsAudio_world in Hgen as (Hr & _);
      cbn [snd]; rewrite save_ids, (idsOf_reminders _ _ Hr); apply save_ids.
  - unfold ensureReminderTTS, bind, getWorld. rewrite Hfind. reflexivity.
Qed.

Lemma pollTTS_ids env sv id usr fuel : forall startTs w,
  idsOf (snd (pollTTS env sv id usr fuel startTs w)) = idsOf w.
Proof.
  induction fuel as [|fuel IH]; intros startTs w; [reflexivity|].
  cbn [pollTTS]. unfold bind at 1. unfold getWorld at 1.
  destruct (clock w - startTs <? 2000); [|reflexivity].
  unfold bind at 1.
  pose proof (ensureReminderTTS_ids env sv id (Some usr) None w) as E.
  destruct (ensureReminderTTS env sv id (Some usr) None w) as [[again|e] w1];
    cbn [snd] in E |- *; [|exact E].
  destruct (truthyStr (textHash (tts again))); [exact E|].
  unfold bind, sleep. rewrite IH. exact E.
Qed.

(** A [try] whose handler returns a value does not throw. *)
Lemma catch_total {A} (m : M A) (x : A) (w : World) :
  exists a, catch_ m (fun _ => ret x) w = (Ok a, snd (m w)).
Proof.
  unfold catch_, ret. destruct (m w) as [[a|e] w']; eauto.
Qed.

Lemma triggerLine_run env sv updated0 w :
  exists updated w',
    triggerLine env sv updated0 w = (Ok updated, w') /\
    _id updated = _id updated0 /\ idsOf w' = idsOf w.
Proof.
  unfold triggerLine, catch_, bind, liftResult, ret.
  destruct (geminiModule env); [|eauto].
  destruct (generateNotificationLineWithGemini env _) as [line|e]; [|eauto].
  destruct (truthyStr (Some line)); [|eauto].
  do 2 eexists. split; [reflexivity|]. split; [reflexivity|]. apply save_ids.
Qed.

Lemma triggerTTS_run env sv updated w :
  exists h w', triggerTTS env sv updated w = (Ok h, w') /\ idsOf w' = idsOf w.
Proof.
  unfold triggerTTS.
  match goal with
  | |- context [catch_ ?m _ w] =>
      destruct (catch_total m None w) as (h & Hc); rewrite Hc;
      exists h, (snd (m w)); split; [reflexivity|]
  end.
  unfold bind at 1.
  pose proof (ensureReminderTTS_ids env sv (_id updated) (Some (user updated)) None w) as E.
  destruct (ensureReminderTTS env sv (_id updated) (Some (user updated)) None w)
    as [[ensured|e] w1]; cbn [snd] in E |- *; [|exact E].
  destruct (truthyStr (textHash (tts ensured))); [exact E|].
  unfold bind, getWorld. rewrite pollTTS_ids. exact E.
Qed.

Lemma triggerNotify_run sv userId updated w :
  exists w', triggerNotify sv userId updated w = (Ok tt, w') /\ idsOf w' = idsOf w.
Proof.
  unfold triggerNotify, catch_, createNotification, throw, ret.
  cbn [nReminderId].
  destruct (notificationCreateFails sv (_id updated)); eexists; split; reflexivity.
Qed.

(** The trigger of a stored reminder returns, with one more outcome. *)
Lemma trigger_run env sv userId now r place dist out w :
  In (_id r) (idsOf w) ->
  exists o w',
    trigger env sv userId now r place dist out w = (Ok (out ++ [o]), w') /\
    isTriggered o /\ outcomeId o = _id r /\ idsOf w' = idsOf w.
Proof.
  intros Hin. destruct (findById_stored _ _ Hin) as (doc & Hfind).
  pose proof (findById_id _ _ _ Hfind) as Hid.
  unfold trigger. unfold bind at 1.
  unfold findByIdAndUpdate. unfold bind at 1. unfold getWorld at 1. rewrite Hfind.
  unfold bind at 1. unfold save at 1. unfold ret at 1.
  set (updated0 := set_triggeredLocation _ _).
  set (w0 := mkWorld _ _ _ _).
  assert (Hw0 : idsOf w0 = idsOf w) by (apply (save_ids updated0 w)).
  unfold bind at 1.
  destruct (triggerLine_run env sv updated0 w0) as (updated & w1 & -> & Hu & Hw1).
  unfold bind at 1.
  destruct (triggerTTS_run env sv updated w1) as (h & w2 & -> & Hw2).
  unfold bind at 1.
  destruct (triggerNotify_run sv userId updated w2) as (w3 & -> & Hw3).
  unfold ret. do 2 eexists. split; [reflexivity|].
  split; [exact I|]. split; [cbn; rewrite Hu; exact Hid|congruence].
Qed.

Lemma truthyStr_title (s : string) :
  negb (truthyStr (Some s)) = false <-> s <> EmptyString.
Proof.
  cbn. rewrite negb_involutive. apply String.eqb_neq.
Qed.

(** The body of the loop on a stored candidate: it returns, pushes exactly
    one outcome, the one the gates decide, and keeps the stored ids. *)
Lemma scanBody_run env sv userId lat lng radius now out r w :
  In (_id r) (idsOf w) ->
  exists o w',
    scanBody env sv userId lat lng radius now out r w = (Ok (out ++ [o]), w') /\
    outcomeId o = _id r /\ idsOf w' = idsOf w /\
    gateOutcome env sv userId lat lng radius now w r o /\
    (isTriggered o \/ w' = w).
Proof.
  intros Hin. unfold scanBody, gateOutcome.
  destruct (dayMismatch r (getDay now) (getDayString now)) as [info|].
  { unfold ret. do 2 eexists. repeat split; auto. }
  destruct (throttled r now) as [deltaMin|].
  { unfold ret. do 2 eexists. repeat split; auto. }
  destruct (negb (truthyStr (Some (title r)))).
  { unfold ret. do 2 eexists. repeat split; auto. }
  destruct (nearbyBestPlaceByKeyword sv lat lng (radiusOf radius) (title r))
    as [[place|]|e].
  2:{ unfold ret. do 2 eexists. repeat split; auto. }
  2:{ unfold ret. do 2 eexists. repeat split; auto. }
  destruct (tooFar (distanceTo lat lng place) (MAX_METERS env)).
  { unfold ret. do 2 eexists. repeat split; auto. }
  unfold bind at 1. unfold hasCollisionWithinFiveMin, bind, getWorld, ret.
  destruct (0 <? List.length (collisionsAt userId now w))%nat.
  { do 2 eexists. repeat split; auto. }
  destruct (trigger_run env sv userId now r place
              (default 0 (distanceTo lat lng place)) out w Hin)
    as (o & w' & -> & Ht & Ho & Hw).
  exists o, w'. repeat split; auto.
Qed.
Lemma gateOutcome_places_error env sv userId lat lng radius now w r o e :
  gateOutcome env sv userId lat lng radius now w r o ->
  reachesLookup r now ->
  nearbyBestPlaceByKeyword sv lat lng (radiusOf radius) (title r) = Throw e ->
  o = Skipped (_id r) (places_error e).
Proof.
  unfold gateOutcome. intros G (Hd & Ht & Hk) Hp.
  rewrite Hd, Ht in G. apply truthyStr_title in Hk. rewrite Hk, Hp in G. exact G.
Qed.

Lemma scanLoop_run env sv userId lat lng radius now candidates : forall out w,
  (forall r, In r candidates -> In (_id r) (idsOf w)) ->
  exists outs w',
    scanLoop env sv userId lat lng radius now candidates out w
      = (Ok (out ++ outs), w') /\
    Forall2 (outcomeFor sv lat lng radius now) candidates outs.
Proof.
  induction candidates as [|r rest IH]; intros out w Hstored.
  - exists [], w. cbn [scanLoop]. unfold ret. rewrite app_nil_r.
    split; [reflexivity|constructor].
  - cbn [scanLoop]. unfold bind at 1.
    destruct (scanBody_run env sv userId lat lng radius now out r w
                (Hstored r (or_introl eq_refl)))
      as (o & w1 & -> & Hid & Hids & Hgate & _).
    destruct (IH (out ++ [o]) w1) as (outs & w' & -> & Hall).
    { intros r' Hr'. rewrite Hids. apply Hstored. right. exact Hr'. }
    exists (o :: outs), w'. rewrite <- app_assoc. split; [reflexivity|].
    constructor; [|exact Hall].
    split; [exact Hid|]. intros e Hreach Hthrow.
    eapply gateOutcome_places_error; eassumption.
Qed.

(** C9. A scan returns normally, with exactly one outcome per candidate
    Location reminder, in the order of the candidates; a candidate whose
    places lookup fails gets the skip [places_error], and neither that nor
    a failure of the line, speech or notification step of a trigger stops
    the candidates after it. *)
Theorem scan_one_outcome_per_candidate env sv userId lat lng radius w :
  exists results w',
    scanAndTrigger env sv userId lat lng radius w = (Ok results, w') /\
    List.length results = List.length (candidatesOf userId w) /\
    Forall2 (outcomeFor sv lat lng radius (clock w)) (candidatesOf userId w) results.
Proof.
  unfold scanAndTrigger, bind, getWorld.
  destruct (scanLoop_run env sv userId lat lng radius (clock w)
              (candidatesOf userId w) [] w) as (outs & w' & Hrun & Hall).
  { intros r Hr. unfold candidatesOf in Hr. apply filter_In in Hr as [Hr _].
    unfold idsOf. apply List.in_map. exact Hr. }
  exists outs, w'. split; [exact Hrun|].
  split; [symmetry; eapply Forall2_length; exact Hall|exact Hall].
Qed.
(** *** The gates of the scan *)

Lemma throttled_spec r now :
  match lastTriggeredAt r with
  | Some T =>
      (now - T < 90 * 60000 -> throttled r now = Some ((now - T) # 60000)%Q) /\
      (90 * 60000 <= now - T -> throttled r now = None)
  | None => throttled r now = None
  end.
Proof.
  unfold throttled. destruct (lastTriggeredAt r) as [T|]; [|reflexivity].
  unfold Qle_bool. cbn [Qnum Qden].
  split; intros H.
  - destruct (90 * 60000 <=? (now - T) * 1) eqn:E; [apply Z.leb_le in E; lia|].
    reflexivity.
  - destruct (90 * 60000 <=? (now - T) * 1) eqn:E; [reflexivity|].
    apply Z.leb_gt in E. lia.
Qed.

Lemma gateOutcome_not_throttled env sv userId lat lng radius now w r o :
  throttled r now = None ->
  gateOutcome env sv userId lat lng radius now w r o ->
  notThrottled r o.
Proof.
  unfold gateOutcome, notThrottled. intros Ht G q E. rewrite Ht in G. subst o.
  destruct (dayMismatch r (getDay now) (getDayString now)); [discriminate|].
  destruct (negb (truthyStr (Some (title r)))); [discriminate|].
  destruct (nearbyBestPlaceByKeyword sv lat lng (radiusOf radius) (title r))
    as [[place|]|e]; try discriminate.
  destruct (tooFar _ _); [discriminate|].
  destruct (0 <? _)%nat; [discriminate|]. destruct G as [G _]. exact G.
Qed.

(** C4 (amended). For a stored Location reminder: with [lastTriggeredAt]
    unset the throttle never blocks; with [lastTriggeredAt = T], a scan at
    [now] with [now - T >= 90 min] is not blocked by the throttle, and a
    scan with [now - T < 90 min] yields the skip [anti_spam_window] when the
    reminder passes the day filter, which is applied first. *)
Theorem throttle_ninety_minutes env sv userId lat lng radius now out r w :
  In (_id r) (idsOf w) ->
  (lastTriggeredAt r = None ->
     throttled r now = None /\
     exists o w',
       scanBody env sv userId lat lng radius now out r w = (Ok (out ++ [o]), w') /\
       notThrottled r o) /\
  (forall T, lastTriggeredAt r = Some T ->
     (90 * 60000 <= now - T ->
        throttled r now = None /\
        exists o w',
          scanBody env sv userId lat lng radius now out r w = (Ok (out ++ [o]), w') /\
          notThrottled r o) /\
     (now - T < 90 * 60000 ->
        dayMismatch r (getDay now) (getDayString now) = None ->
        scanBody env sv userId lat lng radius now out r w =
        (Ok (out ++ [Skipped (_id r) (anti_spam_window ((now - T) # 60000))]), w))).
Proof.
  intros Hin.
  destruct (scanBody_run env sv userId lat lng radius now out r w Hin)
    as (o & w' & Hrun & _ & _ & Hgate & _).
  pose proof (throttled_spec r now) as S.
  split.
  - intros Hnone. rewrite Hnone in S. split; [exact S|].
    exists o, w'. split; [exact Hrun|].
    eapply gateOutcome_not_throttled; eassumption.
  - intros T HT. rewrite HT in S. destruct S as [Slt Sge]. split.
    + intros Hge. specialize (Sge Hge). split; [exact Sge|].
      exists o, w'. split; [exact Hrun|].
      eapply gateOutcome_not_throttled; eassumption.
    + intros Hlt Hday. specialize (Slt Hlt).
      unfold scanBody. rewrite Hday, Slt. reflexivity.
Qed.

Lemma collisionsAt_nonempty userId now w :
  (0 <? List.length (collisionsAt userId now w))%nat = true <->
  exists c, In c (reminders w) /\ collidingReminder userId now c.
Proof.
  unfold collisionsAt, collidingReminder. cbv zeta.
  set (f := collides userId (now - 5 * 60 * 1000) (now + 5 * 60 * 1000)).
  assert (Hf : forall c, f c = true <->
            user_id (user c) = userId /\ (type c = Task \/ type c = Meeting) /\
            isCompleted c = false /\
            exists t, startDate c = Some t /\
                      now - 5 * 60 * 1000 <= t <= now + 5 * 60 * 1000).
  { intros c. unfold f, collides. rewrite !andb_true_iff, String.eqb_eq, orb_true_iff.
    rewrite negb_true_iff.
    assert (Ht : ReminderType_eqb (type c) Task = true <-> type c = Task)
      by (destruct (type c); cbn; split; congruence).
    assert (Hm : ReminderType_eqb (type c) Meeting = true <-> type c = Meeting)
      by (destruct (type c); cbn; split; congruence).
    rewrite Ht, Hm.
    destruct (startDate c) as [t|].
    - rewrite andb_true_iff, !Z.leb_le. split.
      + intros [[[H1 H2] H3] H4]. repeat split; auto. exists t. auto.
      + intros (H1 & H2 & H3 & t' & [= <-] & H4). auto.
    - split.
      + intros [[[_ _] H] _]. discriminate.
      + intros (_ & _ & _ & t & H & _). discriminate. }
  split.
  - intros H. apply Nat.ltb_lt in H.
    destruct (List.filter f (reminders w)) as [|c l] eqn:E; [cbn in H; lia|].
    assert (Hc : In c (List.filter f (reminders w))) by (rewrite E; left; reflexivity).
    apply filter_In in Hc as [Hc1 Hc2]. exists c. split; [exact Hc1|].
    apply Hf. exact Hc2.
  - intros (c & Hc & Hp). apply Nat.ltb_lt.
    assert (Hin : In c (List.filter f (reminders w)))
      by (apply filter_In; split; [exact Hc|apply Hf; exact Hp]).
    destruct (List.filter f (reminders w)); [destruct Hin|cbn; lia].
Qed.

Lemma gateOutcome_at_collision_gate env sv userId lat lng radius now w r o place :
  reachesPlace sv lat lng radius r now place ->
  tooFar (distanceTo lat lng place) (MAX_METERS env) = false ->
  gateOutcome env sv userId lat lng radius now w r o ->
  if (0 <? List.length (collisionsAt userId now w))%nat
  then o = Skipped (_id r) (collision (6 * 60 * 1000))
  else isTriggered o /\ outcomeId o = _id r.
Proof.
  unfold gateOutcome. intros ((Hd & Ht & Hk) & Hp) Hfar G.
  rewrite Hd, Ht in G. apply truthyStr_title in Hk. rewrite Hk, Hp, Hfar in G. exact G.
Qed.

(** C6. For a stored candidate that reaches the collision gate, the outcome
    is the skip [collision], with a retry delay of 360000 ms, if and only if
    the user has a Task or Meeting, not completed, whose [startDate] lies in
    [now - 5 min, now + 5 min]; a [startDate] at [now + 4 min 59 s] gives the
    collision, and when every such reminder starts at [now + 5 min 01 s] the
    reminder is triggered. *)
Theorem collision_gate env sv userId lat lng radius now out r w place :
  In (_id r) (idsOf w) ->
  reachesPlace sv lat lng radius r now place ->
  tooFar (distanceTo lat lng place) (MAX_METERS env) = false ->
  ((exists w',
      scanBody env sv userId lat lng radius now out r w =
      (Ok (out ++ [Skipped (_id r) (collision 360000)]), w'))
   <-> exists c, In c (reminders w) /\ collidingReminder userId now c) /\
  (forall c, In c (reminders w) ->
     user_id (user c) = userId -> type c = Task \/ type c = Meeting ->
     isCompleted c = false -> startDate c = Some (now + 299000) ->
     scanBody env sv userId lat lng radius now out r w =
     (Ok (out ++ [Skipped (_id r) (collision 360000)]), w)) /\
  ((forall c, In c (reminders w) ->
      user_id (user c) = userId -> type c = Task \/ type c = Meeting ->
      isCompleted c = false -> startDate c = Some (now + 301000)) ->
   exists o w',
     scanBody env sv userId lat lng radius now out r w = (Ok (out ++ [o]), w') /\
     isTriggered o).
Proof.
  intros Hin Hreach Hfar.
  destruct (scanBody_run env sv userId lat lng radius now out r w Hin)
    as (o & w' & Hrun & _ & _ & Hgate & Hw).
  pose proof (gateOutcome_at_collision_gate _ _ _ _ _ _ _ _ _ _ _ Hreach Hfar Hgate) as G.
  pose proof (collisionsAt_nonempty userId now w) as C.
  assert (Hyes : (exists c, In c (reminders w) /\ collidingReminder userId now c) ->
            scanBody env sv userId lat lng radius now out r w =
            (Ok (out ++ [Skipped (_id r) (collision 360000)]), w)).
  { intros Hc. apply C in Hc. rewrite Hc in G. subst o.
    destruct Hw as [[]| ->]. exact Hrun. }
  split; [split|split].
  - intros (w1 & Hcoll). rewrite Hrun in Hcoll. injection Hcoll as Ho _.
    apply app_inv_head in Ho. injection Ho as ->.
    destruct (0 <? List.length (collisionsAt userId now w))%nat eqn:E;
      [apply (collisionsAt_nonempty userId now w); exact E|destruct G as [[] _]].
  - intros Hc. exists w. apply Hyes. exact Hc.
  - intros c Hc Hu Hty Hcomp Hs. apply Hyes. exists c. split; [exact Hc|].
    split; [exact Hu|]. split; [exact Hty|]. split; [exact Hcomp|].
    exists (now + 299000). split; [exact Hs|lia].
  - intros Hall. exists o, w'. split; [exact Hrun|].
    destruct (0 <? List.length (collisionsAt userId now w))%nat eqn:E;
      [|exact (proj1 G)].
    apply (collisionsAt_nonempty userId now w) in E
      as (c & Hc & Hu & Hty & Hcomp & t & Hs & Ht).
    rewrite (Hall c Hc Hu Hty Hcomp) in Hs. injection Hs as <-. lia.
Qed.
Lemma Math_round_IZR k : Math_round (IZR k) = k.
Proof.
  unfold Math_round. symmetry. apply Int_part_spec. lra.
Qed.


Lemma MAX_METERS_default env :
  LOCATION_MAX_TRIGGER_METERS env = None -> MAX_METERS env = Some 60.
Proof. unfold MAX_METERS. intros ->. reflexivity. Qed.

Lemma gateOutcome_at_distance_gate env sv userId lat lng radius now w r o place :
  reachesPlace sv lat lng radius r now place ->
  gateOutcome env sv userId lat lng radius now w r o ->
  if tooFar (distanceTo lat lng place) (MAX_METERS env)
  then o = Skipped (_id r)
             (too_far (distanceTo lat lng place) (MAX_METERS env)
                (place_id place) (placeName place))
  else if (0 <? List.length (collisionsAt userId now w))%nat
       then o = Skipped (_id r) (collision (6 * 60 * 1000))
       else isTriggered o /\ outcomeId o = _id r.
Proof.
  unfold gateOutcome. intros ((Hd & Ht & Hk) & Hp) G.
  rewrite Hd, Ht in G. apply truthyStr_title in Hk. rewrite Hk, Hp in G. exact G.
Qed.



(** *** The haversine formula *)

Lemma atan2_sin_cos x :
  (- (PI / 2) < x < PI / 2)%R -> atan2 (sin x) (cos x) = x.
Proof.
  intros Hx. unfold atan2.
  assert (Hc : (0 < cos x)%R) by (apply cos_gt_0; lra).
  destruct (Rlt_dec 0 (cos x)) as [_|N]; [|contradiction].
  change (sin x / cos x)%R with (tan x). apply atan_tan. exact Hx.
Qed.

(** Along a meridian the haversine distance is the length of the arc. *)
Lemma haversineMeters_meridian (lat1 lat2 lon : R) :
  (0 <= lat2 - lat1 < 180)%R ->
  haversineMeters lat1 lon lat2 lon = (6371000 * toRad (lat2 - lat1))%R.
Proof.
  intros Hd. unfold haversineMeters.
  replace (lon - lon)%R with 0%R by ring.
  assert (Hz : toRad 0 = 0%R) by (unfold toRad; field).
  rewrite Hz. replace (0 / 2)%R with 0%R by field. rewrite sin_0.
  set (h := (toRad (lat2 - lat1) / 2)%R).
  assert (Hh : (0 <= h < PI / 2)%R).
  { unfold h, toRad. pose proof PI_RGT_0. split.
    - apply Rmult_le_pos; [|lra]. apply Rmult_le_pos; [|lra].
      apply Rmult_le_pos; lra.
    - assert ((lat2 - lat1) * PI < 180 * PI)%R by (apply Rmult_lt_compat_r; lra).
      lra. }
  replace (sin h * sin h + cos (toRad lat1) * cos (toRad lat2) * 0 * 0)%R
    with (Rsqr (sin h)) by (unfold Rsqr; ring).
  rewrite sqrt_Rsqr by (apply sin_ge_0; pose proof PI_RGT_0; lra).
  replace (1 - Rsqr (sin h))%R with (Rsqr (cos h)) by (rewrite cos2; reflexivity).
  rewrite sqrt_Rsqr by (apply cos_ge_0; pose proof PI_RGT_0; lra).
  rewrite atan2_sin_cos by (pose proof PI_RGT_0; lra).
  unfold h. field.
Qed.

(** A point [x] metres to the north of the caller, [0 <= x <= 1000000], is
    at haversine distance [x]. *)
Lemma haversineMeters_north (lat lon x : R) :
  (0 <= x <= 1000000)%R ->
  haversineMeters lat lon (lat + x / 6371000 * 180 / PI) lon = x.
Proof.
  intros Hx. pose proof PI_RGT_0 as Hpi.
  rewrite haversineMeters_meridian.
  - unfold toRad. field. lra.
  - replace (lat + x / 6371000 * 180 / PI - lat)%R with (x / 6371000 * 180 / PI)%R
      by (field; lra).
    assert (Hpi3 : (3 <= PI)%R).
    { pose proof (PI2_3_2). lra. }
    split.
    + apply Rmult_le_pos; [|left; apply Rinv_0_lt_compat; exact Hpi].
      lra.
    + apply (Rmult_lt_reg_r PI); [exact Hpi|].
      replace (x / 6371000 * 180 / PI * PI)%R with (x / 6371000 * 180)%R by (field; lra).
      lra.
Qed.
(** *** The poll of the trigger *)

Lemma ensureReminderTTS_clock env sv id usr ov w :
  clock (snd (ensureReminderTTS env sv id usr ov w)) = clock w.
Proof.
  destruct (findById id w) as [reminder|] eqn:Hfind.
  - rewrite (ensureReminderTTS_run _ _ _ _ _ _ _ Hfind). cbv zeta.
    destruct (ttsUpToDate _ _); [reflexivity|].
    match goal with
    | |- context [generateElevenLabsAudio ?a ?b ?c ?d ?w0] =>
        destruct (generateElevenLabsAudio a b c d w0) as [[res|e] w2] eqn:Hgen
    end; apply generateElevenLabsAudio_world in Hgen as (_ & _ & Hc & _);
      cbn [snd save clock] in *; exact Hc.
  - unfold ensureReminderTTS, bind, getWorld. rewrite Hfind. reflexivity.
Qed.

Lemma pollTTS_step env sv id usr startTs fuel w :
  pollTTS env sv id usr (S fuel) startTs w =
  if clock w - startTs <? 2000
  then match ensureReminderTTS env sv id (Some usr) None w with
       | (Ok again, w1) =>
           if truthyStr (textHash (tts again)) then (Ok (textHash (tts again)), w1)
           else pollTTS env sv id usr fuel startTs (snd (sleep 250 w1))
       | (Throw e, w1) => (Throw e, w1)
       end
  else (Ok None, w).
Proof.
  cbn [pollTTS]. unfold bind at 1. unfold getWorld.
  destruct (clock w - startTs <? 2000); [|reflexivity].
  unfold bind at 1.
  destruct (ensureReminderTTS env sv id (Some usr) None w) as [[again|e] w1];
    [|reflexivity].
  destruct (truthyStr (textHash (tts again))); reflexivity.
Qed.

(** The fuel of [pollTTS] stands for the two-second ceiling: once the
    waits that are left cover the two seconds, more fuel changes nothing. *)
Lemma pollTTS_fuel env sv id usr startTs (fuel : nat) : forall (n : nat) w,
  (fuel <= n)%nat ->
  2000 <= clock w - startTs + 250 * Z.of_nat fuel ->
  pollTTS env sv id usr n startTs w = pollTTS env sv id usr fuel startTs w.
Proof.
  induction fuel as [|fuel IH]; intros n w Hn Ht.
  - destruct n as [|n]; [reflexivity|].
    rewrite pollTTS_step.
    destruct (clock w - startTs <? 2000) eqn:E; [apply Z.ltb_lt in E; lia|reflexivity].
  - destruct n as [|n]; [lia|].
    rewrite !pollTTS_step.
    destruct (clock w - startTs <? 2000); [|reflexivity].
    pose proof (ensureReminderTTS_clock env sv id (Some usr) None w) as Hc.
    destruct (ensureReminderTTS env sv id (Some usr) None w) as [[again|e] w1];
      [|reflexivity].
    cbn [snd] in Hc.
    destruct (truthyStr (textHash (tts again))); [reflexivity|].
    apply IH; [lia|]. cbn [sleep snd clock]. lia.
Qed.

Lemma pollTTS_eight_waits env sv id usr w (n : nat) :
  (8 <= n)%nat ->
  pollTTS env sv id usr n (clock w) w = pollTTS env sv id usr 8 (clock w) w.
Proof. intros Hn. apply pollTTS_fuel; [exact Hn|lia]. Qed.

Lemma blocks_nonempty fuel : forall ws h, h <> [] -> SHA256.blocks fuel ws h <> [].
Proof.
  induction fuel as [|fuel IH]; intros ws h Hh; cbn [SHA256.blocks]; [exact Hh|].
  destruct ws as [|x ws']; [exact Hh|].
  apply IH. unfold SHA256.compress. destruct h as [|a h']; [congruence|].
  set (r := List.fold_left _ _ _). cbn [List.combine List.map]. discriminate.
Qed.

(** A digest is never the empty string. *)
Lemma computeTextHash_truthy text voice :
  truthyStr (Some (computeTextHash text voice)) = true.
Proof.
  unfold computeTextHash, SHA256.hex, SHA256.digest.
  set (ws := SHA256.words _ _).
  pose proof (blocks_nonempty (List.length ws) ws SHA256.H0) as N.
  destruct (SHA256.blocks (List.length ws) ws SHA256.H0) as [|x l].
  - exfalso. apply N; [|reflexivity]. vm_compute. discriminate.
  - reflexivity.
Qed.

(** So the poll never runs: a call of [ensureReminderTTS] that returns has
    written a hash, and one that throws leaves the [try]. *)
Lemma triggerTTS_no_poll env sv updated w :
  triggerTTS env sv updated w =
  match ensureReminderTTS env sv (_id updated) (Some (user updated)) None w with
  | (Ok ensured, w') => (Ok (textHash (tts ensured)), w')
  | (Throw _, w') => (Ok None, w')
  end.
Proof.
  unfold triggerTTS, catch_. unfold bind at 1.
  destruct (findById (_id updated) w) as [reminder|] eqn:Hfind.
  - pose proof (ensureReminderTTS_post env sv (_id updated) (Some (user updated))
                  None w reminder Hfind) as P.
    destruct (ensureReminderTTS env sv (_id updated) (Some (user updated)) None w)
      as [[ensured|e] w']; [|reflexivity].
    destruct P as (_ & (_ & Hh) & _). rewrite Hh.
    rewrite computeTextHash_truthy. reflexivity.
  - unfold ensureReminderTTS, bind, getWorld, throw. rewrite Hfind. reflexivity.
Qed.
(* ===================================================================== *)
(** ** Further properties of the scheduling, speech and scan code *)
(* ===================================================================== *)

(** *** findSmartSlot: completeness and minimality *)

(** X1. [findSmartSlot] returns null exactly when none of the hourly slots
    of the window is free for the user, and otherwise the earliest free
    slot; it writes nothing. *)
Theorem findSmartSlot_earliest userId now w :
  validTime now -> validTime (now + 7 * 24 * 60 * 60 * 1000) ->
  exists res, findSmartSlot userId now w = (Ok res, w) /\
    (res = None <-> forall t, ~ freeSlot w userId now t) /\
    (forall x, res = Some x ->
       exists t, x = DateOf t /\ freeSlot w userId now t /\
         forall t', freeSlot w userId now t' -> t <= t').
Proof.
  intros Hn Hh.
  destruct (findSmartSlot_spec userId now w Hn Hh) as (res & Hrun & Hres).
  exists res. split; [exact Hrun|].
  destruct res as [x|].
  - destruct Hres as (t & -> & Hfree & Hfirst). split.
    + split; [discriminate|]. intros Hnone. exfalso. exact (Hnone t Hfree).
    + intros x' [= <-]. exists t. split; [reflexivity|]. split; [exact Hfree|].
      intros t' Hfree'. destruct (Z_lt_le_dec t' t) as [Hlt|Hle]; [|exact Hle].
      exfalso. exact (Hfirst t' Hlt Hfree').
  - split; [split; [intros _; exact Hres|reflexivity]|discriminate].
Qed.

(** *** The schedule read off the reply *)

Lemma dayOfValue_range v d : dayOfValue v = Some d -> 0 <= d <= 6.
Proof.
  destruct v as [| |q| | |]; cbn; try discriminate.
  destruct (isInteger q && (0 <=? toInteger q) && (toInteger q <=? 6)) eqn:E;
    [|discriminate].
  intros [= <-]. apply andb_true_iff in E as [E E3]. apply andb_true_iff in E as [_ E2].
  apply Z.leb_le in E2, E3. lia.
Qed.

Lemma scheduleOfReply_days obj :
  Forall (fun d => 0 <= d <= 6) (sScheduleDays (scheduleOfReply obj)).
Proof.
  unfold scheduleOfReply. cbn [sScheduleDays].
  destruct (prop "scheduleDays" obj) as [[| | | |items|]|]; try constructor.
  apply Forall_forall. intros d Hd. apply list_elem_of_omap in Hd as (v & _ & Hv).
  eapply dayOfValue_range. exact Hv.
Qed.

(** X2. Whatever the model replies, the week days of a schedule returned by
    [suggestFullScheduleWithGemini] are integers between 0 and 6: the
    entries of the array of the reply that are such integers, in their
    order, and none when the reply holds no array. *)
Theorem gemini_schedule_days_in_range env now reply s :
  suggestFullScheduleWithGemini env now reply = Ok (Some s) ->
  Forall (fun d => 0 <= d <= 6) (sScheduleDays s) /\
  exists raw obj, reply = Ok raw /\ parseReply (trim raw) = Some obj /\
    sScheduleDays s =
      match prop "scheduleDays" obj with
      | Some (JArr items) => omap dayOfValue items
      | _ => []
      end.
Proof.
  intros H.
  apply suggestFullScheduleWithGemini_checked in H as (raw & obj & Hr & Hp & H).
  symmetry in H. pose proof (checkSchedule_same _ _ _ H) as ->.
  split; [apply scheduleOfReply_days|].
  exists raw, obj. split; [exact Hr|]. split; [exact Hp|]. reflexivity.
Qed.
(** *** The notification line *)

Lemma buildNotificationText_truthy r u :
  truthyStr (Some (buildNotificationText r u)) = true.
Proof.
  unfold buildNotificationText.
  destruct (aiNotificationLine r) as [s|] eqn:E; cbn [truthyStr default].
  - destruct (negb (String.eqb s EmptyString)) eqn:Hs; [exact Hs|].
    destruct (type r); reflexivity.
  - destruct (type r); reflexivity.
Qed.

Lemma lineStage_truthy env sv usr rem :
  truthyStr (aiNotificationLine (fst (lineStage env sv usr rem))) = true.
Proof.
  unfold lineStage.
  destruct (if geminiModule env then _ else _) as [line|] eqn:G.
  - assert (Hl : truthyStr (Some line) = true).
    { destruct (geminiModule env); [|discriminate].
      destruct (generateNotificationLineWithGemini env _) as [l|]; [|discriminate].
      destruct (truthyStr (Some l)) eqn:T; [|discriminate]. congruence. }
    cbn [aiNotificationLine set_aiNotificationLine]. rewrite Hl. exact Hl.
  - destruct (truthyStr (aiNotificationLine rem)) eqn:T; cbn [negb fst].
    + exact T.
    + cbn [aiNotificationLine set_aiNotificationLine].
      apply buildNotificationText_truthy.
Qed.

(** X3. Every reminder that [processBackgroundAI] returns carries a
    non-empty notification line, and the stored reminder carries the same
    line: the line of Gemini, else the line it had, else the text of
    [buildNotificationText]. *)
Theorem processBackgroundAI_line_present env sv id usr w rem meta w' :
  processBackgroundAI env sv id usr w = (Ok (Some (rem, meta)), w') ->
  exists s, s <> EmptyString /\ aiNotificationLine rem = Some s /\
    (exists r', findById id w' = Some r' /\ aiNotificationLine r' = Some s) /\
    (lineSource meta = None ->
     exists rem0, findById id w = Some rem0 /\
       aiNotificationLine rem0 = Some s).
Proof.
  intros Hrun.
  destruct (findById id w) as [rem0|] eqn:Hfind.
  2:{ unfold processBackgroundAI, bind, getWorld, ret in Hrun.
      rewrite Hfind in Hrun. discriminate. }
  destruct (processBackgroundAI_run env sv id usr w rem0 Hfind)
    as [(e & He)|(rem1 & src & rem' & ls & Hs & Hl & Hrid & Hsaved & Hp)].
  { rewrite He in Hrun. discriminate. }
  rewrite Hp in Hrun. injection Hrun as <- <- <-.
  pose proof (lineStage_truthy env sv usr rem1) as T. rewrite Hl in T. cbn [fst] in T.
  apply truthyStr_Some in T as (s & Hline & Hne).
  exists s. split; [exact Hne|]. split; [exact Hline|]. split.
  - destruct (isSome (startDate rem')).
    + pose proof (ensureReminderTTS_post env sv id (Some (default (user rem') usr))
                    None _ rem' Hsaved) as P.
      destruct (ensureReminderTTS env sv id _ None _) as [[r'|e] w2]; cbn [snd].
      * destruct P as (H1 & _ & H3 & _). exists r'. split; [exact H1|congruence].
      * destruct P as (r' & H1 & _ & H3). exists r'. split; [exact H1|congruence].
    + exists rem'. auto.
  - cbn [lineSource]. intros ->. exists rem0. split; [reflexivity|].
    pose proof (scheduleStage_frame _ _ _ _ _ _ Hs) as (_ & Hfr).
    destruct (Hfr rem1 src false eq_refl) as (_ & _ & _ & Hline1).
    rewrite <- Hline1, <- Hline.
    unfold lineStage in Hl.
    destruct (if geminiModule env then _ else _) as [line|].
    + destruct (negb (truthyStr (aiNotificationLine (set_aiNotificationLine (Some line) rem1))));
        inversion Hl.
    + destruct (negb (truthyStr (aiNotificationLine rem1)));
        inversion Hl. reflexivity.
Qed.

(** *** A reminder that does not exist *)

(** X5. [processBackgroundAI] returns null exactly when no reminder has the
    given id, and then writes nothing; [ensureReminderTTS] then throws
    [Reminder not found] and writes nothing. *)
Theorem missing_reminder env sv id usr ov w :
  (findById id w = None <->
   exists w', processBackgroundAI env sv id usr w = (Ok None, w')) /\
  (findById id w = None ->
   processBackgroundAI env sv id usr w = (Ok None, w) /\
   ensureReminderTTS env sv id usr ov w = (Throw "Reminder not found", w)).
Proof.
  split.
  - split.
    + intros H. exists w. unfold processBackgroundAI, bind, getWorld, ret.
      rewrite H. reflexivity.
    + intros (w' & Hrun).
      destruct (findById id w) as [rem0|] eqn:Hfind; [|reflexivity].
      destruct (processBackgroundAI_run env sv id usr w rem0 Hfind)
        as [(e & He)|(rem1 & src & rem' & ls & _ & _ & _ & _ & Hp)];
        rewrite Hrun in *; discriminate.
  - intros H. unfold processBackgroundAI, ensureReminderTTS, bind, getWorld, ret, throw.
    rewrite H. split; reflexivity.
Qed.

(** *** A schedule of Gemini is applied as it is *)

(** X6. For an unscheduled Task, a one-day schedule accepted from Gemini is
    applied without consulting the fallback.  Its start parses to an
    instant strictly after the clock.  When the lead time of the reply is
    negative, the schema's [min: 0] makes [rem.save()] reject: the call
    throws and nothing is written.  Otherwise the call returns: the
    returned reminder starts at the instant of the reply, keeps the week
    days of the reply, takes the lead time of the reply or 10 minutes, which
    is not negative, is marked [aiSuggested], and the source is [gemini]. *)
Theorem gemini_one_day_schedule_applied env sv id usr w rem0 s :
  findById id w = Some rem0 ->
  type rem0 = Task -> isManualSchedule rem0 = false -> startDate rem0 = None ->
  geminiModule env = true ->
  suggestFullScheduleWithGemini env (clock w) (scheduleReply sv) = Ok (Some s) ->
  sScheduleType s = oneDay ->
  exists d,
    newDate (startDateISO s) = DateOf d /\ clock w < d /\
    (forall q, minutesBeforeStart (sScheduleTime s) = Some q -> (q < 0)%Q ->
       processBackgroundAI env sv id usr w =
       (Throw "Reminder validation failed", w)) /\
    ((forall q, minutesBeforeStart (sScheduleTime s) = Some q -> (0 <= q)%Q) ->
     exists rem meta w',
       processBackgroundAI env sv id usr w = (Ok (Some (rem, meta)), w') /\
       scheduleSource meta = Some gemini /\
       startDate rem = Some d /\
       scheduleType rem = Some oneDay /\
       scheduleDays rem = Some (sScheduleDays s) /\
       scheduleTime rem = Some (sScheduleTime s) /\
       notificationPreferenceMinutes rem =
         default (10 # 1)%Q (minutesBeforeStart (sScheduleTime s)) /\
       (0 <= notificationPreferenceMinutes rem)%Q /\
       aiSuggested rem = true).
Proof.
  intros Hfind Htype Hman Hstart Hmod Hsug Hone.
  pose proof Hsug as Hacc.
  apply suggestFullScheduleWithGemini_checked in Hacc as (raw & obj & _ & _ & Hc).
  symmetry in Hc. pose proof (checkSchedule_same _ _ _ Hc) as Hsame.
  rewrite <- Hsame in Hc.
  apply (proj1 (checkSchedule_accepts (clock w) s)) in Hc.
  unfold scheduleAccepted in Hc. rewrite Hone in Hc.
  destruct Hc as (Htruthy & d & Hd & Hlt).
  assert (Hs : scheduleStage env sv rem0 w =
               (Ok (fst (applySchedule s rem0), Some gemini,
                    belowMinimum (sScheduleTime s)), w)).
  { unfold scheduleStage. rewrite Hman, Htype, Hstart.
    cbn [negb andb ReminderType_eqb isSome].
    unfold bind at 1. unfold getWorld at 1.
    unfold tryGeminiSchedule. rewrite Hmod, Hsug.
    unfold bind, ret. cbn [fst snd].
    unfold applySchedule. rewrite Htruthy, Hd. reflexivity. }
  exists d. split; [exact Hd|]. split; [exact Hlt|].
  rewrite (processBackgroundAI_eq env sv id usr w rem0 Hfind), Hs. cbv zeta.
  split.
  - intros q Hq Hneg. unfold belowMinimum. rewrite Hq.
    assert (Hn : (Qnum q <? 0) = true).
    { apply Z.ltb_lt. unfold Qlt in Hneg. cbn in Hneg. lia. }
    rewrite Hn. reflexivity.
  - intros Hpos.
    assert (Hb : belowMinimum (sScheduleTime s) = false).
    { unfold belowMinimum. destruct (minutesBeforeStart (sScheduleTime s)) as [q|] eqn:Hq;
        [|reflexivity].
      apply Z.ltb_ge. specialize (Hpos q eq_refl). unfold Qle in Hpos.
      cbn in Hpos. lia. }
    rewrite Hb.
    destruct (lineStage_fields env sv usr (fst (applySchedule s rem0))) as (l & Hl).
    rewrite Hl.
    do 3 eexists. split; [reflexivity|].
    split; [reflexivity|].
    unfold applySchedule. rewrite Htruthy, Hd, Hone. cbn.
    repeat split.
    destruct (minutesBeforeStart (sScheduleTime s)) as [q|] eqn:Hq; cbn.
    + exact (Hpos q eq_refl).
    + discriminate.
Qed.

(** *** What [ensureReminderTTS] writes *)

(** The stored document after a call differs from the one before in its
    [tts] record only. *)
Lemma ensureReminderTTS_stored env sv id usr ov w reminder :
  findById id w = Some reminder ->
  exists t, findById id (snd (ensureReminderTTS env sv id usr ov w))
            = Some (set_tts t reminder) /\
    (forall r', fst (ensureReminderTTS env sv id usr ov w) = Ok r' ->
                r' = set_tts t reminder).
Proof.
  intros Hfind. rewrite (ensureReminderTTS_run _ _ _ _ _ _ _ Hfind). cbv zeta.
  pose proof (findById_id _ _ _ Hfind) as Hid. subst id.
  destruct (ttsUpToDate _ _).
  - exists (tts reminder). cbn [fst snd].
    assert (E : set_tts (tts reminder) reminder = reminder) by (destruct reminder; reflexivity).
    rewrite E. split; [exact Hfind|]. intros r' [= <-]. reflexivity.
  - set (voice := ttsVoice env ov reminder).
    set (text := ttsText reminder usr).
    set (pendingDoc := markPending voice (computeTextHash text voice) reminder).
    assert (Hf1 : findById (_id reminder) (snd (save pendingDoc w)) = Some pendingDoc)
      by exact (findById_save pendingDoc w reminder Hfind).
    destruct (generateElevenLabsAudio env sv text voice (snd (save pendingDoc w)))
      as [[res|e] w2] eqn:Hgen;
      apply generateElevenLabsAudio_world in Hgen as (Hr & _);
      assert (Hf2 : findById (_id reminder) w2 = Some pendingDoc)
        by (unfold findById in *; rewrite Hr; exact Hf1);
      cbn [fst snd].
    + exists (tts (markReady (fst res) (snd res) (clock w2) pendingDoc)).
      assert (E : set_tts (tts (markReady (fst res) (snd res) (clock w2) pendingDoc)) reminder
                  = markReady (fst res) (snd res) (clock w2) pendingDoc)
        by (destruct reminder; reflexivity).
      rewrite E. split.
      * exact (findById_save (markReady (fst res) (snd res) (clock w2) pendingDoc)
                 w2 pendingDoc Hf2).
      * intros r' [= <-]. reflexivity.
    + exists (tts (markFailed pendingDoc)).
      assert (E : set_tts (tts (markFailed pendingDoc)) reminder = markFailed pendingDoc)
        by (destruct reminder; reflexivity).
      rewrite E. split.
      * exact (findById_save (markFailed pendingDoc) w2 pendingDoc Hf2).
      * discriminate.
Qed.

Lemma ensureReminderTTS_other env sv id usr ov w id' :
  id' <> id ->
  findById id' (snd (ensureReminderTTS env sv id usr ov w)) = findById id' w.
Proof.
  intros Hne.
  destruct (findById id w) as [reminder|] eqn:Hfind.
  2:{ unfold ensureReminderTTS, bind, getWorld, throw. rewrite Hfind. reflexivity. }
  rewrite (ensureReminderTTS_run _ _ _ _ _ _ _ Hfind). cbv zeta.
  pose proof (findById_id _ _ _ Hfind) as Hid.
  destruct (ttsUpToDate _ _); [reflexivity|].
  set (pendingDoc := markPending _ _ reminder).
  assert (Hp : _id pendingDoc <> id') by (cbn; congruence).
  match goal with
  | |- context [generateElevenLabsAudio ?a ?b ?c ?d ?w0] =>
      destruct (generateElevenLabsAudio a b c d w0) as [[res|e] w2] eqn:Hgen
  end; apply generateElevenLabsAudio_world in Hgen as (Hr & _); cbn [snd].
  - rewrite findById_save_other by (cbn; congruence).
    unfold findById at 1. rewrite Hr. fold (findById id' (snd (save pendingDoc w))).
    apply findById_save_other. exact Hp.
  - rewrite findById_save_other by (cbn; congruence).
    unfold findById at 1. rewrite Hr. fold (findById id' (snd (save pendingDoc w))).
    apply findById_save_other. exact Hp.
Qed.

Lemma ensureReminderTTS_notifications env sv id usr ov w :
  notifications (snd (ensureReminderTTS env sv id usr ov w)) = notifications w.
Proof.
  destruct (findById id w) as [reminder|] eqn:Hfind.
  - rewrite (ensureReminderTTS_run _ _ _ _ _ _ _ Hfind). cbv zeta.
    destruct (ttsUpToDate _ _); [reflexivity|].
    match goal with
    | |- context [generateElevenLabsAudio ?a ?b ?c ?d ?w0] =>
        destruct (generateElevenLabsAudio a b c d w0) as [[res|e] w2] eqn:Hgen
    end; apply generateElevenLabsAudio_world in Hgen as (_ & Hn & _);
      cbn [snd save notifications] in *; exact Hn.
  - unfold ensureReminderTTS, bind, getWorld. rewrite Hfind. reflexivity.
Qed.

Lemma ensureReminderTTS_log env sv id usr ov w :
  synthLog (snd (ensureReminderTTS env sv id usr ov w)) = synthLog w \/
  exists v text, synthLog (snd (ensureReminderTTS env sv id usr ov w))
                 = synthLog w ++ [(v, text)].
Proof.
  destruct (findById id w) as [reminder|] eqn:Hfind.
  2:{ left. unfold ensureReminderTTS, bind, getWorld. rewrite Hfind. reflexivity. }
  rewrite (ensureReminderTTS_run _ _ _ _ _ _ _ Hfind). cbv zeta.
  destruct (ttsUpToDate _ _); [left; reflexivity|].
  unfold generateElevenLabsAudio.
  destruct (negb (truthyStr (ELEVENLABS_API_KEY env))); [left; reflexivity|].
  destruct (negb (truthyStr (orStr _ (ELEVENLABS_DEFAULT_VOICE_ID env))));
    [left; reflexivity|].
  unfold bind, getWorld, putWorld, liftResult, ret. cbn [save snd synthLog].
  destruct (synth sv _ _ _); right; do 2 eexists; reflexivity.
Qed.

(** *** Reminders the schedule stage leaves alone *)

(** X4. A reminder that is a Meeting or a Location reminder, or is
    scheduled by hand, or already has a [startDate], is never rescheduled:
    [processBackgroundAI] returns normally, reports no schedule source, and
    the returned reminder differs from the stored one in
    [aiNotificationLine] only.  The reminder stored afterwards is the
    returned one up to its [tts] record, which [ensureReminderTTS]
    (lines 124-126) may rewrite when the reminder has a [startDate], with at
    most one speech request; for a reminder without [startDate] the [tts]
    record is kept and no speech is requested.  The other reminders and the
    notifications are as before. *)
Theorem processBackgroundAI_keeps_manual_schedule env sv id usr w rem0 :
  findById id w = Some rem0 ->
  isManualSchedule rem0 = true \/ type rem0 <> Task \/ startDate rem0 <> None ->
  exists line meta w' t,
    processBackgroundAI env sv id usr w =
      (Ok (Some (set_aiNotificationLine line rem0, meta)), w') /\
    scheduleSource meta = None /\
    findById id w' = Some (set_tts t (set_aiNotificationLine line rem0)) /\
    (forall id', id' <> id -> findById id' w' = findById id' w) /\
    notifications w' = notifications w /\
    (startDate rem0 = None -> t = tts rem0 /\ synthLog w' = synthLog w) /\
    (synthLog w' = synthLog w \/
     exists v text, synthLog w' = synthLog w ++ [(v, text)]).
Proof.
  intros Hfind Hcase.
  pose proof (findById_id _ _ _ Hfind) as Hid.
  rewrite (processBackgroundAI_eq env sv id usr w rem0 Hfind).
  assert (Hs : scheduleStage env sv rem0 w = (Ok (rem0, None, false), w)).
  { unfold scheduleStage.
    assert (Hc : negb (isManualSchedule rem0) && ReminderType_eqb (type rem0) Task
                 && negb (isSome (startDate rem0)) = false).
    { destruct Hcase as [H|[H|H]].
      - rewrite H. reflexivity.
      - destruct (type rem0); [congruence| |];
          cbn; rewrite andb_false_r; reflexivity.
      - destruct (startDate rem0); [|congruence]. cbn. apply andb_false_r. }
    rewrite Hc. reflexivity. }
  rewrite Hs. cbv zeta.
  destruct (lineStage_fields env sv usr rem0) as (l & Hl). rewrite Hl.
  set (rem := set_aiNotificationLine l rem0).
  assert (Hrid : _id rem = id) by exact Hid.
  assert (Hsaved : findById id (snd (save rem w)) = Some rem).
  { rewrite <- Hrid. apply (findById_save rem w rem0). rewrite Hrid. exact Hfind. }
  assert (Hothers : forall id', id' <> id ->
            findById id' (snd (save rem w)) = findById id' w).
  { intros id' Hne. apply findById_save_other. congruence. }
  assert (Hstart : startDate rem = startDate rem0) by reflexivity.
  rewrite Hstart, Hrid.
  destruct (startDate rem0) as [d|] eqn:Hd; cbn [isSome].
  - set (w1 := snd (save rem w)) in *.
    set (u := Some (default (user rem) usr)).
    destruct (ensureReminderTTS_stored env sv id u None w1 rem Hsaved) as (t & Ht & _).
    exists l, (mkMeta None (snd (lineStage env sv usr rem0))),
      (snd (ensureReminderTTS env sv id u None w1)), t.
    split; [reflexivity|]. split; [reflexivity|]. split; [exact Ht|].
    split.
    { intros id' Hne. rewrite ensureReminderTTS_other by exact Hne.
      apply Hothers, Hne. }
    split; [rewrite ensureReminderTTS_notifications; reflexivity|].
    split; [discriminate|].
    exact (ensureReminderTTS_log env sv id u None w1).
  - exists l, (mkMeta None (snd (lineStage env sv usr rem0))),
      (snd (save rem w)), (tts rem0).
    split; [reflexivity|]. split; [reflexivity|].
    split.
    { rewrite Hsaved. reflexivity. }
    split; [exact Hothers|].
    split; [reflexivity|].
    split; [intros _; split; reflexivity|].
    left. reflexivity.
Qed.

(** X7. A call of [ensureReminderTTS] touches one thing: the [tts] record
    of the reminder it is given.  The other fields of that reminder, the
    other reminders, the notifications and the clock are as before, and at
    most one request is sent to the speech service. *)
Theorem ensureReminderTTS_frame env sv id usr ov w :
  let w' := snd (ensureReminderTTS env sv id usr ov w) in
  (forall reminder, findById id w = Some reminder ->
     exists t, findById id w' = Some (set_tts t reminder)) /\
  (forall id', id' <> id -> findById id' w' = findById id' w) /\
  idsOf w' = idsOf w /\
  notifications w' = notifications w /\
  clock w' = clock w /\
  (synthLog w' = synthLog w \/
   exists v text, synthLog w' = synthLog w ++ [(v, text)]).
Proof.
  cbv zeta. split; [|split; [|split; [|split; [|split]]]].
  - intros reminder Hfind.
    destruct (ensureReminderTTS_stored env sv id usr ov w reminder Hfind) as (t & H & _).
    exists t. exact H.
  - intros id' Hne. apply ensureReminderTTS_other. exact Hne.
  - apply ensureReminderTTS_ids.
  - apply ensureReminderTTS_notifications.
  - apply ensureReminderTTS_clock.
  - apply ensureReminderTTS_log.
Qed.

(** X8. When [ensureReminderTTS] throws on a stored reminder, the record it
    leaves is marked [failed] and carries the hash and the voice of the
    attempt, while the audio of an earlier generation is still there; no
    later call takes that record for a cached one.  Without an API key the
    call throws before any request is sent. *)
Theorem ensureReminderTTS_failure env sv id usr ov w reminder e w' :
  findById id w = Some reminder ->
  ensureReminderTTS env sv id usr ov w = (Throw e, w') ->
  (exists r', findById id w' = Some r' /\
     ttsStatus (tts r') = failed /\
     textHash (tts r') =
       Some (computeTextHash (ttsText reminder usr) (ttsVoice env ov reminder)) /\
     voiceId (tts r') = ttsVoice env ov reminder /\
     audio (tts r') = audio (tts reminder) /\
     generatedAt (tts r') = None /\
     forall hash, ttsUpToDate (tts r') hash = false) /\
  (truthyStr (ELEVENLABS_API_KEY env) = false ->
     e = "ELEVENLABS_API_KEY not configured" /\ synthLog w' = synthLog w).
Proof.
  intros Hfind Hrun.
  rewrite (ensureReminderTTS_run _ _ _ _ _ _ _ Hfind) in Hrun. cbv zeta in Hrun.
  pose proof (findById_id _ _ _ Hfind) as Hid. subst id.
  destruct (ttsUpToDate _ _); [discriminate|].
  set (voice := ttsVoice env ov reminder) in *.
  set (text := ttsText reminder usr) in *.
  set (pendingDoc := markPending voice (computeTextHash text voice) reminder) in *.
  assert (Hf1 : findById (_id reminder) (snd (save pendingDoc w)) = Some pendingDoc)
    by exact (findById_save pendingDoc w reminder Hfind).
  destruct (generateElevenLabsAudio env sv text voice (snd (save pendingDoc w)))
    as [[res|e'] w2] eqn:Hgen; [discriminate|].
  injection Hrun as <- <-.
  pose proof Hgen as Hgen'.
  apply generateElevenLabsAudio_world in Hgen' as (Hr & _).
  assert (Hf2 : findById (_id reminder) w2 = Some pendingDoc)
    by (unfold findById in *; rewrite Hr; exact Hf1).
  split.
  - exists (markFailed pendingDoc).
    split; [exact (findById_save (markFailed pendingDoc) w2 pendingDoc Hf2)|].
    cbn. repeat split. intros hash. unfold ttsUpToDate. cbn.
    rewrite andb_false_r. reflexivity.
  - intros Hkey. unfold generateElevenLabsAudio in Hgen. rewrite Hkey in Hgen.
    cbn [negb] in Hgen. unfold throw in Hgen. injection Hgen as <- <-.
    split; reflexivity.
Qed.

(** *** What a trigger writes *)

Lemma set_aiNotificationLine_same r : set_aiNotificationLine (aiNotificationLine r) r = r.
Proof. destruct r; reflexivity. Qed.

Lemma triggerLine_effect env sv updated0 w :
  findById (_id updated0) w = Some updated0 ->
  exists l w',
    triggerLine env sv updated0 w = (Ok (set_aiNotificationLine l updated0), w') /\
    findById (_id updated0) w' = Some (set_aiNotificationLine l updated0) /\
    (forall id', id' <> _id updated0 -> findById id' w' = findById id' w) /\
    notifications w' = notifications w /\ clock w' = clock w /\
    idsOf w' = idsOf w.
Proof.
  intros Hfind.
  assert (Hsame : exists l w',
    (Ok updated0, w) = (Ok (set_aiNotificationLine l updated0), w') /\
    findById (_id updated0) w' = Some (set_aiNotificationLine l updated0) /\
    (forall id', id' <> _id updated0 -> findById id' w' = findById id' w) /\
    notifications w' = notifications w /\ clock w' = clock w /\
    idsOf w' = idsOf w).
  { exists (aiNotificationLine updated0), w.
    rewrite set_aiNotificationLine_same. auto 10. }
  unfold triggerLine, catch_, bind, liftResult, ret.
  destruct (geminiModule env); [|exact Hsame].
  destruct (generateNotificationLineWithGemini env _) as [line|e]; [|exact Hsame].
  destruct (truthyStr (Some line)); [|exact Hsame].
  exists (Some line). eexists. split; [reflexivity|]. split.
  - exact (findById_save (set_aiNotificationLine (Some line) updated0) w updated0 Hfind).
  - split; [|split; [reflexivity|split; [reflexivity|apply save_ids]]].
    intros id' Hne. apply findById_save_other. cbn. congruence.
Qed.

Lemma triggerNotify_effect sv userId updated w :
  exists w', triggerNotify sv userId updated w = (Ok tt, w') /\
    reminders w' = reminders w /\ clock w' = clock w /\ synthLog w' = synthLog w /\
    (notifications w' = notifications w \/
     exists n, notifications w' = notifications w ++ [n] /\
               scanNotification userId (_id updated) n).
Proof.
  unfold triggerNotify, catch_, createNotification, throw, ret.
  cbn [nReminderId].
  destruct (notificationCreateFails sv (_id updated)); eexists;
    (split; [reflexivity|]); cbn [reminders clock synthLog notifications];
    (split; [reflexivity|]); (split; [reflexivity|]); (split; [reflexivity|]).
  - left. reflexivity.
  - right. eexists. split; [reflexivity|]. repeat split.
Qed.

(** The trigger of a stored reminder, step by step. *)
Lemma trigger_effect env sv userId now r place dist out w doc :
  findById (_id r) w = Some doc ->
  exists o w' l t,
    trigger env sv userId now r place dist out w = (Ok (out ++ [o]), w') /\
    triggered o = true /\ outcomeId o = _id r /\
    findById (_id r) w' =
      Some (set_tts t (set_aiNotificationLine l (triggerUpdate now r place doc))) /\
    (forall id', id' <> _id r -> findById id' w' = findById id' w) /\
    idsOf w' = idsOf w /\ clock w' = clock w /\
    (notifications w' = notifications w \/
     exists n, notifications w' = notifications w ++ [n] /\
               scanNotification userId (_id r) n).
Proof.
  intros Hfind. pose proof (findById_id _ _ _ Hfind) as Hid.
  unfold trigger. unfold bind at 1.
  unfold findByIdAndUpdate. unfold bind at 1. unfold getWorld at 1. rewrite Hfind.
  unfold bind at 1. unfold save at 1. unfold ret at 1.
  fold (triggerUpdate now r place doc).
  set (updated0 := triggerUpdate now r place doc).
  set (w0 := mkWorld _ _ _ _).
  assert (Hu0 : _id updated0 = _id r) by (cbn; exact Hid).
  assert (Hw0 : w0 = snd (save updated0 w)) by reflexivity.
  assert (Hf0 : findById (_id updated0) w0 = Some updated0).
  { rewrite Hw0. apply (findById_save updated0 w doc). rewrite Hu0. exact Hfind. }
  assert (Ho0 : forall id', id' <> _id r -> findById id' w0 = findById id' w).
  { intros id' Hne. rewrite Hw0. apply findById_save_other. congruence. }
  unfold bind at 1.
  destruct (triggerLine_effect env sv updated0 w0 Hf0)
    as (l & w1 & -> & Hf1 & Ho1 & Hn1 & Hc1 & Hi1).
  set (updated := set_aiNotificationLine l updated0) in *.
  assert (Hu : _id updated = _id r) by (cbn; exact Hid).
  unfold bind at 1. rewrite triggerTTS_no_poll.
  rewrite Hu0 in Hf1. rewrite <- Hu in Hf1.
  destruct (ensureReminderTTS_stored env sv (_id updated) (Some (user updated)) None
              w1 updated Hf1) as (t & Hf2 & _).
  pose proof (ensureReminderTTS_other env sv (_id updated) (Some (user updated)) None w1)
    as Ho2.
  pose proof (ensureReminderTTS_ids env sv (_id updated) (Some (user updated)) None w1)
    as Hi2.
  pose proof (ensureReminderTTS_notifications env sv (_id updated) (Some (user updated))
                None w1) as Hn2.
  pose proof (ensureReminderTTS_clock env sv (_id updated) (Some (user updated)) None w1)
    as Hc2.
  assert (Hrest : forall h w2,
    w2 = snd (ensureReminderTTS env sv (_id updated) (Some (user updated)) None w1) ->
    exists o w' l0 t0,
      (let* _ := triggerNotify sv userId updated in
       ret (out ++ [Triggered (_id updated) (title updated)
                      (orStr (aiNotificationLine updated) None)
                      ("Reminder: You're near a place for " +:+ title updated +:+ ".")
                      (mkPlaceInfo (place_id place) (placeName place) (rating place) dist)
                      h])) w2 = (Ok (out ++ [o]), w') /\
      triggered o = true /\ outcomeId o = _id r /\
      findById (_id r) w' =
        Some (set_tts t0 (set_aiNotificationLine l0 (triggerUpdate now r place doc))) /\
      (forall id', id' <> _id r -> findById id' w' = findById id' w) /\
      idsOf w' = idsOf w /\ clock w' = clock w /\
      (notifications w' = notifications w \/
       exists n, notifications w' = notifications w ++ [n] /\
                 scanNotification userId (_id r) n)).
  { intros h w2 ->. unfold bind at 1.
    destruct (triggerNotify_effect sv userId updated
                (snd (ensureReminderTTS env sv (_id updated) (Some (user updated)) None w1)))
      as (w3 & -> & Hr3 & Hc3 & _ & Hn3).
    unfold ret. do 2 eexists. exists l, t. split; [reflexivity|].
    split; [reflexivity|]. split; [exact Hu|].
    split.
    { unfold findById. rewrite Hr3. rewrite <- Hu. exact Hf2. }
    split.
    { intros id' Hne. unfold findById at 1. rewrite Hr3.
      fold (findById id' (snd (ensureReminderTTS env sv (_id updated)
                                 (Some (user updated)) None w1))).
      rewrite Ho2 by congruence. rewrite Ho1 by congruence. apply Ho0. exact Hne. }
    split.
    { rewrite (idsOf_reminders _ _ Hr3), Hi2, Hi1, Hw0. apply save_ids. }
    split; [rewrite Hc3, Hc2, Hc1; reflexivity|].
    rewrite Hn2, Hn1, Hu in Hn3. exact Hn3. }
  destruct (ensureReminderTTS env sv (_id updated) (Some (user updated)) None w1)
    as [[ensured|e] w2]; cbn [snd] in *; apply Hrest; reflexivity.
Qed.

(** The body of the scan loop on a stored candidate: a skip writes nothing,
    a trigger writes what [trigger_effect] tells. *)
Lemma scanBody_effect env sv userId lat lng radius now out r w :
  In (_id r) (idsOf w) ->
  exists o w',
    scanBody env sv userId lat lng radius now out r w = (Ok (out ++ [o]), w') /\
    outcomeId o = _id r /\
    (forall id', id' <> _id r -> findById id' w' = findById id' w) /\
    idsOf w' = idsOf w /\ clock w' = clock w /\
    if triggered o
    then (exists doc place l t,
            findById (_id r) w = Some doc /\
            findById (_id r) w' =
              Some (set_tts t (set_aiNotificationLine l (triggerUpdate now r place doc)))) /\
         (notifications w' = notifications w \/
          exists n, notifications w' = notifications w ++ [n] /\
                    scanNotification userId (_id r) n)
    else w' = w.
Proof.
  intros Hin. unfold scanBody.
  assert (Hskip : forall reason, exists o w',
    (Ok (out ++ [Skipped (_id r) reason]), w) = (Ok (out ++ [o]), w') /\
    outcomeId o = _id r /\
    (forall id', id' <> _id r -> findById id' w' = findById id' w) /\
    idsOf w' = idsOf w /\ clock w' = clock w /\
    if triggered o
    then (exists doc place l t,
            findById (_id r) w = Some doc /\
            findById (_id r) w' =
              Some (set_tts t (set_aiNotificationLine l (triggerUpdate now r place doc)))) /\
         (notifications w' = notifications w \/
          exists n, notifications w' = notifications w ++ [n] /\
                    scanNotification userId (_id r) n)
    else w' = w).
  { intros reason. exists (Skipped (_id r) reason), w. cbn. auto 10. }
  destruct (dayMismatch r (getDay now) (getDayString now)) as [info|]; [apply Hskip|].
  destruct (throttled r now) as [deltaMin|]; [apply Hskip|].
  destruct (negb (truthyStr (Some (title r)))); [apply Hskip|].
  destruct (nearbyBestPlaceByKeyword sv lat lng (radiusOf radius) (title r))
    as [[place|]|e]; [|apply Hskip|apply Hskip].
  destruct (tooFar (distanceTo lat lng place) (MAX_METERS env)); [apply Hskip|].
  unfold bind at 1. unfold hasCollisionWithinFiveMin, bind, getWorld, ret.
  destruct (0 <? List.length (collisionsAt userId now w))%nat; [apply Hskip|].
  destruct (findById_stored _ _ Hin) as (doc & Hfind).
  destruct (trigger_effect env sv userId now r place
              (default 0 (distanceTo lat lng place)) out w doc Hfind)
    as (o & w' & l & t & -> & Ht & Ho & Hf & Hother & Hids & Hc & Hn).
  exists o, w'. split; [reflexivity|]. split; [exact Ho|]. split; [exact Hother|].
  split; [exact Hids|]. split; [exact Hc|]. rewrite Ht.
  split; [|exact Hn]. exists doc, place, l, t. auto.
Qed.

(** X9. A trigger throttles the next scans.  After a step of the scan has
    triggered a stored reminder at [now], the stored reminder carries
    [lastTriggeredAt = now]; and whenever that stored reminder is a candidate
    of a scan less than 90 minutes after [now], whatever the position, the
    services and the configuration, its outcome is a skip and nothing is
    written. *)
Theorem retrigger_throttled env sv userId lat lng radius now out r w o w' :
  In (_id r) (idsOf w) ->
  scanBody env sv userId lat lng radius now out r w = (Ok (out ++ [o]), w') ->
  triggered o = true ->
  exists r', findById (_id r) w' = Some r' /\
    lastTriggeredAt r' = Some now /\
    forall env2 sv2 lat2 lng2 radius2 now2 out2 w2,
      now2 - now < 90 * 60000 ->
      exists reason,
        scanBody env2 sv2 userId lat2 lng2 radius2 now2 out2 r' w2 =
        (Ok (out2 ++ [Skipped (_id r') reason]), w2).
Proof.
  intros Hin Hrun Ht.
  destruct (scanBody_effect env sv userId lat lng radius now out r w Hin)
    as (o1 & w1 & Hrun1 & _ & _ & _ & _ & Heff).
  rewrite Hrun in Hrun1. injection Hrun1 as Ho <-.
  apply app_inv_head in Ho. injection Ho as <-.
  rewrite Ht in Heff. destruct Heff as ((doc & place & l & t & _ & Hf) & _).
  eexists. split; [exact Hf|]. split; [reflexivity|].
  intros env2 sv2 lat2 lng2 radius2 now2 out2 w2 Hlt.
  set (r' := set_tts t (set_aiNotificationLine l (triggerUpdate now r place doc))).
  unfold scanBody.
  destruct (dayMismatch r' (getDay now2) (getDayString now2)) as [info|];
    [eexists; reflexivity|].
  pose proof (throttled_spec r' now2) as S.
  change (lastTriggeredAt r') with (Some now) in S.
  destruct S as [S _]. rewrite (S Hlt). eexists. reflexivity.
Qed.

(** *** What a scan writes *)

Lemma scanLoop_effect env sv userId lat lng radius now candidates : forall out w,
  (forall r, In r candidates -> In (_id r) (idsOf w)) ->
  exists outs w' added,
    scanLoop env sv userId lat lng radius now candidates out w
      = (Ok (out ++ outs), w') /\
    clock w' = clock w /\ idsOf w' = idsOf w /\
    (forall id', (forall r, In r candidates -> _id r <> id') ->
                 findById id' w' = findById id' w) /\
    notifications w' = notifications w ++ added /\
    (List.length added <= List.length (List.filter triggered outs))%nat /\
    Forall (fun n => exists o, In o outs /\ triggered o = true /\
                               scanNotification userId (outcomeId o) n) added /\
    (Forall (fun o => triggered o = false) outs -> w' = w).
Proof.
  induction candidates as [|r rest IH]; intros out w Hstored.
  - exists [], w, []. cbn [scanLoop]. unfold ret. rewrite !app_nil_r.
    repeat split; auto.
  - cbn [scanLoop]. unfold bind at 1.
    destruct (scanBody_effect env sv userId lat lng radius now out r w
                (Hstored r (or_introl eq_refl)))
      as (o & w1 & -> & Hid & Hother & Hids & Hclock & Heff).
    destruct (IH (out ++ [o]) w1)
      as (outs & w' & added & -> & Hc & Hi & Ho & Hn & Hlen & Hall & Hnone).
    { intros r' Hr'. rewrite Hids. apply Hstored. right. exact Hr'. }
    assert (Hadd1 : exists added1,
      notifications w1 = notifications w ++ added1 /\
      (List.length added1 <= List.length (List.filter triggered [o]))%nat /\
      Forall (fun n => triggered o = true /\ scanNotification userId (outcomeId o) n)
             added1).
    { destruct (triggered o) eqn:Ht.
      - destruct Heff as (_ & [Hsame|(n & Hn1 & Hs)]).
        + exists []. rewrite app_nil_r. cbn. rewrite Ht. cbn.
          split; [exact Hsame|]. split; [lia|constructor].
        + exists [n]. cbn. rewrite Ht. cbn. split; [exact Hn1|]. split; [lia|].
          constructor; [|constructor]. rewrite Hid. auto.
      - subst w1. exists []. rewrite app_nil_r. cbn. rewrite Ht. cbn.
        split; [reflexivity|]. split; [lia|constructor]. }
    destruct Hadd1 as (added1 & Hn1 & Hlen1 & Hall1).
    exists (o :: outs), w', (added1 ++ added).
    rewrite <- app_assoc. split; [reflexivity|].
    split; [congruence|]. split; [congruence|].
    split.
    { intros id' Hnot. rewrite Ho by (intros r' Hr'; apply Hnot; right; exact Hr').
      apply Hother. intros E. apply (Hnot r (or_introl eq_refl)). symmetry. exact E. }
    split; [rewrite Hn, Hn1, app_assoc; reflexivity|].
    split.
    { rewrite length_app. cbn [List.filter] in Hlen1 |- *.
      destruct (triggered o); cbn [List.length] in *; lia. }
    split.
    { apply Forall_app. split.
      - eapply Forall_impl; [exact Hall1|]. cbn. intros n (Ht & Hs).
        exists o. split; [left; reflexivity|]. auto.
      - eapply Forall_impl; [exact Hall|]. cbn. intros n (o' & Hin' & Ht & Hs).
        exists o'. split; [right; exact Hin'|]. auto. }
    intros Hno. inversion Hno as [|? ? Ho1 Hrest]; subst.
    rewrite Ho1 in Heff. subst w1. apply Hnone. exact Hrest.
Qed.

(** X10. A scan never waits and never adds or removes a reminder: after
    [scanAndTrigger] the clock and the stored ids are as before, every
    reminder that is not one of the candidates is untouched, and a scan
    in which nothing is triggered leaves the whole state as it was. *)
Theorem scan_frame env sv userId lat lng radius w :
  exists results w',
    scanAndTrigger env sv userId lat lng radius w = (Ok results, w') /\
    clock w' = clock w /\ idsOf w' = idsOf w /\
    (forall id', (forall r, In r (candidatesOf userId w) -> _id r <> id') ->
                 findById id' w' = findById id' w) /\
    (Forall (fun o => triggered o = false) results -> w' = w).
Proof.
  unfold scanAndTrigger, bind, getWorld.
  destruct (scanLoop_effect env sv userId lat lng radius (clock w)
              (candidatesOf userId w) [] w)
    as (outs & w' & added & Hrun & Hc & Hi & Ho & _ & _ & _ & Hnone).
  { intros r Hr. unfold candidatesOf in Hr. apply filter_In in Hr as [Hr _].
    unfold idsOf. apply List.in_map. exact Hr. }
  exists outs, w'. auto.
Qed.

(** X11. The notifications of a scan: the feed only grows, by at most one
    notification per triggered reminder; each new notification is unread, of
    type [location], addressed to the scanning user and attached to a
    reminder that the scan reports as triggered. *)
Theorem scan_notifications env sv userId lat lng radius w :
  exists results w' added,
    scanAndTrigger env sv userId lat lng radius w = (Ok results, w') /\
    notifications w' = notifications w ++ added /\
    (List.length added <= List.length (List.filter triggered results))%nat /\
    Forall (fun n => exists o, In o results /\ triggered o = true /\
                               scanNotification userId (outcomeId o) n) added.
Proof.
  unfold scanAndTrigger, bind, getWorld.
  destruct (scanLoop_effect env sv userId lat lng radius (clock w)
              (candidatesOf userId w) [] w)
    as (outs & w' & added & Hrun & _ & _ & _ & Hn & Hlen & Hall & _).
  { intros r Hr. unfold candidatesOf in Hr. apply filter_In in Hr as [Hr _].
    unfold idsOf. apply List.in_map. exact Hr. }
  exists outs, w', added. auto.
Qed.

(** *** The places lookup *)

Lemma substring_prefix_idem (n : nat) : forall s,
  String.substring 0 n (String.substring 0 n s) = String.substring 0 n s.
Proof.
  induction n as [|n IH]; intros [|a s]; cbn; try reflexivity.
  rewrite IH. reflexivity.
Qed.

Lemma substring_prefix_length (n : nat) : forall s,
  (String.length (String.substring 0 n s) <= n)%nat.
Proof.
  induction n as [|n IH]; intros [|a s]; cbn; try lia.
  specialize (IH s). lia.
Qed.

(** X12. The places lookup reads at most the first 64 characters of the
    keyword; it throws only for a missing API key or for a failure of the
    radius request, which is sent only when the request ranked by distance
    failed or found nothing; and a place found by the request ranked by
    distance is the answer. *)
Theorem places_lookup sv lat lng radius keyword :
  (String.length (keywordOf keyword) <= 64)%nat /\
  nearbyBestPlaceByKeyword sv lat lng radius keyword
    = nearbyBestPlaceByKeyword sv lat lng radius (keywordOf keyword) /\
  (forall e, nearbyBestPlaceByKeyword sv lat lng radius keyword = Throw e <->
     (truthyStr (GOOGLE_MAPS_API_KEY sv) = false /\
      e = "GOOGLE_MAPS_API_KEY not configured") \/
     (truthyStr (GOOGLE_MAPS_API_KEY sv) = true /\
      (forall p ps, distanceSearch sv lat lng (keywordOf keyword) <> Ok (p :: ps)) /\
      radiusSearch sv lat lng radius (keywordOf keyword) = Throw e)) /\
  (forall p ps, truthyStr (GOOGLE_MAPS_API_KEY sv) = true ->
     distanceSearch sv lat lng (keywordOf keyword) = Ok (p :: ps) ->
     nearbyBestPlaceByKeyword sv lat lng radius keyword = Ok (Some p)).
Proof.
  split; [apply substring_prefix_length|].
  split.
  { unfold nearbyBestPlaceByKeyword, keywordOf. rewrite substring_prefix_idem.
    reflexivity. }
  unfold nearbyBestPlaceByKeyword.
  destruct (truthyStr (GOOGLE_MAPS_API_KEY sv)) eqn:Hk; cbn [negb].
  2:{ split.
      - intros e. split.
        + intros [= <-]. left. auto.
        + intros [[_ ->]|[H _]]; [reflexivity|discriminate].
      - discriminate. }
  split.
  - intros e. split.
    + intros H. right. split; [reflexivity|].
      destruct (distanceSearch sv lat lng (keywordOf keyword)) as [[|p ps]|e1].
      * destruct (radiusSearch sv lat lng radius (keywordOf keyword)); [discriminate|].
        split; [discriminate|congruence].
      * discriminate.
      * destruct (radiusSearch sv lat lng radius (keywordOf keyword)); [discriminate|].
        split; [discriminate|congruence].
    + intros [[H _]|(_ & Hd & Hr)]; [discriminate|].
      destruct (distanceSearch sv lat lng (keywordOf keyword)) as [[|p ps]|e1].
      * rewrite Hr. reflexivity.
      * exfalso. exact (Hd p ps eq_refl).
      * rewrite Hr. reflexivity.
  - intros p ps _ Hd. rewrite Hd. reflexivity.
Qed.

(** *** The distance *)

Lemma haversineMeters_term lat1 lon1 lat2 lon2 :
  haversineMeters lat1 lon1 lat2 lon2 =
  (6371000 * (2 * atan2 (sqrt (haversineTerm lat1 lon1 lat2 lon2))
                        (sqrt (1 - haversineTerm lat1 lon1 lat2 lon2))))%R.
Proof. reflexivity. Qed.

Lemma haversineTerm_sym lat1 lon1 lat2 lon2 :
  haversineTerm lat1 lon1 lat2 lon2 = haversineTerm lat2 lon2 lat1 lon1.
Proof.
  unfold haversineTerm.
  replace (toRad (lat1 - lat2) / 2)%R with (- (toRad (lat2 - lat1) / 2))%R
    by (unfold toRad; field).
  replace (toRad (lon1 - lon2) / 2)%R with (- (toRad (lon2 - lon1) / 2))%R
    by (unfold toRad; field).
  rewrite !sin_neg. ring.
Qed.

Lemma cos_toRad_nonneg lat : (-90 <= lat <= 90)%R -> (0 <= cos (toRad lat))%R.
Proof.
  intros H. pose proof PI_RGT_0 as Hpi. apply cos_ge_0; unfold toRad.
  - assert (-90 * PI <= lat * PI)%R by (apply Rmult_le_compat_r; lra). lra.
  - assert (lat * PI <= 90 * PI)%R by (apply Rmult_le_compat_r; lra). lra.
Qed.

(** For latitudes between -90 and 90 the term [a] lies in [0, 1], so both
    square roots are taken of numbers that are not negative. *)
Lemma haversineTerm_range lat1 lon1 lat2 lon2 :
  (-90 <= lat1 <= 90)%R -> (-90 <= lat2 <= 90)%R ->
  (0 <= haversineTerm lat1 lon1 lat2 lon2 <= 1)%R.
Proof.
  intros H1 H2. unfold haversineTerm.
  set (u := (toRad (lat2 - lat1) / 2)%R).
  set (v := (toRad (lon2 - lon1) / 2)%R).
  pose proof (cos_toRad_nonneg lat1 H1) as C1.
  pose proof (cos_toRad_nonneg lat2 H2) as C2.
  set (c1 := cos (toRad lat1)) in *. set (c2 := cos (toRad lat2)) in *.
  assert (Hv : (0 <= sin v * sin v <= 1)%R).
  { pose proof (sin2_cos2 v) as E. unfold Rsqr in E.
    pose proof (Rle_0_sqr (sin v)) as S. pose proof (Rle_0_sqr (cos v)) as C.
    unfold Rsqr in S, C. lra. }
  assert (Hu : (0 <= sin u * sin u)%R)
    by (pose proof (Rle_0_sqr (sin u)) as S; unfold Rsqr in S; exact S).
  assert (Hcc : (0 <= c1 * c2)%R) by (apply Rmult_le_pos; assumption).
  split.
  - assert (0 <= c1 * c2 * (sin v * sin v))%R by (apply Rmult_le_pos; lra).
    lra.
  - assert (Hle : (c1 * c2 * (sin v * sin v) <= c1 * c2)%R).
    { rewrite <- (Rmult_1_r (c1 * c2)) at 2. apply Rmult_le_compat_l; lra. }
    assert (H2u : (2 * u = toRad lat2 - toRad lat1)%R) by (unfold u, toRad; field).
    pose proof (cos_2a_sin u) as D. rewrite H2u, cos_minus in D. fold c1 c2 in D.
    pose proof (cos_plus (toRad lat2) (toRad lat1)) as P. fold c1 c2 in P.
    pose proof (COS_bound (toRad lat2 + toRad lat1)) as [_ B].
    lra.
Qed.

Lemma atan2_quadrant y x :
  (0 <= y)%R -> (0 <= x)%R -> (0 <= atan2 y x <= PI / 2)%R.
Proof.
  intros Hy Hx. pose proof PI_RGT_0 as Hpi. unfold atan2.
  destruct (Rlt_dec 0 x) as [Hpos|Hn].
  - pose proof (atan_bound (y / x)) as [_ B].
    assert (0 <= y / x)%R.
    { apply Rmult_le_pos; [exact Hy|]. left. apply Rinv_0_lt_compat. exact Hpos. }
    split; [|lra].
    destruct (Req_dec (y / x) 0) as [E|E].
    + rewrite E, atan_0. lra.
    + assert (atan 0 < atan (y / x))%R by (apply atan_increasing; lra).
      rewrite atan_0 in *. lra.
  - destruct (Rlt_dec x 0) as [Hneg|_]; [lra|].
    destruct (Rlt_dec 0 y) as [_|_]; [lra|].
    destruct (Rlt_dec y 0) as [Hyn|_]; lra.
Qed.

(** Half of an angle of at most 90 degrees has a squared cosine of at least
    one half. *)
Lemma cos_half_toRad d :
  (-90 <= d <= 90)%R -> (/ 2 <= cos (toRad d / 2) * cos (toRad d / 2))%R.
Proof.
  intros H. pose proof PI_RGT_0 as Hpi.
  pose proof (cos_2a_cos (toRad d / 2)) as D.
  replace (2 * (toRad d / 2))%R with (toRad d) in D by field.
  pose proof (cos_toRad_nonneg d H) as C. lra.
Qed.

(** For two points whose latitudes and longitudes differ by at most 90
    degrees the term [a] is at most 3/4. *)
Lemma haversineTerm_near lat1 lon1 lat2 lon2 :
  (-90 <= lat2 - lat1 <= 90)%R -> (-90 <= lon2 - lon1 <= 90)%R ->
  (haversineTerm lat1 lon1 lat2 lon2 <= 3 / 4)%R.
Proof.
  intros Hlat Hlon. unfold haversineTerm.
  set (u := (toRad (lat2 - lat1) / 2)%R).
  set (v := (toRad (lon2 - lon1) / 2)%R).
  pose proof (cos_half_toRad _ Hlat) as Cu. fold u in Cu.
  pose proof (cos_half_toRad _ Hlon) as Cv. fold v in Cv.
  set (c1 := cos (toRad lat1)). set (c2 := cos (toRad lat2)).
  pose proof (sin2_cos2 u) as Eu. pose proof (sin2_cos2 v) as Ev.
  unfold Rsqr in Eu, Ev.
  assert (H2u : (2 * u = toRad lat2 - toRad lat1)%R) by (unfold u, toRad; field).
  pose proof (cos_2a_sin u) as D. rewrite H2u, cos_minus in D. fold c1 c2 in D.
  pose proof (cos_plus (toRad lat2) (toRad lat1)) as P. fold c1 c2 in P.
  pose proof (COS_bound (toRad lat2 + toRad lat1)) as [_ B].
  assert (Hcc : (c1 * c2 <= cos u * cos u)%R) by lra.
  assert (Hs : (0 <= sin v * sin v)%R)
    by (pose proof (Rle_0_sqr (sin v)) as S; unfold Rsqr in S; exact S).
  assert (H1 : (c1 * c2 * (sin v * sin v) <= cos u * cos u * (sin v * sin v))%R)
    by (apply Rmult_le_compat_r; assumption).
  assert (H2 : (/ 2 * / 2 <= (cos u * cos u) * (cos v * cos v))%R)
    by (apply Rmult_le_compat; lra).
  assert (E1 : (sin v * sin v = 1 - cos v * cos v)%R) by lra.
  assert (E2 : (cos u * cos u * (sin v * sin v) =
                cos u * cos u - cos u * cos u * (cos v * cos v))%R)
    by (rewrite E1; ring).
  replace (c1 * c2 * sin v * sin v)%R with (c1 * c2 * (sin v * sin v))%R by ring.
  lra.
Qed.

(** X13. The distance of [haversineMeters] is symmetric and is zero from a
    point to itself.  For two points with latitudes between -90 and 90
    whose latitudes and longitudes differ by at most 90 degrees, the term
    [a] lies between 0 and 3/4, so that [1 - a] is at least 1/4, away from
    the near-antipodal pairs where the rounding of the doubles matters, and
    the distance is not negative and less than half the circumference of
    the sphere of radius 6371000 m. *)
Theorem haversineMeters_metric lat1 lon1 lat2 lon2 :
  haversineMeters lat1 lon1 lat2 lon2 = haversineMeters lat2 lon2 lat1 lon1 /\
  haversineMeters lat1 lon1 lat1 lon1 = 0%R /\
  ((-90 <= lat1 <= 90)%R -> (-90 <= lat2 <= 90)%R ->
   (-90 <= lat2 - lat1 <= 90)%R -> (-90 <= lon2 - lon1 <= 90)%R ->
   (0 <= haversineTerm lat1 lon1 lat2 lon2 <= 3 / 4)%R /\
   (0 <= haversineMeters lat1 lon1 lat2 lon2 < 6371000 * PI)%R).
Proof.
  split; [|split].
  - rewrite !haversineMeters_term, (haversineTerm_sym lat1 lon1 lat2 lon2). reflexivity.
  - rewrite haversineMeters_term. unfold haversineTerm.
    replace (lat1 - lat1)%R with 0%R by ring.
    replace (lon1 - lon1)%R with 0%R by ring.
    assert (Hz : (toRad 0 / 2 = 0)%R) by (unfold toRad; field).
    rewrite Hz, sin_0.
    replace (0 * 0 + cos (toRad lat1) * cos (toRad lat1) * 0 * 0)%R with 0%R by ring.
    rewrite sqrt_0, Rminus_0_r, sqrt_1. unfold atan2.
    destruct (Rlt_dec 0 1) as [_|N]; [|lra].
    replace (0 / 1)%R with 0%R by field. rewrite atan_0. ring.
  - intros H1 H2 Hlat Hlon.
    pose proof (haversineTerm_range lat1 lon1 lat2 lon2 H1 H2) as [Ha _].
    pose proof (haversineTerm_near lat1 lon1 lat2 lon2 Hlat Hlon) as Hb.
    split; [split; assumption|].
    rewrite haversineMeters_term.
    set (a := haversineTerm lat1 lon1 lat2 lon2) in *.
    assert (Hx : (0 < sqrt (1 - a))%R) by (apply sqrt_lt_R0; lra).
    pose proof (atan2_quadrant (sqrt a) (sqrt (1 - a)) (sqrt_pos _) (sqrt_pos _))
      as [Q _].
    assert (Q2 : (atan2 (sqrt a) (sqrt (1 - a)) < PI / 2)%R).
    { unfold atan2. destruct (Rlt_dec 0 (sqrt (1 - a))) as [_|N]; [|contradiction].
      apply atan_bound. }
    lra.
Qed.

(** *** The distance gate with a maximum that is not a number *)

(** X15. When [LOCATION_MAX_TRIGGER_METERS] is set to a text that does not
    start with a number, the maximum is [NaN]: every place with coordinates
    then passes the distance gate, however far it is, and only a place
    without coordinates is skipped as [too_far]. *)
Theorem distance_gate_without_maximum
    env sv userId lat lng radius now out r w place value :
  LOCATION_MAX_TRIGGER_METERS env = Some value ->
  value <> EmptyString -> parseInt value = None ->
  MAX_METERS env = None /\
  (forall d, tooFar (Some d) (MAX_METERS env) = false) /\
  tooFar None (MAX_METERS env) = true /\
  (In (_id r) (idsOf w) ->
   reachesPlace sv lat lng radius r now place ->
   isSome (placeLat place) = true -> isSome (placeLng place) = true ->
   exists o w',
     scanBody env sv userId lat lng radius now out r w = (Ok (out ++ [o]), w') /\
     notTooFar r o).
Proof.
  intros Hv Hne Hp.
  assert (Hmax : MAX_METERS env = None).
  { unfold MAX_METERS, orStr. rewrite Hv. cbn [truthyStr].
    apply String.eqb_neq in Hne. rewrite Hne. cbn [negb from_option]. unfold Datatypes.id. rewrite Hp.
    reflexivity. }
  rewrite Hmax. split; [reflexivity|]. split; [reflexivity|]. split; [reflexivity|].
  intros Hin Hreach Hlat Hlng.
  destruct (scanBody_run env sv userId lat lng radius now out r w Hin)
    as (o & w' & Hrun & _ & _ & Hgate & _).
  pose proof (gateOutcome_at_distance_gate _ _ _ _ _ _ _ _ _ _ _ Hreach Hgate) as G.
  rewrite Hmax in G. unfold distanceTo in G.
  destruct (placeLat place); [|discriminate]. destruct (placeLng place); [|discriminate].
  cbn [tooFar] in G.
  exists o, w'. split; [exact Hrun|].
  intros d mx i n E. subst o.
  destruct (0 <? _)%nat; [discriminate|]. destruct G as [[] _].
Qed.

(** *** The day filter *)

Lemma getDay_range now : 0 <= getDay now < 7.
Proof. unfold getDay. apply Z.mod_pos_bound. lia. Qed.

(** X16. The day filter.  The name of the week day of [now] is always
    defined and is the entry of [dayNames] at [getDay now].  A reminder with
    a non-empty [scheduleDays] passes the filter exactly when the list holds
    the index of today, whatever its [day]; a reminder without
    [scheduleDays] passes exactly when [day] is unset, empty or the name of
    today. *)
Theorem day_filter r now :
  (exists name, getDayString now = Some name /\ In name dayNames) /\
  (forall d ds, scheduleDays r = Some (d :: ds) ->
     (dayMismatch r (getDay now) (getDayString now) = None <->
      In (getDay now) (d :: ds))) /\
  (scheduleDays r = None \/ scheduleDays r = Some [] ->
     (dayMismatch r (getDay now) (getDayString now) = None <->
      day r = None \/ day r = Some EmptyString \/ day r = getDayString now)).
Proof.
  split; [|split].
  - unfold getDayString. pose proof (getDay_range now) as Hr.
    destruct (dayNames !! Z.to_nat (getDay now)) as [name|] eqn:E.
    + exists name. split; [reflexivity|].
      rewrite <- list_elem_of_In. eapply list_elem_of_lookup_2. exact E.
    + apply lookup_ge_None in E. cbn in E. lia.
  - intros d ds Hs. unfold dayMismatch. rewrite Hs.
    destruct (List.existsb (Z.eqb (getDay now)) (d :: ds)) eqn:E.
    + split; [|reflexivity]. intros _.
      apply List.existsb_exists in E as (x & Hx & Heq).
      apply Z.eqb_eq in Heq. subst x. exact Hx.
    + split; [discriminate|]. intros Hin. exfalso.
      assert (List.existsb (Z.eqb (getDay now)) (d :: ds) = true).
      { apply List.existsb_exists. exists (getDay now).
        split; [exact Hin|apply Z.eqb_refl]. }
      congruence.
  - intros Hs. unfold dayMismatch.
    assert (Hd : match scheduleDays r with
                 | Some (d :: ds) => False
                 | _ => True
                 end) by (destruct Hs as [-> | ->]; exact I).
    destruct (scheduleDays r) as [[|d ds]|]; try contradiction.
    all: destruct (day r) as [expected|]; [|split; auto].
    all: cbn [truthyStr]; destruct (String.eqb expected EmptyString) eqn:Ee; cbn [negb andb].
    all: try (apply String.eqb_eq in Ee; subst expected; split; auto).
    all: destruct (getDayString now) as [today|].
    all: try (destruct (String.eqb expected today) eqn:Et; cbn [negb];
              [apply String.eqb_eq in Et; subst; split; auto
              |apply String.eqb_neq in Et, Ee; split; [discriminate|];
               intros [H|[H|H]]; congruence]).
    all: apply String.eqb_neq in Ee; split; [discriminate|];
         intros [H|[H|H]]; congruence.
Qed.

(** *** The shape of a text hash *)

Lemma compress_length h block :
  List.length h = 8%nat -> List.length (SHA256.compress h block) = 8%nat.
Proof.
  intros H. unfold SHA256.compress.
  set (r := List.fold_left _ _ _).
  rewrite length_map, length_combine, H. reflexivity.
Qed.

Lemma blocks_length fuel : forall ws h,
  List.length h = 8%nat -> List.length (SHA256.blocks fuel ws h) = 8%nat.
Proof.
  induction fuel as [|fuel IH]; intros ws h H; cbn [SHA256.blocks]; [exact H|].
  destruct ws as [|x ws']; [exact H|].
  apply IH. apply compress_length. exact H.
Qed.

Lemma hexdigit_lower d : 0 <= d < 16 -> isHexLower (SHA256.hexdigit d) = true.
Proof.
  intros Hd.
  assert (Hall : List.forallb (fun n => isHexLower (SHA256.hexdigit (Z.of_nat n)))
                   (List.seq 0 16) = true) by reflexivity.
  rewrite List.forallb_forall in Hall.
  specialize (Hall (Z.to_nat d)). rewrite Z2Nat.id in Hall by lia.
  apply Hall. apply List.in_seq. lia.
Qed.

Lemma hex_be_shape n x :
  String.length (SHA256.hex_be n x) = n /\
  allChars isHexLower (SHA256.hex_be n x) = true.
Proof.
  induction n as [|n [IH1 IH2]]; [split; reflexivity|].
  cbn [SHA256.hex_be String.length allChars]. rewrite IH1, IH2.
  split; [reflexivity|]. rewrite andb_true_r.
  apply hexdigit_lower. apply Z.mod_pos_bound. lia.
Qed.

Lemma append_shape p s t :
  String.length (String.append s t) = (String.length s + String.length t)%nat /\
  allChars p (String.append s t) = allChars p s && allChars p t.
Proof.
  induction s as [|a s [IH1 IH2]]; [split; reflexivity|].
  split.
  - change (S (String.length (String.append s t))
            = S (String.length s + String.length t)).
    rewrite IH1. reflexivity.
  - change (p a && allChars p (String.append s t)
            = p a && allChars p s && allChars p t).
    rewrite IH2, andb_assoc. reflexivity.
Qed.

(** X17. A text hash is a string of exactly 64 lowercase hexadecimal
    digits, whatever the text and the voice. *)
Theorem computeTextHash_shape text voice :
  String.length (computeTextHash text voice) = 64%nat /\
  allChars isHexLower (computeTextHash text voice) = true.
Proof.
  unfold computeTextHash, SHA256.hex, SHA256.digest.
  set (ws := SHA256.words _ _).
  assert (H0 : List.length SHA256.H0 = 8%nat) by (vm_compute; reflexivity).
  pose proof (blocks_length (List.length ws) ws SHA256.H0 H0) as L.
  revert L. generalize (SHA256.blocks (List.length ws) ws SHA256.H0). intros l.
  assert (G : forall l : list Z,
    String.length (List.fold_right (fun w acc => String.append (SHA256.hex_be 8 w) acc)
                     EmptyString l) = (8 * List.length l)%nat /\
    allChars isHexLower
      (List.fold_right (fun w acc => String.append (SHA256.hex_be 8 w) acc)
         EmptyString l) = true).
  { clear. induction l as [|w l [IH1 IH2]]; [split; reflexivity|].
    cbn [List.fold_right List.length].
    destruct (append_shape isHexLower (SHA256.hex_be 8 w)
                (List.fold_right (fun w acc => String.append (SHA256.hex_be 8 w) acc)
                   EmptyString l)) as [A1 A2].
    destruct (hex_be_shape 8 w) as [B1 B2].
    rewrite A1, A2, B1, B2, IH1, IH2. split; [lia|reflexivity]. }
  intros L. destruct (G l) as [G1 G2]. rewrite G1, L. split; [reflexivity|exact G2].
Qed.

(** *** The shape of a generated line *)

Lemma cleanEnd_trimEnd s : cleanEnd (trimEnd s) = true.
Proof.
  induction s as [|a s IH]; [reflexivity|].
  cbn [trimEnd]. destruct (trimEnd s) as [|b t] eqn:E.
  - destruct (isWhite a) eqn:W; [reflexivity|]. cbn. rewrite W. reflexivity.
  - exact IH.
Qed.

Lemma dropWhite_head s a t : dropWhite s = String a t -> isWhite a = false.
Proof.
  induction s as [|b s IH]; cbn [dropWhite]; [discriminate|].
  destruct (isWhite b) eqn:W; [exact IH|]. intros [= <- _]. exact W.
Qed.

Lemma trimEnd_head s a t b u :
  s = String a t -> trimEnd s = String b u -> b = a.
Proof.
  intros -> H. cbn [trimEnd] in H.
  destruct (trimEnd t); [destruct (isWhite a); [discriminate|]|]; congruence.
Qed.

(** Once trimmed at the end, a text collapses to well spaced words. *)
Lemma collapseWhite_wellSpaced s :
  cleanEnd s = true ->
  wellSpaced true (collapseWhite false s) = true /\
  (s <> EmptyString -> wellSpaced false (collapseWhite true s) = true).
Proof.
  induction s as [|a s IH]; intros Hc; [split; [reflexivity|congruence]|].
  assert (Hs : cleanEnd s = true /\ (isWhite a = true -> s <> EmptyString)).
  { cbn [cleanEnd] in Hc. destruct s as [|b s'].
    - split; [reflexivity|]. intros W. rewrite W in Hc. discriminate.
    - split; [exact Hc|discriminate]. }
  destruct Hs as [Hs Hne]. destruct (IH Hs) as [IH1 IH2].
  cbn [collapseWhite]. destruct (isWhite a) eqn:W.
  - split.
    + cbn [wellSpaced]. change (isWhite " ") with true. cbn [andb].
      apply IH2. apply Hne. reflexivity.
    + intros _. apply IH2. apply Hne. reflexivity.
  - split; [|intros _]; cbn [wellSpaced]; rewrite W; exact IH1.
Qed.

Lemma wellSpaced_firstLine s : forall b, wellSpaced b s = true -> firstLine s = s.
Proof.
  induction s as [|a s IH]; intros b H; [reflexivity|].
  cbn [firstLine]. cbn [wellSpaced] in H.
  destruct (nat_of_ascii a =? 10)%nat eqn:N.
  - apply Nat.eqb_eq in N.
    assert (a = ascii_of_nat 10) by (rewrite <- N, ascii_nat_embedding; reflexivity).
    subst a. cbn in H. rewrite andb_false_r in H. discriminate.
  - destruct (isWhite a).
    + apply andb_true_iff in H as [_ H]. rewrite (IH false H). reflexivity.
    + rewrite (IH true H). reflexivity.
Qed.

(** X18. A line returned by [generateNotificationLineWithGemini] is the
    trimmed reply with every run of white space collapsed to one space: it
    holds no line break, tab or other white space than single spaces between
    words, and the final [split] on line breaks never cuts anything. *)
Theorem generated_line_is_one_line env reply line :
  generateNotificationLineWithGemini env reply = Ok line ->
  oneLine line = true /\
  exists lineRaw, reply = Ok lineRaw /\ line = collapseWhite false (trim lineRaw).
Proof.
  unfold generateNotificationLineWithGemini.
  destruct (getModel env); [|discriminate].
  destruct reply as [lineRaw|]; [|discriminate].
  intros [= <-].
  assert (Hw : oneLine (collapseWhite false (trim lineRaw)) = true).
  { unfold trim. pose proof (cleanEnd_trimEnd (dropWhite lineRaw)) as Hc.
    destruct (trimEnd (dropWhite lineRaw)) as [|b u] eqn:E; [reflexivity|].
    assert (Hb : isWhite b = false).
    { destruct (dropWhite lineRaw) as [|c1 t1] eqn:D; [discriminate|].
      rewrite (trimEnd_head _ c1 t1 b u eq_refl E).
      exact (dropWhite_head lineRaw c1 t1 D). }
    cbn [collapseWhite]. rewrite Hb. cbn [oneLine wellSpaced]. rewrite Hb.
    assert (Hu : cleanEnd u = true).
    { cbn [cleanEnd] in Hc. destruct u; [reflexivity|exact Hc]. }
    exact (proj1 (collapseWhite_wellSpaced u Hu)). }
  assert (Hf : firstLine (collapseWhite false (trim lineRaw))
               = collapseWhite false (trim lineRaw)).
  { destruct (collapseWhite false (trim lineRaw)) as [|c0 s0] eqn:E; [reflexivity|].
    apply (wellSpaced_firstLine _ false). exact Hw. }
  rewrite Hf. split; [exact Hw|]. exists lineRaw. auto.
Qed.

(** *** The handlers of the reminder controller *)

Lemma find_none_all {A} (p : A -> bool) (l : list A) :
  (forall x, In x l -> p x = false) -> List.find p l = None.
Proof.
  induction l as [|x l IH]; intros H; [reflexivity|].
  cbn [List.find]. rewrite (H x (or_introl eq_refl)). apply IH.
  intros y Hy. apply H. right. exact Hy.
Qed.


(** The owner finds the document that [findById] finds. *)
Lemma findOne_findById id w r :
  findById id w = Some r -> findOne id (user_id (user r)) w = Some r.
Proof.
  unfold findById, findOne. induction (reminders w) as [|x l IH]; [discriminate|].
  cbn [List.find]. destruct (String.eqb (_id x) id) eqn:E.
  - intros [= ->]. rewrite String.eqb_refl. reflexivity.
  - intros H. cbn [andb]. exact (IH H).
Qed.

Lemma queryId_stored id w : In id (idsOf w) -> queryId id w = Some id.
Proof.
  intros H. unfold queryId.
  assert (E : existsb (String.eqb id) (idsOf w) = true).
  { apply existsb_exists. exists id. split; [exact H|apply String.eqb_refl]. }
  rewrite E. reflexivity.
Qed.


Lemma findOne_stored id userId w r : findOne id userId w = Some r -> In id (idsOf w).
Proof.
  unfold findOne. intros H. apply List.find_some in H as [Hin E].
  apply andb_true_iff in E as [E _]. apply String.eqb_eq in E. subst id.
  apply List.in_map. exact Hin.
Qed.


(** X25. Speech asked for is speech served.  When [ensureReminderTTSNow]
    succeeds for the owner of a stored reminder, the record it returns is
    ready and holds audio: the cached audio, with nothing written, or the
    buffer that the speech service returned for the text of the reminder,
    as [audio/mpeg], with its length; and [getReminderTTS] then streams
    exactly that audio to the owner. *)
Theorem speech_round_trip env sv reqUser id w reminder t w' :
  findById id w = Some reminder ->
  user_id (user reminder) = user_id reqUser ->
  ensureReminderTTSNow env sv reqUser id w = (success t, w') ->
  ttsStatus t = ready /\
  exists a, audio t = Some a /\
    ((w' = w /\ t = tts reminder /\ data a <> EmptyString) \/
     (exists v, synth sv (List.length (synthLog w)) v (ttsText reminder (Some reqUser))
                = Ok (data a) /\
        synthLog w' = synthLog w ++ [(v, ttsText reminder (Some reqUser))] /\
        contentType a = "audio/mpeg" /\ size a = String.length (data a))) /\
    (contentType a <> EmptyString ->
     getReminderTTS (user_id reqUser) id w' =
     success (mkAudioStream (contentType a)
                (if (size a =? 0)%nat then None else Some (size a)) (data a))).
Proof.
  intros Hfind Hown Hrun.
  pose proof (findOne_findById id w reminder Hfind) as Hone. rewrite Hown in Hone.
  pose proof (findById_id _ _ _ Hfind) as Hid.
  unfold ensureReminderTTSNow in Hrun. rewrite Hone, Hid in Hrun.
  pose proof (ensureReminderTTS_post env sv id (Some reqUser) None w reminder Hfind) as P.
  pose proof (ensureReminderTTS_stored env sv id (Some reqUser) None w reminder Hfind)
    as (t0 & _ & Hret).
  destruct (ensureReminderTTS env sv id (Some reqUser) None w) as [[r'|e] w1];
    [|discriminate].
  injection Hrun as <- <-.
  destruct P as (Hf & (Hst & _) & _ & Hcase).
  split; [exact Hst|].
  assert (Hu : user_id (user r') = user_id reqUser).
  { rewrite (Hret r' eq_refl). cbn. exact Hown. }
  assert (Hstream : forall a, audio (tts r') = Some a ->
    contentType a <> EmptyString ->
    getReminderTTS (user_id reqUser) id w1 =
    success (mkAudioStream (contentType a)
               (if (size a =? 0)%nat then None else Some (size a)) (data a))).
  { intros a Ha Hct. unfold getReminderTTS.
    pose proof (findOne_findById id w1 r' Hf) as Hone'. rewrite Hu in Hone'.
    rewrite Hone', Ha. apply String.eqb_neq in Hct. rewrite Hct. reflexivity. }
  destruct Hcase as [(-> & -> & (a & Ha & Hd))|(buffer & v & Hsyn & Hlog & Ha)].
  - exists a. split; [exact Ha|]. split; [left; auto|]. apply Hstream. exact Ha.
  - exists (mkAudio buffer "audio/mpeg" (String.length buffer)).
    split; [exact Ha|]. split; [right; exists v; auto|]. apply Hstream. exact Ha.
Qed.

(** X26. A Meeting is created scheduled by hand.  For a body of type
    [Meeting], [createReminder] answers 400 exactly when the body has no
    [startDate]; otherwise, whatever the body asks for, the payload is
    manual, one-day, with no week days, and its lead time is the number of
    [notificationPreferenceMinutes], else [scheduleTime.minutesBeforeStart],
    else 10, both as the preference and as the schedule time.  A body of
    another type is never refused at this point. *)
Theorem meeting_payload userId body :
  (prop "type" body = Some (JStr "Meeting") ->
   match createReminderPayload userId body with
   | inl msg =>
       msg = "Start date is required for meetings" /\
       (forall v, prop "startDate" body = Some v -> truthy v = false)
   | inr p =>
       (exists v, prop "startDate" body = Some v /\ truthy v = true /\
                  pStartDate p = Some (newDate v)) /\
       pIsManualSchedule p = true /\
       pScheduleType p = Some (JStr "one-day") /\
       pScheduleDays p = Some (JArr []) /\
       pScheduleTime p =
         Some (JObj [("minutesBeforeStart", pNotificationPreferenceMinutes p)]) /\
       pNotificationPreferenceMinutes p =
         match prop "notificationPreferenceMinutes" body with
         | Some (JNum q) => JNum q
         | _ => minutesOr10 (prop "scheduleTime" body)
         end
   end) /\
  (prop "type" body <> Some (JStr "Meeting") ->
   exists p, createReminderPayload userId body = inr p /\
     pScheduleType p = prop "scheduleType" body /\
     pScheduleDays p = prop "scheduleDays" body /\
     pScheduleTime p = prop "scheduleTime" body).
Proof.
  split.
  - intros Ht. unfold createReminderPayload. cbn [pType pStartDate]. rewrite Ht.
    cbn [isMeeting String.eqb Ascii.eqb Bool.eqb andb].
    destruct (prop "startDate" body) as [v|].
    + destruct (truthy v) eqn:Tv; cbn [isSome negb].
      * split; [exists v; auto|].
        cbn. repeat split.
        destruct (prop "notificationPreferenceMinutes" body) as [[| |q| | |]|]; reflexivity.
      * split; [reflexivity|]. intros v' [= <-]. exact Tv.
    + cbn [isSome negb]. split; [reflexivity|]. discriminate.
  - intros Hne. unfold createReminderPayload. cbn [pType].
    assert (Hm : isMeeting (prop "type" body) = false).
    { unfold isMeeting. destruct (prop "type" body) as [[| | |s| |]|]; try reflexivity.
      apply String.eqb_neq. congruence. }
    rewrite Hm. eexists. split; [reflexivity|]. cbn. auto.
Qed.

Lemma removeFirst_spec id userId (l : list Reminder) r :
  NoDup (List.map _id l) ->
  List.find (fun x => String.eqb (_id x) id && String.eqb (user_id (user x)) userId) l
    = Some r ->
  (forall x, In x (removeFirst (fun x => String.eqb (_id x) id
                                         && String.eqb (user_id (user x)) userId) l) ->
             _id x <> id) /\
  (forall id', id' <> id ->
     List.find (fun x => String.eqb (_id x) id')
       (removeFirst (fun x => String.eqb (_id x) id
                              && String.eqb (user_id (user x)) userId) l)
     = List.find (fun x => String.eqb (_id x) id') l).
Proof.
  induction l as [|y l IH]; [discriminate|].
  intros Hnd Hf. cbn [List.map] in Hnd. apply NoDup_cons in Hnd as [Hnotin Hnd].
  cbn [List.find removeFirst] in *.
  destruct (String.eqb (_id y) id && String.eqb (user_id (user y)) userId) eqn:E.
  - apply andb_true_iff in E as [E _]. apply String.eqb_eq in E.
    split.
    + intros x Hx Heq. apply Hnotin. rewrite list_elem_of_In.
      apply List.in_map_iff. exists x. split; [congruence|exact Hx].
    + intros id' Hne.
      assert (E' : String.eqb (_id y) id' = false) by (apply String.eqb_neq; congruence).
      rewrite E'. reflexivity.
  - destruct (IH Hnd Hf) as [IH1 IH2]. split.
    + intros x [<-|Hx]; [|exact (IH1 x Hx)].
      intros Heq. apply List.find_some in Hf as [Hin Hr].
      apply andb_true_iff in Hr as [Hr _]. apply String.eqb_eq in Hr.
      apply Hnotin. rewrite list_elem_of_In. apply List.in_map_iff.
      exists r. split; [congruence|exact Hin].
    + intros id' Hne. cbn [List.find]. rewrite (IH2 id' Hne). reflexivity.
Qed.

(** X27. Deleting removes one reminder and nothing else.  When the ids of
    the stored reminders are distinct and the user owns the reminder,
    [deleteReminder] succeeds; afterwards no reminder has that id, reading
    it answers 404, and every other reminder is found as before. *)
Theorem deleteReminder_removes userId id w reminder :
  NoDup (idsOf w) -> findOne id userId w = Some reminder ->
  exists w',
    deleteReminder userId id w = (success tt, w') /\
    findById id w' = None /\
    getReminder userId id w' = notFound "Reminder not found" /\
    (forall id', id' <> id -> findById id' w' = findById id' w) /\
    notifications w' = notifications w /\ clock w' = clock w.
Proof.
  intros Hnd Hone. unfold deleteReminder.
  rewrite (queryId_stored id w (findOne_stored id userId w reminder Hone)), Hone.
  eexists. split; [reflexivity|].
  destruct (removeFirst_spec id userId (reminders w) reminder Hnd Hone) as [H1 H2].
  assert (Hnone : forall p, (forall x, p x = true -> _id x = id) ->
    List.find p (removeFirst (fun x => String.eqb (_id x) id
                                       && String.eqb (user_id (user x)) userId)
                   (reminders w)) = None).
  { intros p Hp. apply find_none_all. intros x Hx.
    destruct (p x) eqn:E; [|reflexivity]. exfalso. exact (H1 x Hx (Hp x E)). }
  split.
  { unfold findById. cbn [reminders]. apply Hnone.
    intros x E. apply String.eqb_eq. exact E. }
  split.
  { unfold getReminder, findOne. cbn [reminders]. rewrite Hnone; [reflexivity|].
    intros x E. apply andb_true_iff in E as [E _]. apply String.eqb_eq. exact E. }
  split; [|split; reflexivity].
  intros id' Hne. unfold findById. cbn [reminders]. apply H2. exact Hne.
Qed.

(** *** The speech step of a trigger *)

(** X28. The speech step of a trigger is one call of [ensureReminderTTS]:
    a call that returns has written a hash, so the poll that follows it in
    the source never runs.  The step does not wait, sends at most one
    request to the speech service, and reports the hash of the stored
    record, which is then ready, or null when the call threw. *)
Theorem trigger_speech_without_poll env sv updated w :
  exists h w',
    triggerTTS env sv updated w = (Ok h, w') /\
    w' = snd (ensureReminderTTS env sv (_id updated) (Some (user updated)) None w) /\
    clock w' = clock w /\
    (synthLog w' = synthLog w \/
     exists v text, synthLog w' = synthLog w ++ [(v, text)]) /\
    match h with
    | Some hash =>
        exists r', findById (_id updated) w' = Some r' /\
          textHash (tts r') = Some hash /\ ttsStatus (tts r') = ready
    | None =>
        exists e, fst (ensureReminderTTS env sv (_id updated) (Some (user updated)) None w)
                  = Throw e
    end.
Proof.
  rewrite triggerTTS_no_poll.
  pose proof (ensureReminderTTS_clock env sv (_id updated) (Some (user updated)) None w) as Hc.
  pose proof (ensureReminderTTS_log env sv (_id updated) (Some (user updated)) None w) as Hl.
  destruct (findById (_id updated) w) as [reminder|] eqn:Hfind.
  - pose proof (ensureReminderTTS_post env sv (_id updated) (Some (user updated))
                  None w reminder Hfind) as P.
    destruct (ensureReminderTTS env sv (_id updated) (Some (user updated)) None w)
      as [[ensured|e] w']; cbn [fst snd] in *.
    + destruct P as (Hf & (Hst & Hh) & _).
      do 2 eexists. split; [reflexivity|]. split; [reflexivity|].
      split; [exact Hc|]. split; [exact Hl|].
      rewrite Hh. exists ensured. auto.
    + do 2 eexists. split; [reflexivity|]. split; [reflexivity|].
      split; [exact Hc|]. split; [exact Hl|]. eauto.
  - unfold ensureReminderTTS, bind, getWorld, throw in *. rewrite Hfind in *.
    cbn [fst snd] in *.
    do 2 eexists. split; [reflexivity|]. split; [reflexivity|].
    split; [reflexivity|]. split; [left; reflexivity|]. eauto.
Qed.

(** *** A failure of [processBackgroundAI] *)

(** X29. [processBackgroundAI] fails before it writes: when it throws,
    the reminders, the notifications and the log of the speech service are
    as before. *)
Theorem processBackgroundAI_throws_before_writing env sv id usr w e w' :
  processBackgroundAI env sv id usr w = (Throw e, w') -> w' = w.
Proof.
  intros Hrun.
  destruct (findById id w) as [rem0|] eqn:Hfind.
  - destruct (processBackgroundAI_run env sv id usr w rem0 Hfind)
      as [(e' & He)|(rem1 & src & rem & ls & _ & _ & _ & _ & Hp)].
    + rewrite He in Hrun. congruence.
    + rewrite Hp in Hrun. discriminate.
  - unfold processBackgroundAI, bind, getWorld, ret in Hrun. rewrite Hfind in Hrun.
    discriminate.
Qed.

(** *** A reply wrapped in prose *)

Lemma fromFirstBrace_skip pre rest :
  allChars (fun a => negb (Ascii.eqb a "{")) pre = true ->
  fromFirstBrace (pre +:+ String "{" rest) = Some (String "{" rest).
Proof.
  induction pre as [|a pre IH]; intros H; [reflexivity|].
  cbn [allChars] in H. apply andb_true_iff in H as [Ha H].
  apply negb_true_iff in Ha.
  change (String a pre +:+ String "{" rest) with (String a (pre +:+ String "{" rest)).
  cbn [fromFirstBrace]. rewrite Ha. exact (IH H).
Qed.

Lemma uptoLastBrace_none post :
  allChars (fun a => negb (Ascii.eqb a "}")) post = true -> uptoLastBrace post = None.
Proof.
  induction post as [|a post IH]; intros H; [reflexivity|].
  cbn [allChars] in H. apply andb_true_iff in H as [Ha H].
  apply negb_true_iff in Ha. cbn [uptoLastBrace]. rewrite (IH H), Ha. reflexivity.
Qed.

Lemma uptoLastBrace_keep mid post :
  allChars (fun a => negb (Ascii.eqb a "}")) post = true ->
  uptoLastBrace (mid +:+ String "}" post) = Some (mid +:+ "}").
Proof.
  intros H. induction mid as [|a mid IH].
  - change (EmptyString +:+ String "}" post) with (String "}" post).
    cbn [uptoLastBrace]. rewrite (uptoLastBrace_none post H). reflexivity.
  - change (String a mid +:+ String "}" post) with (String a (mid +:+ String "}" post)).
    cbn [uptoLastBrace]. rewrite IH. reflexivity.
Qed.

(** X30. A schedule wrapped in prose is still read.  In a reply that is not
    JSON as a whole, the block that is parsed runs from the first opening
    brace to the last closing brace: for a reply [pre { mid } post] with no
    opening brace in [pre] and no closing brace in [post], the schedule is
    read from [{ mid }]; and a reply without a brace block is refused. *)
Theorem reply_wrapped_in_prose text :
  JSON_parse text = None ->
  (forall pre mid post,
     text = pre +:+ String "{" (mid +:+ String "}" post) ->
     allChars (fun a => negb (Ascii.eqb a "{")) pre = true ->
     allChars (fun a => negb (Ascii.eqb a "}")) post = true ->
     parseReply text = JSON_parse (String "{" (mid +:+ "}"))) /\
  (matchJsonBlock text = None -> parseReply text = None).
Proof.
  intros Hp. unfold parseReply. rewrite Hp. split.
  - intros pre mid post -> Hpre Hpost. unfold matchJsonBlock.
    rewrite (fromFirstBrace_skip pre _ Hpre). cbn [mbind option_bind].
    change (String "{" (mid +:+ String "}" post))
      with (String "{" mid +:+ String "}" post).
    rewrite (uptoLastBrace_keep (String "{" mid) post Hpost). reflexivity.
  - intros ->. reflexivity.
Qed.

End Core.


(* ===================================================================== *)
(** ** The building blocks on known values *)
(* ===================================================================== *)

Example sha256_abc :
  SHA256.hex "abc" = "ba7816bf8f01cfea414140de5dae2223b00361a396177a9cb410ff61f20015ad".
Proof. vm_compute. reflexivity. Qed.

Example sha256_empty :
  SHA256.hex EmptyString
  = "e3b0c44298fc1c149afbf4c8996fb92427ae41e4649b934ca495991b7852b855".
Proof. vm_compute. reflexivity. Qed.

Example sha256_two_blocks :
  SHA256.hex "abcdbcdecdefdefgefghfghighijhijkijkljklmklmnlmnomnopnopq"
  = "248d6a61d20638b8e5c026930c3e6039a33ce45964ff2167f6ecedd419db06c1".
Proof. vm_compute. reflexivity. Qed.

Example toISOString_sample : toISOString sampleNow = "2023-11-14T22:13:20.000Z".
Proof. vm_compute. reflexivity. Qed.

Example toISOString_last_date :
  toISOString 8640000000000000 = "+275760-09-13T00:00:00.000Z".
Proof. vm_compute. reflexivity. Qed.

Example toISOString_before_year_zero :
  toISOString (-62198755200001) = "-000002-12-31T23:59:59.999Z".
Proof. vm_compute. reflexivity. Qed.

Example MAX_METERS_unset : MAX_METERS envNoAI = Some 60.
Proof. reflexivity. Qed.

Example MAX_METERS_below_floor : MAX_METERS (envMax "5") = Some 10.
Proof. reflexivity. Qed.

Example MAX_METERS_configured : MAX_METERS (envMax " 250 m") = Some 250.
Proof. reflexivity. Qed.

(** A value that is not a number leaves [NaN], and then no distance is
    too far. *)
Example MAX_METERS_not_a_number :
  MAX_METERS (envMax "sixty") = None /\
  forall d, tooFar (Some d) (MAX_METERS (envMax "sixty")) = false.
Proof. split; reflexivity. Qed.

(* ===================================================================== *)
(** ** The reference platform reads back the dates it prints *)
(* ===================================================================== *)

Lemma Ref_checkFrom_sound n : forall z,
  checkFrom n z = true -> forall k, z <= k < z + Z.of_nat n -> checkDoe k = true.
Proof.
  induction n as [|n IH]; intros z H k Hk; [lia|].
  cbn [checkFrom] in H. apply andb_true_iff in H as [H1 H2].
  destruct (Z.eq_dec k z) as [->|Hne]; [exact H1|].
  apply (IH (z + 1)); [exact H2|lia].
Qed.

Lemma Ref_era_checked : checkFrom (Z.to_nat 146097) 0 = true.
Proof. vm_compute. reflexivity. Qed.

Lemma Ref_civil_roundtrip z :
  let '(y, m, d) := civilOfDays z in
  daysOfCivil y m d = z /\ 1 <= m <= 12 /\ 1 <= d <= 31 /\
  (z + 719468) / 146097 * 400 <= y <= (z + 719468) / 146097 * 400 + 400.
Proof.
  unfold civilOfDays.
  pose proof (Z.mod_pos_bound (z + 719468) 146097 ltac:(lia)) as Hdoe.
  pose proof (Ref_checkFrom_sound (Z.to_nat 146097) 0 Ref_era_checked
                ((z + 719468) mod 146097) ltac:(lia)) as Hc.
  unfold checkDoe in Hc.
  destruct (civilOfDoe ((z + 719468) mod 146097)) as [[yoe m] d].
  repeat (apply andb_true_iff in Hc as [Hc ?]).
  apply Z.eqb_eq in Hc.
  repeat match goal with
         | H : (_ <=? _) = true |- _ => apply Z.leb_le in H
         end.
  set (era := (z + 719468) / 146097).
  assert (Hz : z + 719468 = 146097 * era + (z + 719468) mod 146097)
    by (apply Z.div_mod; lia).
  split.
  - unfold daysOfCivil.
    assert (Hy : (if m <=? 2 then yoe + era * 400 + (if m <=? 2 then 1 else 0) - 1
                  else yoe + era * 400 + (if m <=? 2 then 1 else 0))
                 = yoe + era * 400)
      by (destruct (m <=? 2); lia).
    rewrite Hy.
    rewrite Z.div_add by lia. rewrite Z.mod_add by lia.
    rewrite (Z.div_small yoe 400) by lia.
    rewrite (Z.mod_small yoe 400) by lia.
    rewrite Hc. lia.
  - destruct (m <=? 2); lia.
Qed.

Lemma Ref_digitAt_val k n : digitVal (digitAt k n) = (n / 10 ^ k) mod 10.
Proof.
  unfold digitAt, digitChar, digitVal.
  pose proof (Z.mod_pos_bound (n / 10 ^ k) 10 ltac:(lia)) as Hb.
  rewrite nat_ascii_embedding by lia. lia.
Qed.

Lemma Ref_digitAt_isDigit k n : isDigit (digitAt k n) = true.
Proof.
  unfold digitAt, digitChar, isDigit.
  pose proof (Z.mod_pos_bound (n / 10 ^ k) 10 ltac:(lia)) as Hb.
  rewrite nat_ascii_embedding by lia.
  apply andb_true_iff. split; apply Nat.leb_le; lia.
Qed.

Lemma Ref_digit_mod k n :
  0 <= k -> (n / 10 ^ k) mod 10 = n / 10 ^ k - 10 * (n / 10 ^ (k + 1)).
Proof.
  intros Hk. rewrite Z.mod_eq by lia.
  rewrite Z.pow_add_r by lia. change (10 ^ 1) with 10.
  rewrite Z.div_div by lia. reflexivity.
Qed.

Lemma Ref_num2 n : 0 <= n < 100 -> Ref.num [digitAt 1 n; digitAt 0 n] = n.
Proof.
  intros H. unfold Ref.num. cbn [List.fold_left].
  rewrite ?Ref_digitAt_val, ?Ref_digit_mod by lia.
  repeat match goal with
         | |- context [10 ^ ?e] =>
             let v := eval compute in (10 ^ e) in change (10 ^ e) with v
         end.
  rewrite (Z.div_small n 100) by lia. rewrite Z.div_1_r. lia.
Qed.

Lemma Ref_num3 n :
  0 <= n < 1000 -> Ref.num [digitAt 2 n; digitAt 1 n; digitAt 0 n] = n.
Proof.
  intros H. unfold Ref.num. cbn [List.fold_left].
  rewrite ?Ref_digitAt_val, ?Ref_digit_mod by lia.
  repeat match goal with
         | |- context [10 ^ ?e] =>
             let v := eval compute in (10 ^ e) in change (10 ^ e) with v
         end.
  rewrite (Z.div_small n 1000) by lia. rewrite Z.div_1_r. lia.
Qed.

Lemma Ref_num4 n :
  0 <= n < 10000 ->
  Ref.num [digitAt 3 n; digitAt 2 n; digitAt 1 n; digitAt 0 n] = n.
Proof.
  intros H. unfold Ref.num. cbn [List.fold_left].
  rewrite ?Ref_digitAt_val, ?Ref_digit_mod by lia.
  repeat match goal with
         | |- context [10 ^ ?e] =>
             let v := eval compute in (10 ^ e) in change (10 ^ e) with v
         end.
  rewrite (Z.div_small n 10000) by lia. rewrite Z.div_1_r. lia.
Qed.

Lemma Ref_num6 n :
  0 <= n < 1000000 ->
  Ref.num [digitAt 5 n; digitAt 4 n; digitAt 3 n;
           digitAt 2 n; digitAt 1 n; digitAt 0 n] = n.
Proof.
  intros H. unfold Ref.num. cbn [List.fold_left].
  rewrite ?Ref_digitAt_val, ?Ref_digit_mod by lia.
  repeat match goal with
         | |- context [10 ^ ?e] =>
             let v := eval compute in (10 ^ e) in change (10 ^ e) with v
         end.
  rewrite (Z.div_small n 1000000) by lia. rewrite Z.div_1_r. lia.
Qed.
Lemma Ref_fields t :
  let msDay := t mod 86400000 in
  0 <= msDay / 3600000 <= 23 /\ 0 <= (msDay / 60000) mod 60 <= 59 /\
  0 <= (msDay / 1000) mod 60 <= 59 /\ 0 <= msDay mod 1000 <= 999 /\
  t / 86400000 * 86400000 + msDay / 3600000 * 3600000
    + (msDay / 60000) mod 60 * 60000 + (msDay / 1000) mod 60 * 1000
    + msDay mod 1000 = t.
Proof.
  cbv zeta. Z.to_euclidean_division_equations. lia.
Qed.

Lemma Ref_timeOfFields t y m d :
  validTime t ->
  daysOfCivil y m d = t / 86400000 -> 1 <= m <= 12 -> 1 <= d <= 31 ->
  Ref.timeOfFields y m d ((t mod 86400000) / 3600000)
    (((t mod 86400000) / 60000) mod 60) (((t mod 86400000) / 1000) mod 60)
    ((t mod 86400000) mod 1000) = DateOf t.
Proof.
  intros Hv Hdays Hm Hd. pose proof (Ref_fields t) as F. cbv zeta in F.
  destruct F as (Fh & Fi & Fs & Fms & Ft).
  unfold Ref.timeOfFields.
  replace ((1 <=? m) && (m <=? 12) && (1 <=? d) && (d <=? 31)
           && (t mod 86400000 / 3600000 <=? 23)
           && ((t mod 86400000 / 60000) mod 60 <=? 59)
           && ((t mod 86400000 / 1000) mod 60 <=? 59)) with true.
  2:{ symmetry. repeat (apply andb_true_iff; split); apply Z.leb_le; lia. }
  rewrite Hdays, Ft. unfold timeClip, validTime in *.
  destruct (Z.abs t <=? 8640000000000000) eqn:E; [reflexivity|].
  apply Z.leb_gt in E. lia.
Qed.

Lemma Ref_Date_parse_toISOString t :
  validTime t -> Ref.Date_parse (toISOString t) = DateOf t.
Proof.
  intros Hv. unfold toISOString.
  pose proof (Ref_civil_roundtrip (t / 86400000)) as Hc.
  destruct (civilOfDays (t / 86400000)) as [[y m] d].
  destruct Hc as (Hdays & Hm & Hd & Hy).
  pose proof (Ref_fields t) as F. cbv zeta in F.
  destruct F as (Fh & Fi & Fs & Fms & _).
  unfold Ref.Date_parse. rewrite list_ascii_of_string_of_list_ascii.
  unfold yearChars.
  destruct ((0 <=? y) && (y <=? 9999)) eqn:Hr.
  - apply andb_true_iff in Hr as [Hr1 Hr2]. apply Z.leb_le in Hr1, Hr2.
    cbn [app List.forallb]. rewrite !Ref_digitAt_isDigit. cbn [andb].
    unfold Ref.parseTail. cbn [List.forallb]. rewrite !Ref_digitAt_isDigit.
    cbn [andb Ascii.eqb Bool.eqb].
    rewrite Ref_num4, !Ref_num2, Ref_num3 by lia.
    apply Ref_timeOfFields; assumption.
  - assert (Hy6 : Z.abs y < 1000000).
    { unfold validTime in Hv. clear - Hv Hy.
      Z.to_euclidean_division_equations. lia. }
    assert (Hsign : isDigit (if y <? 0 then "-"%char else "+"%char) = false)
      by (destruct (y <? 0); reflexivity).
    cbn [app]. rewrite Hsign.
    cbn [List.forallb]. rewrite !Ref_digitAt_isDigit. cbn [andb].
    rewrite Ref_num6 by lia.
    assert (Htail : forall y',
      y' = y ->
      Ref.parseTail y'
        ["-"%char; digitAt 1 m; digitAt 0 m; "-"%char;
         digitAt 1 d; digitAt 0 d; "T"%char;
         digitAt 1 (t mod 86400000 / 3600000);
         digitAt 0 (t mod 86400000 / 3600000); ":"%char;
         digitAt 1 ((t mod 86400000 / 60000) mod 60);
         digitAt 0 ((t mod 86400000 / 60000) mod 60); ":"%char;
         digitAt 1 ((t mod 86400000 / 1000) mod 60);
         digitAt 0 ((t mod 86400000 / 1000) mod 60); "."%char;
         digitAt 2 ((t mod 86400000) mod 1000);
         digitAt 1 ((t mod 86400000) mod 1000);
         digitAt 0 ((t mod 86400000) mod 1000); "Z"%char] = DateOf t).
    { intros y' ->. unfold Ref.parseTail. cbn [List.forallb].
      rewrite !Ref_digitAt_isDigit. cbn [andb Ascii.eqb Bool.eqb].
      rewrite !Ref_num2, Ref_num3 by lia.
      apply Ref_timeOfFields; assumption. }
    apply andb_false_iff in Hr.
    destruct (y <? 0) eqn:Hneg.
    + apply Z.ltb_lt in Hneg. cbn [Ascii.eqb Bool.eqb andb]. apply Htail. lia.
    + apply Z.ltb_ge in Hneg. cbn [Ascii.eqb Bool.eqb andb]. apply Htail.
      destruct Hr as [Hr|Hr]; [apply Z.leb_gt in Hr|apply Z.leb_gt in Hr]; lia.
Qed.

(* ===================================================================== *)
(** ** Examples, witnesses and counterexamples on the reference platform *)
(* ===================================================================== *)

(** The first free slot of the sample user: 04:13 to 08:13 local time are
    outside the working day, 09:13 is taken by the meeting. *)
Example findSmartSlot_sample :
  findSmartSlot Ref.localTZA Ref.Date_parse "u1" sampleNow scheduleWorld
  = (Ok (Some (DateOf (sampleNow + 7 * oneHour))), scheduleWorld).
Proof. vm_compute. reflexivity. Qed.

Lemma findSmartSlot_horizon_witness :
  exists res,
    findSmartSlot Ref.localTZA Ref.Date_parse "u1" sampleNow scheduleWorld
      = (Ok res, scheduleWorld) /\
    (res = None \/
     exists t, res = Some (DateOf t) /\
       sampleNow + oneHour <= t <= sampleNow + 7 * 24 * oneHour /\
       9 <= getHours Ref.localTZA t < 18 /\
       forall r, In r (reminders scheduleWorld) -> user_id (user r) = "u1" ->
                 startDate r <> Some t).
Proof.
  apply (findSmartSlot_horizon Ref.localTZA Ref.Date_parse
           Ref_Date_parse_toISOString "u1" sampleNow scheduleWorld).
  - unfold validTime, sampleNow. lia.
  - unfold validTime, sampleNow. lia.
Defined.

(** A reply two days ahead passes the checks of the Gemini schedule. *)
Example suggestFullScheduleWithGemini_sample :
  suggestFullScheduleWithGemini Ref.Date_parse Ref.ToString Ref.JSON_parse
    envAI sampleNow (Ok replyTwoDays)
  = Ok (Some (mkSchedule (JStr "2023-11-16T10:00:00Z") oneDay []
                (mkScheduleTime (Some (15 # 1)) None))).
Proof. vm_compute. reflexivity. Qed.

Lemma gemini_schedule_accepted_witness :
  scheduleAccepted Ref.Date_parse Ref.ToString sampleNow
    (mkSchedule (JStr "2023-11-16T10:00:00Z") oneDay []
       (mkScheduleTime (Some (15 # 1)) None)) /\
  suggestFullScheduleWithGemini Ref.Date_parse Ref.ToString Ref.JSON_parse
    envAI sampleNow (Ok replyFortyDays)
  = Ok (Some (mkSchedule (JStr "2023-12-24T10:00:00Z") oneDay []
                (mkScheduleTime None None))).
Proof.
  split.
  - apply (proj1 (gemini_schedule_accepted Ref.Date_parse Ref.ToString
                    Ref.JSON_parse envAI sampleNow (Ok replyTwoDays))).
    vm_compute. reflexivity.
  - edestruct (proj2 (gemini_schedule_accepted Ref.Date_parse Ref.ToString
                        Ref.JSON_parse envAI sampleNow (Ok replyFortyDays))
                 replyFortyDays)
      as (_ & _ & H & _);
      [reflexivity | reflexivity | vm_compute; reflexivity | reflexivity |].
    apply (H 1703412000000);
      [reflexivity | reflexivity | vm_compute; reflexivity | unfold sampleNow; lia].
Defined.

(** C1, counterexample. A one-day reply forty days ahead is accepted: the
    returned start time is beyond the 7-day horizon. *)
Lemma gemini_schedule_beyond_horizon :
  exists s t,
    suggestFullScheduleWithGemini Ref.Date_parse Ref.ToString Ref.JSON_parse
      envAI sampleNow (Ok replyFortyDays) = Ok (Some s) /\
    sScheduleType s = oneDay /\
    newDate Ref.Date_parse Ref.ToString (startDateISO s) = DateOf t /\
    sampleNow + 7 * 24 * 60 * 60 * 1000 < t.
Proof.
  exists (mkSchedule (JStr "2023-12-24T10:00:00Z") oneDay []
            (mkScheduleTime None None)), 1703412000000.
  split; [vm_compute; reflexivity|].
  split; [reflexivity|].
  split; [vm_compute; reflexivity|].
  unfold sampleNow. lia.
Qed.

(** The fallback schedules the sample task at the first free slot. *)
Example processBackgroundAI_fallback_sample :
  exists rem' w',
    processBackgroundAI Ref.localTZA Ref.Date_parse Ref.ToString Ref.JSON_parse
      envNoAI svDown "t1" None scheduleWorld
    = (Ok (Some (rem', mkMeta (Some fallback) (Some fallback))), w') /\
    startDate rem' = Some (sampleNow + 7 * oneHour) /\
    notificationPreferenceMinutes rem' = (10 # 1)%Q /\
    aiNotificationLine rem' = Some "Hey Alice, reminder: Buy milk." /\
    findById "t1" w' = Some (set_tts (mkTts (Some "voice-1")
                                        (Some (computeTextHash "Hey Alice, reminder: Buy milk."
                                                 (Some "voice-1")))
                                        None failed None) rem').
Proof.
  do 2 eexists. split; [vm_compute; reflexivity|].
  vm_compute. repeat split; reflexivity.
Qed.

Lemma fallback_when_ai_fails_witness :
  exists rem' meta w',
    processBackgroundAI Ref.localTZA Ref.Date_parse Ref.ToString Ref.JSON_parse
      envNoAI svDown "t1" None scheduleWorld
    = (Ok (Some (rem', meta)), w') /\
    ((exists t,
        freeSlot Ref.localTZA scheduleWorld "u1" sampleNow t /\
        (forall t', t' < t -> ~ freeSlot Ref.localTZA scheduleWorld "u1" sampleNow t') /\
        startDate rem' = Some t /\
        scheduleType rem' = Some oneDay /\
        scheduleDays rem' = Some [] /\
        scheduleTime rem' = Some (mkScheduleTime (Some (10 # 1)) None) /\
        notificationPreferenceMinutes rem' = (10 # 1)%Q /\
        aiSuggested rem' = true /\
        scheduleSource meta = Some fallback)
     \/
     ((forall t, ~ freeSlot Ref.localTZA scheduleWorld "u1" sampleNow t) /\
      startDate rem' = None /\
      scheduleType rem' = scheduleType taskDoc /\
      scheduleDays rem' = scheduleDays taskDoc /\
      scheduleTime rem' = scheduleTime taskDoc /\
      notificationPreferenceMinutes rem' = notificationPreferenceMinutes taskDoc /\
      aiSuggested rem' = aiSuggested taskDoc /\
      scheduleSource meta = None)).
Proof.
  apply (fallback_when_ai_fails Ref.localTZA Ref.Date_parse Ref.ToString
           Ref.JSON_parse Ref_Date_parse_toISOString envNoAI svDown "t1" None
           scheduleWorld taskDoc).
  - unfold validTime, scheduleWorld, sampleNow, clock. lia.
  - unfold validTime, scheduleWorld, sampleNow, clock. lia.
  - reflexivity.
  - reflexivity.
  - reflexivity.
  - reflexivity.
  - apply schedule_unavailable. reflexivity.
Defined.

(** A scan of the sample world when every service is down: one outcome per
    candidate, in order. *)
Example scan_sample :
  scanAndTrigger Ref.localTZA envNoAI svDown "u1" callerLat callerLng 500%R scanWorld
  = (Ok [Skipped "loc1" (day_mismatch (byScheduleDays [1] 3));
         Skipped "loc2" (anti_spam_window (600000 # 60000));
         Skipped "loc3" (places_error "timeout")], scanWorld).
Proof. reflexivity. Qed.

(** C4, counterexample. A Location reminder triggered ten minutes before
    the scan, which is scheduled for Mondays and scanned on a Wednesday,
    is skipped as [day_mismatch], not as [anti_spam_window]. *)
Lemma throttled_reminder_day_mismatch :
  lastTriggeredAt locMonday = Some (sampleNow - 10 * 60000) /\
  sampleNow - (sampleNow - 10 * 60000) < 90 * 60000 /\
  scanBody Ref.localTZA envNoAI svDown "u1" callerLat callerLng 500%R sampleNow
    [] locMonday scanWorld
  = (Ok [Skipped "loc1" (day_mismatch (byScheduleDays [1] 3))], scanWorld).
Proof.
  split; [reflexivity|]. split; [lia|]. reflexivity.
Qed.

Lemma throttle_ninety_minutes_witness :
  scanBody Ref.localTZA envNoAI svDown "u1" callerLat callerLng 500%R sampleNow
    [] locRecent scanWorld
  = (Ok ([] ++ [Skipped "loc2" (anti_spam_window ((sampleNow - (sampleNow - 10 * 60000)) # 60000))]),
     scanWorld).
Proof.
  destruct (throttle_ninety_minutes Ref.localTZA envNoAI svDown "u1"
              callerLat callerLng 500%R sampleNow [] locRecent scanWorld)
    as [_ H].
  - cbn. auto.
  - destruct (H (sampleNow - 10 * 60000) eq_refl) as [_ Hlt].
    apply Hlt; [lia|reflexivity].
Defined.

Lemma haversineMeters_here (lat lng : R) : haversineMeters lat lng lat lng = 0%R.
Proof.
  rewrite haversineMeters_meridian by lra. unfold toRad. field.
Qed.

Lemma reachesPlace_sample (place : Place) :
  reachesPlace Ref.localTZA (svPlace place) callerLat callerLng 500%R
    locFree sampleNow place.
Proof.
  split; [|reflexivity].
  split; [reflexivity|]. split; [reflexivity|]. discriminate.
Qed.



Lemma distanceTo_here :
  distanceTo callerLat callerLng (placeNorth 0) = Some 0.
Proof.
  unfold distanceTo, placeNorth. cbn [placeLat placeLng].
  rewrite haversineMeters_north by lra.
  rewrite Math_round_IZR. reflexivity.
Qed.

Lemma tooFar_here :
  tooFar (distanceTo callerLat callerLng (placeNorth 0)) (MAX_METERS envNoAI) = false.
Proof. rewrite distanceTo_here. reflexivity. Qed.

Lemma collision_gate_witness :
  scanBody Ref.localTZA envNoAI (svPlace (placeNorth 0)) "u1"
    callerLat callerLng 500%R sampleNow [] locFree (collisionWorld 299000)
  = (Ok ([] ++ [Skipped "loc3" (collision 360000)]), collisionWorld 299000) /\
  exists o w',
    scanBody Ref.localTZA envNoAI (svPlace (placeNorth 0)) "u1"
      callerLat callerLng 500%R sampleNow [] locFree (collisionWorld 301000)
    = (Ok ([] ++ [o]), w') /\ isTriggered o.
Proof.
  split.
  - destruct (collision_gate Ref.localTZA envNoAI (svPlace (placeNorth 0)) "u1"
                callerLat callerLng 500%R sampleNow [] locFree
                (collisionWorld 299000) (placeNorth 0))
      as (_ & H & _).
    + cbn. auto.
    + apply reachesPlace_sample.
    + apply tooFar_here.
    + apply (H (taskAt 299000)).
      * cbn. auto.
      * reflexivity.
      * left. reflexivity.
      * reflexivity.
      * reflexivity.
  - destruct (collision_gate Ref.localTZA envNoAI (svPlace (placeNorth 0)) "u1"
                callerLat callerLng 500%R sampleNow [] locFree
                (collisionWorld 301000) (placeNorth 0))
      as (_ & _ & H).
    + cbn. auto.
    + apply reachesPlace_sample.
    + apply tooFar_here.
    + apply H. intros c [<-|[<-|[]]] _ Hty _.
      * destruct Hty; discriminate.
      * reflexivity.
Defined.

(** The trigger of the sample reminder when the task starts five minutes
    and one second after the scan: the line, the speech and the
    notification fail, and the reminder is reported as triggered. *)
Example scan_trigger_sample :
  exists w',
    scanBody Ref.localTZA envNoAI (svPlace (placeNorth 0)) "u1"
      callerLat callerLng 500%R sampleNow [] locFree (collisionWorld 301000)
    = (Ok [Triggered "loc3" "Bakery" None
             "Reminder: You're near a place for Bakery."
             (mkPlaceInfo (Some "p1") (Some "Corner Bakery") (Some (9 # 2)) 0)
             None], w') /\
    (lastTriggeredAt <$> findById "loc3" w') = Some (Some sampleNow) /\
    (ttsStatus <$> (tts <$> findById "loc3" w')) = Some failed /\
    notifications w' = [].
Proof.
  unfold scanBody.
  replace (dayMismatch locFree (getDay Ref.localTZA sampleNow)
             (getDayString Ref.localTZA sampleNow)) with (@None DayMismatch)
    by reflexivity.
  cbn [throttled locFree sampleDoc lastTriggeredAt title truthyStr negb String.eqb
       Ascii.eqb Bool.eqb].
  replace (nearbyBestPlaceByKeyword (svPlace (placeNorth 0)) callerLat callerLng
             (radiusOf 500) "Bakery") with (Ok (Some (placeNorth 0))) by reflexivity.
  rewrite distanceTo_here.
  eexists. split; [reflexivity|]. split; [reflexivity|]. split; reflexivity.
Qed.

(** The first call synthesises the cached line; the second finds the hash. *)
Lemma ensureReminderTTS_idempotent_witness :
  exists r1 w1,
    ensureReminderTTS envNoAI (svLine newLine) "loc3" None None linedWorld = (Ok r1, w1) /\
    synthLog w1 = [("voice-1", "You are near the bakery, Alice.")] /\
    ensureReminderTTS envNoAI (svLine newLine) "loc3" None None w1 = (Ok r1, w1) /\
    synthLog (snd (ensureReminderTTS envNoAI (svLine newLine) "loc3" None None w1))
    = synthLog w1.
Proof.
  do 2 eexists. split; [vm_compute; reflexivity|].
  split; [reflexivity|].
  apply (ensureReminderTTS_idempotent envNoAI (svLine newLine) "loc3" None None
           linedWorld).
  - vm_compute. reflexivity.
  - eexists. split; [reflexivity|]. discriminate.
Defined.

(** C8, counterexample. The sample reminder has no [startDate]; its speech
    is ready for its cached line.  [processBackgroundAI] replaces the line
    by the one Gemini writes and does not touch the [tts] record: it stays
    ready, with the hash of the old text. *)
Lemma tts_ready_with_stale_hash :
  ttsFresh envAI None None spokenDoc /\ hasAudio spokenDoc /\
  exists r',
    findById "loc3"
      (snd (processBackgroundAI Ref.localTZA Ref.Date_parse Ref.ToString
              Ref.JSON_parse envAI (svLine newLine) "loc3" None spokenWorld))
    = Some r' /\
    aiNotificationLine r' = Some newLine /\
    ttsStatus (tts r') = ready /\
    textHash (tts r')
    <> Some (computeTextHash (ttsText r' None) (ttsVoice envAI None r')).
Proof.
  split; [split; vm_compute; reflexivity|].
  split; [eexists; split; [reflexivity|discriminate]|].
  eexists. split; [vm_compute; reflexivity|].
  split; [reflexivity|]. split; [reflexivity|].
  vm_compute. discriminate.
Qed.

Lemma tts_record_revalidated_witness :
  (forall ov,
     match ensureReminderTTS envAI (svLine newLine) "loc3" None ov spokenWorld with
     | (Ok r', w') =>
         findById "loc3" w' = Some r' /\ ttsFresh envAI None ov r' /\
         (hasAudio r' \/
          exists buffer v,
            synth (svLine newLine) (List.length (synthLog spokenWorld)) v
              (ttsText spokenDoc None) = Ok buffer /\
            audio (tts r') = Some (mkAudio buffer "audio/mpeg" (String.length buffer)))
     | (Throw e, w') =>
         exists r', findById "loc3" w' = Some r' /\ ttsStatus (tts r') = failed
     end) /\
  (forall rem meta w',
     processBackgroundAI Ref.localTZA Ref.Date_parse Ref.ToString Ref.JSON_parse
       envAI (svLine newLine) "loc3" None spokenWorld = (Ok (Some (rem, meta)), w') ->
     exists r', findById "loc3" w' = Some r' /\
       aiNotificationLine r' = aiNotificationLine rem /\
       if isSome (startDate rem)
       then ttsStatus (tts r') = failed \/
            ttsFresh envAI (Some (default (user rem) None)) None r'
       else tts r' = tts spokenDoc).
Proof.
  apply (tts_record_revalidated Ref.localTZA Ref.Date_parse Ref.ToString
           Ref.JSON_parse envAI (svLine newLine) "loc3" None spokenWorld spokenDoc).
  reflexivity.
Defined.

(** The cached line survives an enrichment pass without Gemini. *)
Example processBackgroundAI_keeps_line :
  aiNotificationLine
    <$> findById "loc3"
          (snd (processBackgroundAI Ref.localTZA Ref.Date_parse Ref.ToString
                  Ref.JSON_parse envNoAI svDown "loc3" None spokenWorld))
  = Some (Some "You are near the bakery, Alice.").
Proof. vm_compute. reflexivity. Qed.

Lemma cached_line_kept_witness :
  (forall res w',
     processBackgroundAI Ref.localTZA Ref.Date_parse Ref.ToString Ref.JSON_parse
       envNoAI svDown "loc3" None spokenWorld = (res, w') ->
     (exists r', findById "loc3" w' = Some r' /\
                 aiNotificationLine r' = Some "You are near the bakery, Alice.") /\
     (forall rem' meta, res = Ok (Some (rem', meta)) ->
        aiNotificationLine rem' = Some "You are near the bakery, Alice.")) /\
  (forall r u, aiNotificationLine r = Some "You are near the bakery, Alice." ->
               buildNotificationText r u = "You are near the bakery, Alice.").
Proof.
  apply (cached_line_kept Ref.localTZA Ref.Date_parse Ref.ToString Ref.JSON_parse
           envNoAI svDown "loc3" None spokenWorld spokenDoc).
  - reflexivity.
  - reflexivity.
  - discriminate.
  - apply line_unavailable. reflexivity.
Defined.

(** The scenario of the specification: Gemini proposes a start two days
    ahead; after the enrichment the task starts then, with the lead time of
    the reply and the line of Gemini in one line. *)
Example processBackgroundAI_gemini_sample :
  exists rem' w',
    processBackgroundAI Ref.localTZA Ref.Date_parse Ref.ToString Ref.JSON_parse
      envAI (svSchedule replyTwoDays) "t1" None scheduleWorld
    = (Ok (Some (rem', mkMeta (Some gemini) (Some gemini))), w') /\
    (toISOString <$> startDate rem') = Some "2023-11-16T10:00:00.000Z" /\
    aiSuggested rem' = true /\
    notificationPreferenceMinutes rem' = (15 # 1)%Q /\
    aiNotificationLine rem' = Some "Time to buy milk, Alice!" /\
    (ttsStatus <$> (tts <$> findById "t1" w')) = Some ready.
Proof.
  do 2 eexists. split; [vm_compute; reflexivity|].
  vm_compute. repeat split; reflexivity.
Qed.

Lemma PI_bounds : (314 / 100 < PI < 315 / 100)%R.
Proof.
  pose proof (PI_2_3_7_ineq 1) as [Hlo Hhi].
  unfold sum_f_R0, tg_alt, PI_2_3_7_tg, Ratan_seq in Hlo, Hhi.
  cbn [Nat.mul Nat.add pow INR] in Hlo, Hhi.
  split; lra.
Qed.

Lemma haversineMeters_equator (lon1 lon2 : R) :
  (0 <= lon2 - lon1 < 180)%R ->
  haversineMeters 0 lon1 0 lon2 = (6371000 * toRad (lon2 - lon1))%R.
Proof.
  intros Hd. unfold haversineMeters.
  replace (0 - 0)%R with 0%R by ring.
  assert (Hz : toRad 0 = 0%R) by (unfold toRad; field).
  rewrite Hz. replace (0 / 2)%R with 0%R by field. rewrite sin_0, cos_0.
  set (h := (toRad (lon2 - lon1) / 2)%R).
  assert (Hh : (0 <= h < PI / 2)%R).
  { unfold h, toRad. pose proof PI_RGT_0. split.
    - apply Rmult_le_pos; [|lra]. apply Rmult_le_pos; [|lra].
      apply Rmult_le_pos; lra.
    - assert ((lon2 - lon1) * PI < 180 * PI)%R by (apply Rmult_lt_compat_r; lra).
      lra. }
  replace (0 * 0 + 1 * 1 * sin h * sin h)%R with (Rsqr (sin h)) by (unfold Rsqr; ring).
  rewrite sqrt_Rsqr by (apply sin_ge_0; pose proof PI_RGT_0; lra).
  replace (1 - Rsqr (sin h))%R with (Rsqr (cos h)) by (rewrite cos2; reflexivity).
  rewrite sqrt_Rsqr by (apply cos_ge_0; pose proof PI_RGT_0; lra).
  rewrite atan2_sin_cos by (pose proof PI_RGT_0; lra).
  unfold h. field.
Qed.

(** Scenario 3 of the specification: from (0, 0), a place at longitude
    0.00054 is 60 m away after rounding and passes the default gate; a place
    at longitude 0.001 is 111 m away and is too far. *)
Example distance_scenario :
  distanceTo 0 0 (mkPlace (Some "p1") None None (Some 0%R) (Some (54 / 100000)%R))
  = Some 60 /\
  distanceTo 0 0 (mkPlace (Some "p2") None None (Some 0%R) (Some (1 / 1000)%R))
  = Some 111 /\
  tooFar (Some 60) (MAX_METERS envNoAI) = false /\
  tooFar (Some 111) (MAX_METERS envNoAI) = true.
Proof.
  pose proof PI_bounds as [Hlo Hhi].
  unfold distanceTo. cbn [placeLat placeLng].
  rewrite !haversineMeters_equator by lra.
  unfold Math_round, toRad.
  split; [|split; [|split; reflexivity]].
  - f_equal. symmetry. apply Int_part_spec. lra.
  - f_equal. symmetry. apply Int_part_spec. lra.
Qed.

(* ===================================================================== *)
(** ** The rate limiter *)
(* ===================================================================== *)

Lemma prune_suffix window now arr :
  exists dropped, arr = dropped ++ RateLimiter.prune window now arr /\
    Forall (fun t => window < now - t) dropped /\
    match RateLimiter.prune window now arr with
    | t :: _ => now - t <= window
    | [] => True
    end.
Proof.
  induction arr as [|t rest IH]; [exists []; repeat split; constructor|].
  cbn [RateLimiter.prune]. destruct (window <? now - t) eqn:E.
  - apply Z.ltb_lt in E. destruct IH as (dropped & Hd & Hall & Hhead).
    exists (t :: dropped). split; [cbn; congruence|]. split; [|exact Hhead].
    constructor; assumption.
  - apply Z.ltb_ge in E. exists []. split; [reflexivity|]. split; [constructor|exact E].
Qed.

Lemma prune_length window now arr :
  (List.length (RateLimiter.prune window now arr) <= List.length arr)%nat.
Proof.
  destruct (prune_suffix window now arr) as (dropped & Hd & _).
  rewrite Hd at 2. rewrite length_app. lia.
Qed.

(** On times in order, pruning keeps exactly the times in the window. *)
Lemma prune_sorted window now arr :
  RateLimiter.ascending arr ->
  RateLimiter.prune window now arr = List.filter (RateLimiter.inWindow window now) arr.
Proof.
  induction arr as [|t rest IH]; [reflexivity|]. intros [Hall Hs].
  specialize (IH Hs).
  cbn [RateLimiter.prune List.filter]. unfold RateLimiter.inWindow at 1.
  destruct (window <? now - t) eqn:E.
  - apply Z.ltb_lt in E.
    destruct (now - t <=? window) eqn:E2; [apply Z.leb_le in E2; lia|exact IH].
  - apply Z.ltb_ge in E.
    destruct (now - t <=? window) eqn:E2; [|apply Z.leb_gt in E2; lia].
    f_equal. symmetry. apply forallb_filter_id. apply List.forallb_forall.
    intros x Hx. rewrite List.Forall_forall in Hall. specialize (Hall x Hx).
    unfold RateLimiter.inWindow. apply Z.leb_le. lia.
Qed.

Lemma filter_window_twice window now now' (l : list Z) :
  now <= now' ->
  List.filter (RateLimiter.inWindow window now')
    (List.filter (RateLimiter.inWindow window now) l)
  = List.filter (RateLimiter.inWindow window now') l.
Proof.
  intros Hle. induction l as [|t l IH]; [reflexivity|].
  cbn [List.filter].
  destruct (RateLimiter.inWindow window now t) eqn:E1;
    destruct (RateLimiter.inWindow window now' t) eqn:E2;
    cbn [List.filter]; rewrite ?E2, IH; try reflexivity.
  unfold RateLimiter.inWindow in E1, E2.
  apply Z.leb_le in E2. apply Z.leb_gt in E1. lia.
Qed.

Lemma ascending_filter (p : Z -> bool) l :
  RateLimiter.ascending l -> RateLimiter.ascending (List.filter p l).
Proof.
  induction l as [|t l IH]; [auto|]. intros [Hall Hs]. cbn [List.filter].
  destruct (p t); [|auto]. split; [|auto].
  rewrite List.Forall_forall in *. intros x Hx. apply List.filter_In in Hx as [Hx _].
  auto.
Qed.

Lemma ascending_snoc l x :
  RateLimiter.ascending l -> Forall (fun t => t <= x) l ->
  RateLimiter.ascending (l ++ [x]).
Proof.
  induction l as [|t l IH]; intros Hs Hall; [cbn; auto|].
  destruct Hs as [Hle Hs]. inversion Hall as [|? ? Ht Hl]; subst.
  cbn. split; [|auto]. apply Forall_app. split; [exact Hle|]. constructor; [exact Ht|constructor].
Qed.

Lemma timesOf_snoc key log k t :
  RateLimiter.timesOf key (log ++ [(k, t)]) =
  RateLimiter.timesOf key log ++ (if String.eqb k key then [t] else []).
Proof.
  unfold RateLimiter.timesOf. rewrite List.filter_app, List.map_app. cbn.
  destruct (String.eqb k key); reflexivity.
Qed.

(** One request: the verdict is that of the sliding window, and the
    buckets keep the log extended by the request when it is let through. *)
Lemma rateLimit_step window T buckets log options req now :
  RateLimiter.keepsLog window T buckets log -> T <= now ->
  RateLimiter.windowOf options = window ->
  let key := RateLimiter.makeKey req (RateLimiter.keyTypeOf options) in
  let recent := List.filter (RateLimiter.inWindow window now) (RateLimiter.timesOf key log) in
  if RateLimiter.maxOf options <=? Z.of_nat (List.length recent)
  then fst (RateLimiter.rateLimit options req now buckets) = RateLimiter.tooManyAttempts /\
       RateLimiter.keepsLog window now
         (snd (RateLimiter.rateLimit options req now buckets)) log
  else fst (RateLimiter.rateLimit options req now buckets) = RateLimiter.next /\
       RateLimiter.keepsLog window now
         (snd (RateLimiter.rateLimit options req now buckets)) (log ++ [(key, now)]).
Proof.
  intros Hinv Hle Hw. cbv zeta.
  set (key := RateLimiter.makeKey req (RateLimiter.keyTypeOf options)).
  unfold RateLimiter.rateLimit. fold key. rewrite Hw.
  destruct (Hinv key) as (Hasc & Hall & Hfil).
  rewrite (prune_sorted window now _ Hasc), (Hfil now Hle).
  set (recent := List.filter (RateLimiter.inWindow window now) (RateLimiter.timesOf key log)).
  assert (Hrec : RateLimiter.ascending recent /\ Forall (fun t => t <= now) recent).
  { unfold recent. rewrite <- (Hfil now Hle). split; [apply ascending_filter; exact Hasc|].
    rewrite List.Forall_forall in *. intros x Hx. apply List.filter_In in Hx as [Hx _].
    specialize (Hall x Hx). lia. }
  destruct Hrec as [Hra Hrl].
  assert (Hother : forall key' arr', key' <> key ->
    RateLimiter.ascending (default [] (<[key := arr']> buckets !! key')) /\
    Forall (fun t => t <= now) (default [] (<[key := arr']> buckets !! key')) /\
    forall now', now <= now' ->
      List.filter (RateLimiter.inWindow window now') (default [] (<[key := arr']> buckets !! key'))
      = List.filter (RateLimiter.inWindow window now') (RateLimiter.timesOf key' log)).
  { intros key' arr' Hne. rewrite lookup_insert_ne by congruence.
    destruct (Hinv key') as (Ha & Hb & Hc). split; [exact Ha|]. split.
    - rewrite List.Forall_forall in *. intros x Hx. specialize (Hb x Hx). lia.
    - intros now' Hn. apply Hc. lia. }
  destruct (RateLimiter.maxOf options <=? Z.of_nat (List.length recent)); cbn [fst snd];
    (split; [reflexivity|]); unfold RateLimiter.keepsLog; intros key';
    destruct (String.eq_dec key' key) as [->|Hne].
  - rewrite lookup_insert_eq. cbn [default from_option]. unfold Datatypes.id.
    split; [exact Hra|]. split; [exact Hrl|].
    intros now' Hn. unfold recent. apply filter_window_twice. exact Hn.
  - apply Hother. exact Hne.
  - rewrite lookup_insert_eq. cbn [default from_option]. unfold Datatypes.id.
    split; [apply ascending_snoc; assumption|]. split.
    + apply Forall_app. split; [exact Hrl|]. constructor; [lia|constructor].
    + intros now' Hn. rewrite timesOf_snoc, String.eqb_refl, !List.filter_app.
      f_equal. unfold recent. apply filter_window_twice. exact Hn.
  - destruct (Hother key' (recent ++ [now]) Hne) as (Ha & Hb & Hc).
    split; [exact Ha|]. split; [exact Hb|].
    intros now' Hn. rewrite (Hc now' Hn), timesOf_snoc.
    assert (E : String.eqb key key' = false) by (apply String.eqb_neq; congruence).
    rewrite E, app_nil_r. reflexivity.
Qed.

Lemma serve_refines window hits : forall T buckets log,
  RateLimiter.keepsLog window T buckets log ->
  RateLimiter.inOrder T hits ->
  Forall (fun h => RateLimiter.windowOf (RateLimiter.hitOptions h) = window) hits ->
  fst (RateLimiter.serve hits buckets) = RateLimiter.slidingWindow window log hits.
Proof.
  induction hits as [|h rest IH]; intros T buckets log Hinv Hord Hwin; [reflexivity|].
  destruct Hord as [Hle Hord]. inversion Hwin as [|? ? Hw Hwrest]; subst.
  pose proof (rateLimit_step _ T buckets log (RateLimiter.hitOptions h)
                (RateLimiter.hitRequest h) (RateLimiter.hitTime h) Hinv Hle eq_refl) as S.
  cbv zeta in S. fold (RateLimiter.keyOf h) in S.
  cbn [RateLimiter.serve RateLimiter.slidingWindow].
  destruct (RateLimiter.rateLimit (RateLimiter.hitOptions h) (RateLimiter.hitRequest h)
              (RateLimiter.hitTime h) buckets) as [v buckets1].
  cbn [fst snd] in S.
  destruct (RateLimiter.maxOf (RateLimiter.hitOptions h) <=? _);
    destruct S as [-> Hinv1];
    specialize (IH _ _ _ Hinv1 Hord Hwrest);
    destruct (RateLimiter.serve rest buckets1) as [vs buckets2];
    cbn [fst] in *; rewrite IH; reflexivity.
Qed.

(** X19. The rate limiter is a sliding window.  For requests served in
    the order of a clock that does not go back, through limiters of one
    window length (with any [max] and key type each), the verdicts of the
    pruned buckets are those of the reference limiter, which keeps every
    request let through and refuses a request exactly when [max] or more
    requests of the same key were let through during the window before
    it. *)
Theorem rateLimit_is_sliding_window window t0 hits :
  RateLimiter.inOrder t0 hits ->
  Forall (fun h => RateLimiter.windowOf (RateLimiter.hitOptions h) = window) hits ->
  fst (RateLimiter.serve hits ∅) = RateLimiter.slidingWindow window [] hits.
Proof.
  intros Hord Hwin. apply (serve_refines window hits t0); [|exact Hord|exact Hwin].
  intros key. rewrite lookup_empty. cbn. repeat split; try constructor.
Qed.

Lemma rateLimit_bounded m options req now buckets :
  0 <= m -> RateLimiter.maxOf options <= m ->
  RateLimiter.bounded m buckets ->
  RateLimiter.bounded m (snd (RateLimiter.rateLimit options req now buckets)).
Proof.
  intros Hm Hmax Hb. unfold RateLimiter.rateLimit.
  set (key := RateLimiter.makeKey req (RateLimiter.keyTypeOf options)).
  set (arr := RateLimiter.prune _ _ _).
  assert (Harr : Z.of_nat (List.length arr) <= m).
  { unfold arr. pose proof (prune_length (RateLimiter.windowOf options) now
                              (default [] (buckets !! key))) as L.
    destruct (buckets !! key) as [old|] eqn:E; cbn in L |- *; [|lia].
    specialize (Hb key old E). lia. }
  destruct (RateLimiter.maxOf options <=? Z.of_nat (List.length arr)) eqn:E;
    cbn [snd]; intros key' arr' Hl;
    destruct (String.eq_dec key' key) as [->|Hne].
  - rewrite lookup_insert_eq in Hl. injection Hl as <-. exact Harr.
  - rewrite lookup_insert_ne in Hl by congruence. exact (Hb key' arr' Hl).
  - rewrite lookup_insert_eq in Hl. injection Hl as <-.
    apply Z.leb_gt in E. rewrite length_app. cbn [List.length]. lia.
  - rewrite lookup_insert_ne in Hl by congruence. exact (Hb key' arr' Hl).
Qed.

(** X20. The memory of the rate limiter is bounded per key: whatever the
    requests and their times, after serving requests through limiters whose
    [max] is at most [m], no bucket holds more than [m] times. *)
Theorem rateLimit_buckets_bounded m hits :
  0 <= m ->
  Forall (fun h => RateLimiter.maxOf (RateLimiter.hitOptions h) <= m) hits ->
  RateLimiter.bounded m (snd (RateLimiter.serve hits ∅)).
Proof.
  intros Hm Hall.
  assert (G : forall buckets, RateLimiter.bounded m buckets ->
                RateLimiter.bounded m (snd (RateLimiter.serve hits buckets))).
  { induction hits as [|h rest IH]; intros buckets Hb; [exact Hb|].
    inversion Hall as [|? ? Hh Hrest]; subst.
    cbn [RateLimiter.serve].
    pose proof (rateLimit_bounded m (RateLimiter.hitOptions h) (RateLimiter.hitRequest h)
                  (RateLimiter.hitTime h) buckets Hm Hh Hb) as B1.
    destruct (RateLimiter.rateLimit _ _ _ buckets) as [v buckets1]. cbn [snd] in B1.
    specialize (IH Hrest buckets1 B1).
    destruct (RateLimiter.serve rest buckets1) as [vs buckets2]. exact IH. }
  apply G. intros key arr Hl. rewrite lookup_empty in Hl. discriminate.
Qed.

(** X21. One request through the rate limiter touches the bucket of its
    key only.  From that bucket it drops a run of the oldest times, every
    one of them older than the window, and stops at the first time that is
    not; then a request that is let through is added at the end, and a
    refused request is not recorded. *)
Theorem rateLimit_one_request options req now buckets :
  let key := RateLimiter.makeKey req (RateLimiter.keyTypeOf options) in
  let old := default [] (buckets !! key) in
  let v := fst (RateLimiter.rateLimit options req now buckets) in
  let buckets' := snd (RateLimiter.rateLimit options req now buckets) in
  (forall key', key' <> key -> buckets' !! key' = buckets !! key') /\
  exists dropped kept,
    old = dropped ++ kept /\
    Forall (fun t => RateLimiter.windowOf options < now - t) dropped /\
    match kept with
    | t :: _ => now - t <= RateLimiter.windowOf options
    | [] => True
    end /\
    (v = RateLimiter.tooManyAttempts <->
     RateLimiter.maxOf options <= Z.of_nat (List.length kept)) /\
    buckets' !! key =
      Some (match v with
            | RateLimiter.next => kept ++ [now]
            | RateLimiter.tooManyAttempts => kept
            end).
Proof.
  cbv zeta. unfold RateLimiter.rateLimit.
  set (key := RateLimiter.makeKey req (RateLimiter.keyTypeOf options)).
  destruct (prune_suffix (RateLimiter.windowOf options) now (default [] (buckets !! key)))
    as (dropped & Hd & Hall & Hhead).
  set (kept := RateLimiter.prune _ _ _) in *.
  destruct (RateLimiter.maxOf options <=? Z.of_nat (List.length kept)) eqn:E;
    cbn [fst snd]; (split; [intros key' Hne; apply lookup_insert_ne; congruence|]);
    exists dropped, kept; (split; [exact Hd|]); (split; [exact Hall|]);
    (split; [exact Hhead|]); (split; [|apply lookup_insert_eq]).
  - apply Z.leb_le in E. split; auto.
  - apply Z.leb_gt in E. split; [discriminate|lia].
Qed.

(* ===================================================================== *)
(** ** Paging and field selection *)
(* ===================================================================== *)

(** X22. [getReminders] and [listNotifications] bound their pages.  In
    [getReminders], whatever the query holds, the page is at least 1, the
    limit lies between 1 and 100 and the number of skipped documents is not
    negative.  In [listNotifications] the same bounds hold when the
    parameter is absent, empty or starts with a number; a parameter that is
    not a number leaves [NaN] for the page, the limit and the skip. *)
Theorem paging_bounds page limit :
  (1 <= pageNum page /\ 1 <= limitNum limit <= 100 /\
   0 <= (pageNum page - 1) * limitNum limit) /\
  (forall p, notificationsPage page = Some p -> 1 <= p) /\
  (forall l, notificationsLimit limit = Some l -> 1 <= l <= 100) /\
  (forall k, notificationsSkip page limit = Some k -> 0 <= k) /\
  (notificationsPage page = None <->
   exists s, page = Some s /\ s <> EmptyString /\ parseInt s = None).
Proof.
  split; [|split; [|split; [|split]]].
  - unfold pageNum, limitNum. nia.
  - unfold notificationsPage, mathMax. intros p.
    destruct (parseInt _) as [n|]; [|discriminate]. cbn. intros [= <-]. lia.
  - unfold notificationsLimit, mathMin, mathMax. intros l.
    destruct (parseInt _) as [n|]; [|discriminate]. cbn. intros [= <-]. lia.
  - unfold notificationsSkip, notificationsPage, notificationsLimit, mathMin, mathMax.
    intros k. destruct (parseInt _) as [n|]; [|discriminate].
    destruct (parseInt _) as [n'|]; [|discriminate]. cbn. intros [= <-]. nia.
  - unfold notificationsPage, mathMax, orStr.
    destruct page as [s|]; cbn [truthyStr].
    + destruct (String.eqb s EmptyString) eqn:E; cbn [negb from_option]; unfold Datatypes.id.
      * apply String.eqb_eq in E. subst s. split; [discriminate|].
        intros (s & [= <-] & H & _). congruence.
      * apply String.eqb_neq in E. destruct (parseInt s) as [n|] eqn:P; cbn.
        -- split; [discriminate|]. intros (s' & [= <-] & _ & H). congruence.
        -- split; [|reflexivity]. intros _. exists s. auto.
    + cbn. split; [discriminate|]. intros (s & H & _). discriminate.
Qed.

Lemma assoc_pick (f : string -> option JValue) k (keys : list string) :
  NoDup keys ->
  assoc k (omap (fun k' => pair k' <$> f k') keys) = if bool_decide (k ∈ keys) then f k else None.
Proof.
  induction keys as [|k' keys IH]; intros Hnd; [reflexivity|].
  apply NoDup_cons in Hnd as [Hnotin Hnd]. specialize (IH Hnd).
  set (g := fun k' => pair k' <$> f k') in *.
  change (omap g (k' :: keys))
    with (match g k' with Some y => y :: omap g keys | None => omap g keys end).
  unfold g at 1. destruct (f k') as [v|] eqn:Fk; cbn [fmap option_fmap option_map].
  - cbn [assoc]. rewrite IH.
    destruct (bool_decide (k ∈ keys)) eqn:B.
    + apply bool_decide_eq_true in B.
      rewrite bool_decide_eq_true_2 by (right; exact B).
      destruct (f k); [reflexivity|].
      destruct (String.eqb k k') eqn:E; [|reflexivity].
      apply String.eqb_eq in E. subst k'. contradiction.
    + apply bool_decide_eq_false in B.
      destruct (String.eqb k k') eqn:E.
      * apply String.eqb_eq in E. subst k'.
        rewrite bool_decide_eq_true_2 by left. congruence.
      * apply String.eqb_neq in E.
        rewrite bool_decide_eq_false_2; [reflexivity|].
        intros H. apply elem_of_cons in H as [H|H]; contradiction.
  - rewrite IH.
    destruct (bool_decide (k ∈ keys)) eqn:B.
    + apply bool_decide_eq_true in B.
      rewrite bool_decide_eq_true_2 by (right; exact B). reflexivity.
    + apply bool_decide_eq_false in B.
      destruct (String.eq_dec k k') as [->|Hne].
      * rewrite bool_decide_eq_true_2 by left. congruence.
      * rewrite bool_decide_eq_false_2; [reflexivity|].
        intros H. apply elem_of_cons in H as [H|H]; contradiction.
Qed.

(** X23. [pickReminderFields] keeps the allowed fields of the request body,
    with their values, and nothing else: the owner, the id, the speech
    record, the notification line and the AI flag of a reminder cannot be
    set through an update. *)
Theorem pickReminderFields_allowed_only src k :
  assoc k (pickReminderFields src) = (if bool_decide (k ∈ allowed) then prop k src else None) /\
  (In k ["_id"; "user"; "tts"; "aiNotificationLine"; "aiSuggested"; "createdAt"] ->
   assoc k (pickReminderFields src) = None).
Proof.
  assert (H : assoc k (pickReminderFields src)
              = if bool_decide (k ∈ allowed) then prop k src else None).
  { unfold pickReminderFields. apply assoc_pick.
    unfold allowed. repeat (apply NoDup_cons; split;
              [rewrite list_elem_of_In; cbn; intuition discriminate|]).
    apply NoDup_nil_2. }
  split; [exact H|].
  intros Hin. rewrite H.
  rewrite bool_decide_eq_false_2; [reflexivity|].
  unfold allowed. intros Hel. rewrite list_elem_of_In in Hel. cbn in Hin, Hel.
  repeat (destruct Hin as [<-|Hin]; [intuition discriminate|]). destruct Hin.
Qed.

(* ===================================================================== *)
(** ** Further properties on the sample data *)
(* ===================================================================== *)

(** X14. On a meridian and on the equator the distance of
    [haversineMeters] is the length of the arc between the two points, in
    either direction: 6371000 m times the angle in radians, for angles under
    180 degrees. *)
Theorem haversineMeters_arcs :
  (forall lat1 lat2 lon, (Rabs (lat2 - lat1) < 180)%R ->
     haversineMeters lat1 lon lat2 lon = (6371000 * toRad (Rabs (lat2 - lat1)))%R) /\
  (forall lon1 lon2, (Rabs (lon2 - lon1) < 180)%R ->
     haversineMeters 0 lon1 0 lon2 = (6371000 * toRad (Rabs (lon2 - lon1)))%R).
Proof.
  split.
  - intros lat1 lat2 lon H. unfold Rabs in *.
    destruct (Rcase_abs (lat2 - lat1)) as [Hneg|Hpos].
    + rewrite haversineMeters_term, haversineTerm_sym, <- haversineMeters_term.
      rewrite haversineMeters_meridian by lra. f_equal. f_equal. ring.
    + apply haversineMeters_meridian. lra.
  - intros lon1 lon2 H. unfold Rabs in *.
    destruct (Rcase_abs (lon2 - lon1)) as [Hneg|Hpos].
    + rewrite haversineMeters_term, haversineTerm_sym, <- haversineMeters_term.
      rewrite haversineMeters_equator by lra. f_equal. f_equal. ring.
    + apply haversineMeters_equator. lra.
Qed.

Lemma findSmartSlot_earliest_witness :
  exists res,
    findSmartSlot Ref.localTZA Ref.Date_parse "u1" sampleNow scheduleWorld
      = (Ok res, scheduleWorld) /\
    (res = None <-> forall t, ~ freeSlot Ref.localTZA scheduleWorld "u1" sampleNow t) /\
    (forall x, res = Some x ->
       exists t, x = DateOf t /\ freeSlot Ref.localTZA scheduleWorld "u1" sampleNow t /\
         forall t', freeSlot Ref.localTZA scheduleWorld "u1" sampleNow t' -> t <= t').
Proof.
  apply (findSmartSlot_earliest Ref.localTZA Ref.Date_parse
           Ref_Date_parse_toISOString "u1" sampleNow scheduleWorld).
  - unfold validTime, sampleNow. lia.
  - unfold validTime, sampleNow. lia.
Defined.

(** The entries 8, 'x' and the days 1, 3, 5 of a routine reply. *)
Example suggestFullScheduleWithGemini_routine_sample :
  suggestFullScheduleWithGemini Ref.Date_parse Ref.ToString Ref.JSON_parse
    envAI sampleNow (Ok replyRoutineDays)
  = Ok (Some (mkSchedule JNull routine [1; 3; 5] (mkScheduleTime None (Some "07:30")))).
Proof. vm_compute. reflexivity. Qed.

Lemma gemini_schedule_days_in_range_witness :
  Forall (fun d => 0 <= d <= 6) [1; 3; 5] /\
  exists raw obj, Ok replyRoutineDays = Ok raw /\
    parseReply Ref.JSON_parse (trim raw) = Some obj /\
    [1; 3; 5] =
      match prop "scheduleDays" obj with
      | Some (JArr items) => omap dayOfValue items
      | _ => []
      end.
Proof.
  apply (gemini_schedule_days_in_range Ref.Date_parse Ref.ToString Ref.JSON_parse
           envAI sampleNow (Ok replyRoutineDays)
           (mkSchedule JNull routine [1; 3; 5] (mkScheduleTime None (Some "07:30")))).
  vm_compute. reflexivity.
Defined.

Lemma processBackgroundAI_line_present_witness :
  exists rem meta w',
    processBackgroundAI Ref.localTZA Ref.Date_parse Ref.ToString Ref.JSON_parse
      envNoAI svDown "t1" None scheduleWorld = (Ok (Some (rem, meta)), w') /\
    exists s, s <> EmptyString /\ aiNotificationLine rem = Some s /\
      (exists r', findById "t1" w' = Some r' /\ aiNotificationLine r' = Some s) /\
      (lineSource meta = None ->
       exists rem0, findById "t1" scheduleWorld = Some rem0 /\
         aiNotificationLine rem0 = Some s).
Proof.
  do 3 eexists. split; [vm_compute; reflexivity|].
  eapply (processBackgroundAI_line_present Ref.localTZA Ref.Date_parse Ref.ToString
            Ref.JSON_parse envNoAI svDown "t1" None scheduleWorld).
  vm_compute. reflexivity.
Defined.

Lemma processBackgroundAI_keeps_manual_schedule_witness :
  exists line meta w' t,
    processBackgroundAI Ref.localTZA Ref.Date_parse Ref.ToString Ref.JSON_parse
      envAI (svSchedule replyTwoDays) "m1" None scheduleWorld =
      (Ok (Some (set_aiNotificationLine line meetingDoc, meta)), w') /\
    scheduleSource meta = None /\
    findById "m1" w' = Some (set_tts t (set_aiNotificationLine line meetingDoc)) /\
    (forall id', id' <> "m1" -> findById id' w' = findById id' scheduleWorld) /\
    notifications w' = notifications scheduleWorld /\
    (startDate meetingDoc = None ->
     t = tts meetingDoc /\ synthLog w' = synthLog scheduleWorld) /\
    (synthLog w' = synthLog scheduleWorld \/
     exists v text, synthLog w' = synthLog scheduleWorld ++ [(v, text)]).
Proof.
  apply (processBackgroundAI_keeps_manual_schedule Ref.localTZA Ref.Date_parse
           Ref.ToString Ref.JSON_parse envAI (svSchedule replyTwoDays) "m1" None
           scheduleWorld meetingDoc).
  - reflexivity.
  - right. left. discriminate.
Defined.

(** The meeting of the sample has a [startDate]: its speech is requested,
    once, and its stored [tts] record is rewritten. *)
Example processBackgroundAI_meeting_speech :
  let w' := snd (processBackgroundAI Ref.localTZA Ref.Date_parse Ref.ToString
                   Ref.JSON_parse envAI (svSchedule replyTwoDays) "m1" None
                   scheduleWorld) in
  List.length (synthLog w') = 1%nat /\
  (tts <$> findById "m1" w') <> Some (tts meetingDoc).
Proof. vm_compute. split; [reflexivity|discriminate]. Qed.

Lemma gemini_one_day_schedule_applied_witness :
  (exists d rem meta w',
     sampleNow < d /\
     processBackgroundAI Ref.localTZA Ref.Date_parse Ref.ToString Ref.JSON_parse
       envAI (svSchedule replyTwoDays) "t1" None scheduleWorld
       = (Ok (Some (rem, meta)), w') /\
     scheduleSource meta = Some gemini /\
     startDate rem = Some d /\
     scheduleType rem = Some oneDay /\
     scheduleDays rem = Some [] /\
     scheduleTime rem = Some (mkScheduleTime (Some (15 # 1)) None) /\
     notificationPreferenceMinutes rem = default (10 # 1)%Q (Some (15 # 1)%Q) /\
     (0 <= notificationPreferenceMinutes rem)%Q /\
     aiSuggested rem = true) /\
  processBackgroundAI Ref.localTZA Ref.Date_parse Ref.ToString Ref.JSON_parse
    envAI (svSchedule replyNegativeLead) "t1" None scheduleWorld
  = (Throw "Reminder validation failed", scheduleWorld).
Proof.
  split.
  - destruct (gemini_one_day_schedule_applied Ref.localTZA Ref.Date_parse
                Ref.ToString Ref.JSON_parse envAI (svSchedule replyTwoDays) "t1"
                None scheduleWorld taskDoc
                (mkSchedule (JStr "2023-11-16T10:00:00Z") oneDay []
                   (mkScheduleTime (Some (15 # 1)) None)))
      as (d & _ & Hlt & _ & H);
      [reflexivity | reflexivity | reflexivity | reflexivity | reflexivity
      | vm_compute; reflexivity | reflexivity |].
    destruct H as (rem & meta & w' & H).
    + intros q [= <-]. unfold Qle. cbn. lia.
    + exists d, rem, meta, w'. split; [exact Hlt|exact H].
  - destruct (gemini_one_day_schedule_applied Ref.localTZA Ref.Date_parse
                Ref.ToString Ref.JSON_parse envAI (svSchedule replyNegativeLead) "t1"
                None scheduleWorld taskDoc
                (mkSchedule (JStr "2023-11-16T10:00:00Z") oneDay []
                   (mkScheduleTime (Some (-5 # 1)) None)))
      as (d & _ & _ & H & _);
      [reflexivity | reflexivity | reflexivity | reflexivity | reflexivity
      | vm_compute; reflexivity | reflexivity |].
    apply (H (-5 # 1)%Q); [reflexivity|]. unfold Qlt. cbn. lia.
Defined.

(** The speech service answers 429: the record of the sample reminder is
    left failed, with the hash of the attempt. *)
Lemma ensureReminderTTS_failure_witness :
  (exists r', findById "loc3"
                (snd (ensureReminderTTS envNoAI svDown "loc3" None None linedWorld))
              = Some r' /\
     ttsStatus (tts r') = failed /\
     textHash (tts r') =
       Some (computeTextHash (ttsText linedDoc None) (ttsVoice envNoAI None linedDoc)) /\
     voiceId (tts r') = ttsVoice envNoAI None linedDoc /\
     audio (tts r') = audio (tts linedDoc) /\
     generatedAt (tts r') = None /\
     forall hash, ttsUpToDate (tts r') hash = false) /\
  (truthyStr (ELEVENLABS_API_KEY envNoAI) = false ->
     "429" = "ELEVENLABS_API_KEY not configured" /\
     synthLog (snd (ensureReminderTTS envNoAI svDown "loc3" None None linedWorld))
     = synthLog linedWorld).
Proof.
  apply (ensureReminderTTS_failure envNoAI svDown "loc3" None None linedWorld linedDoc).
  - reflexivity.
  - vm_compute. reflexivity.
Defined.

(** Without a key nothing is sent. *)
Example ensureReminderTTS_no_key :
  exists w',
    ensureReminderTTS envNoKey (svLine newLine) "loc3" None None linedWorld
    = (Throw "ELEVENLABS_API_KEY not configured", w') /\
    synthLog w' = [] /\
    (ttsStatus <$> (tts <$> findById "loc3" w')) = Some failed.
Proof. eexists. split; [vm_compute; reflexivity|]. split; reflexivity. Qed.

Lemma retrigger_throttled_witness :
  exists w' r',
    findById "loc3" w' = Some r' /\
    lastTriggeredAt r' = Some sampleNow /\
    forall env2 sv2 lat2 lng2 radius2 now2 out2 w2,
      now2 - sampleNow < 90 * 60000 ->
      exists reason,
        scanBody Ref.localTZA env2 sv2 "u1" lat2 lng2 radius2 now2 out2 r' w2 =
        (Ok (out2 ++ [Skipped (_id r') reason]), w2).
Proof.
  destruct scan_trigger_sample as (w' & Hrun & _).
  exists w'.
  apply (retrigger_throttled Ref.localTZA envNoAI (svPlace (placeNorth 0)) "u1"
           callerLat callerLng 500%R sampleNow [] locFree (collisionWorld 301000)
           (Triggered "loc3" "Bakery" None
              "Reminder: You're near a place for Bakery."
              (mkPlaceInfo (Some "p1") (Some "Corner Bakery") (Some (9 # 2)) 0)
              None) w').
  - cbn. auto.
  - exact Hrun.
  - reflexivity.
Defined.

Lemma distance_gate_without_maximum_witness :
  MAX_METERS (envMax "sixty") = None /\
  (forall d, tooFar (Some d) (MAX_METERS (envMax "sixty")) = false) /\
  tooFar None (MAX_METERS (envMax "sixty")) = true /\
  (In (_id locFree) (idsOf scanWorld) ->
   reachesPlace Ref.localTZA (svPlace (placeNorth 5000)) callerLat callerLng 500%R
     locFree sampleNow (placeNorth 5000) ->
   isSome (placeLat (placeNorth 5000)) = true ->
   isSome (placeLng (placeNorth 5000)) = true ->
   exists o w',
     scanBody Ref.localTZA (envMax "sixty") (svPlace (placeNorth 5000)) "u1"
       callerLat callerLng 500%R sampleNow [] locFree scanWorld
     = (Ok ([] ++ [o]), w') /\
     notTooFar locFree o).
Proof.
  apply (distance_gate_without_maximum Ref.localTZA (envMax "sixty")
           (svPlace (placeNorth 5000)) "u1" callerLat callerLng 500%R sampleNow []
           locFree scanWorld (placeNorth 5000) "sixty").
  - reflexivity.
  - discriminate.
  - reflexivity.
Defined.

Lemma generated_line_is_one_line_witness :
  oneLine "Time to buy milk, Alice!" = true /\
  exists lineRaw,
    Ok rawLine = Ok lineRaw /\
    "Time to buy milk, Alice!" = collapseWhite false (trim lineRaw).
Proof.
  apply (generated_line_is_one_line envAI).
  vm_compute. reflexivity.
Defined.

(** The burst on the forgot-password limiter: five requests pass, the sixth
    is refused, and a request a minute after the first passes again. *)
Example rateLimit_burst :
  fst (RateLimiter.serve RateLimiter.burst ∅)
  = [RateLimiter.next; RateLimiter.next; RateLimiter.next; RateLimiter.next;
     RateLimiter.next; RateLimiter.tooManyAttempts; RateLimiter.next] /\
  snd (RateLimiter.serve RateLimiter.burst ∅) !! "email:ann@example.com"
  = Some [2000; 3000; 4000; 5000; 61001].
Proof. split; vm_compute; reflexivity. Qed.

Lemma rateLimit_is_sliding_window_witness :
  fst (RateLimiter.serve RateLimiter.burst ∅)
  = RateLimiter.slidingWindow 60000 [] RateLimiter.burst.
Proof.
  apply (rateLimit_is_sliding_window 60000 0 RateLimiter.burst).
  - cbn. lia.
  - repeat constructor.
Defined.

Lemma rateLimit_buckets_bounded_witness :
  RateLimiter.bounded 5 (snd (RateLimiter.serve RateLimiter.burst ∅)).
Proof.
  apply (rateLimit_buckets_bounded 5 RateLimiter.burst).
  - lia.
  - repeat constructor; cbn; lia.
Defined.


Lemma speech_round_trip_witness :
  exists t w',
    ensureReminderTTSNow envNoAI (svLine newLine) alice "loc3" linedWorld
      = (success t, w') /\
    ttsStatus t = ready /\
    exists a, audio t = Some a /\
      ((w' = linedWorld /\ t = tts linedDoc /\ data a <> EmptyString) \/
       (exists v, synth (svLine newLine) (List.length (synthLog linedWorld)) v
                    (ttsText linedDoc (Some alice)) = Ok (data a) /\
          synthLog w' = synthLog linedWorld ++ [(v, ttsText linedDoc (Some alice))] /\
          contentType a = "audio/mpeg" /\ size a = String.length (data a))) /\
      (contentType a <> EmptyString ->
       getReminderTTS (user_id alice) "loc3" w' =
       success (mkAudioStream (contentType a)
                  (if (size a =? 0)%nat then None else Some (size a)) (data a))).
Proof.
  do 2 eexists. split; [vm_compute; reflexivity|].
  eapply (speech_round_trip envNoAI (svLine newLine) alice "loc3" linedWorld linedDoc).
  - reflexivity.
  - reflexivity.
  - vm_compute. reflexivity.
Defined.

(** The audio asked for and streamed on the sample world. *)
Example speech_round_trip_sample :
  getReminderTTS "u1" "loc3"
    (snd (ensureReminderTTSNow envNoAI (svLine newLine) alice "loc3" linedWorld))
  = success (mkAudioStream "audio/mpeg" (Some 9%nat) "ID3-fresh") /\
  getReminderTTS "u1" "loc3" linedWorld = notFound "TTS not available".
Proof. split; vm_compute; reflexivity. Qed.

Lemma deleteReminder_removes_witness :
  exists w',
    deleteReminder sampleCast sampleCastError "u1" "t1" scheduleWorld
      = (success tt, w') /\
    findById "t1" w' = None /\
    getReminder "u1" "t1" w' = notFound "Reminder not found" /\
    (forall id', id' <> "t1" -> findById id' w' = findById id' scheduleWorld) /\
    notifications w' = notifications scheduleWorld /\ clock w' = clock scheduleWorld.
Proof.
  apply (deleteReminder_removes sampleCast sampleCastError "u1" "t1" scheduleWorld
           taskDoc).
  - unfold idsOf. cbn.
    repeat (apply NoDup_cons; split;
              [rewrite list_elem_of_In; cbn; intuition discriminate|]).
    apply NoDup_nil_2.
  - reflexivity.
Defined.

(** A meeting that asks for an AI routine is created manual and one-day,
    with the lead time of its schedule time. *)
Example meeting_payload_sample :
  exists p,
    createReminderPayload Ref.Date_parse Ref.ToString "u1" meetingBody = inr p /\
    pIsManualSchedule p = true /\
    pScheduleType p = Some (JStr "one-day") /\
    pScheduleDays p = Some (JArr []) /\
    pNotificationPreferenceMinutes p = JNum (30 # 1) /\
    pStartDate p = Some (DateOf 1700128800000).
Proof. eexists. split; [vm_compute; reflexivity|]. repeat split. Qed.

(** Pages of the two listings. *)
Example paging_sample :
  pageNum (Some "abc") = 1 /\ limitNum (Some "1000") = 100 /\
  limitNum (Some "-3") = 1 /\ limitNum None = 50 /\
  notificationsPage (Some "abc") = None /\
  notificationsLimit (Some "1000") = Some 100 /\
  notificationsSkip (Some "3") None = Some 100.
Proof. repeat split. Qed.

(** A routine of Gemini whose start is not a date is refused by the schema
    when the reminder is saved: nothing is written. *)
Lemma processBackgroundAI_throws_before_writing_witness :
  snd (processBackgroundAI Ref.localTZA Ref.Date_parse Ref.ToString Ref.JSON_parse
         envAI (svSchedule replyRoutineBadDate) "t1" None scheduleWorld)
  = scheduleWorld.
Proof.
  apply (processBackgroundAI_throws_before_writing Ref.localTZA Ref.Date_parse
           Ref.ToString Ref.JSON_parse envAI (svSchedule replyRoutineBadDate) "t1" None
           scheduleWorld "Reminder validation failed").
  vm_compute. reflexivity.
Defined.

Lemma reply_wrapped_in_prose_witness :
  (forall pre mid post,
     replyFortyDays = pre +:+ String "{" (mid +:+ String "}" post) ->
     allChars (fun a => negb (Ascii.eqb a "{")) pre = true ->
     allChars (fun a => negb (Ascii.eqb a "}")) post = true ->
     parseReply Ref.JSON_parse replyFortyDays
     = Ref.JSON_parse (String "{" (mid +:+ "}"))) /\
  (matchJsonBlock replyFortyDays = None ->
   parseReply Ref.JSON_parse replyFortyDays = None).
Proof.
  apply (reply_wrapped_in_prose Ref.JSON_parse replyFortyDays).
  vm_compute. reflexivity.
Defined.
